(** * Daemon autonomy engine: shield, planner, judge and task state

    A shallow embedding of the decision code of [autonomy_engine]
    ([shield.py], [plan_utils.py], [manifest.py], [policy.py], [judge.py],
    [openai_client.py], [taskspec.py], and parts of [run.py],
    [perception.py] and [semantics.py]) and the properties of its
    specification.

    Conventions of the model.
    - Python's dynamically typed values (what [json.load] produces and what
      the code inspects with [isinstance]) are the inductive [value].
      A [dict] is an association list in insertion order; its keys are
      distinct in Python, and [dict_get] returns the first binding.
    - A Python [float] that a value or the task state holds is modelled by
      an exact rational ([Q]): comparisons, [min], [max] and clamping are
      exact, and rounding is outside the model.  What [float()] returns is
      an [xfloat], which may also be an infinity or nan (from text such as
      [inf], or from a sum beyond the range of a double); [_sanitize_args]
      and [choose_arg_values] compute with these as Python's [max] and
      [min] do.  Where the code goes on with a number that the model holds
      as a rational ([py_float]), an infinity or nan ends the run with
      [NonFinite].  [float(n)] of an [int] beyond the range of a double
      raises [OverflowError] ([to_float], [number_float]); [number_value],
      which reads the rectangles and the parameters of a task file, takes
      the int as the number it is.
    - A [str] is a [string] of characters with code below 256; [upper],
      [lower] and [strip] act on ASCII letters and on the white space of
      that range.
    - Code that can raise returns a [result]; [Raise] carries the exception.
    - What the interpreter supplies and the repository does not define
      ([repr], parsing a float or a JSON document from text) is a field of
      the class [Builtins]; SHA-256 is written out after FIPS 180-4. *)

From Stdlib Require Import QArith Qround Qabs ZArith String Ascii List Lia Lqa Bool.
From stdpp Require Import gmap strings pretty.
Import ListNotations.

Set Warnings "-register-all".

Local Open Scope string_scope.
Local Open Scope Q_scope.

(** ** Python values *)

Inductive value : Type :=
| PyNone
| PyBool (b : bool)
| PyInt (n : Z)
| PyFloat (q : Q)
| PyStr (s : string)
| PyList (l : list value)
| PyDict (d : list (string * value)).

Abbreviation pydict := (list (string * value)).

(** The exceptions of Python that occur, and [NonFinite], which is not
    one of them: it ends a run in which [float()] gave nan or an infinity
    at a place where the model holds a rational number. *)
Inductive exn : Type :=
| TypeError
| ValueError
| OverflowError
| JSONDecodeError
| TimeoutError
| RuntimeError (msg : string)
| NonFinite.

Inductive result (A : Type) : Type :=
| Ok (a : A)
| Raise (e : exn).
Arguments Ok {A} a.
Arguments Raise {A} e.

Definition bind {A B} (r : result A) (k : A -> result B) : result B :=
  match r with
  | Ok a => k a
  | Raise e => Raise e
  end.

Notation "'do' x <- r ; k" := (bind r (fun x => k))
  (at level 10, x name, r at level 100, k at level 200).

(** What [float()] returns: a finite number, an infinity or nan.  A
    [PyFloat] holds a finite one. *)
Inductive xfloat : Type :=
| Fin (q : Q)
| Inf (negative : bool)
| NaN.

Class Builtins := {
  (** [repr(v)], which is what [str(v)] gives for a value that is not a [str] *)
  py_repr : value -> string;
  (** [float(s)] for a [str]: [None] when it raises [ValueError] *)
  float_of_str : string -> option xfloat;
  (** [json.loads(s)]: [None] when it raises [json.JSONDecodeError] *)
  json_loads : string -> option value
}.

(** ** Numbers *)

Definition Qltb (a b : Q) : bool := negb (Qle_bool b a).

(** [max(a, b)]: the first argument unless the second is greater. *)
Definition py_max (a b : Q) : Q := if Qltb a b then b else a.

(** [min(a, b)]: the first argument unless the second is smaller. *)
Definition py_min (a b : Q) : Q := if Qltb b a then b else a.

Definition _clamp (v lo hi : Q) : Q := py_min hi (py_max lo v).

(** [int(q)]: truncation towards zero. *)
Definition py_int (q : Q) : Z :=
  if Qltb q 0 then Qceiling q else Qfloor q.

(** [round(q)]: nearest integer, ties to the even one. *)
Definition py_round (q : Q) : Z :=
  let f := Qfloor q in
  let d := q - inject_Z f in
  if Qltb d (1 # 2) then f
  else if Qltb (1 # 2) d then (f + 1)%Z
  else if Z.even f then f else (f + 1)%Z.

(** ** Floats that need not be finite *)

(** [a < b]: false when either side is nan. *)
Definition xlt (a b : xfloat) : bool :=
  match a, b with
  | NaN, _ | _, NaN => false
  | Fin p, Fin q => Qltb p q
  | Fin _, Inf negative => negb negative
  | Inf negative, Fin _ => negative
  | Inf n1, Inf n2 => n1 && negb n2
  end.

(** [max(a, b)] and [min(a, b)] keep their first argument unless the
    comparison with the second succeeds, so a nan in first place stays. *)
Definition xmax (a b : xfloat) : xfloat := if xlt a b then b else a.

Definition xmin (a b : xfloat) : xfloat := if xlt b a then b else a.

Definition xclamp (v lo hi : xfloat) : xfloat := xmin hi (xmax lo v).

(** The least magnitude that no longer rounds to a finite double:
    [float(n)] raises [OverflowError] from here on, and a sum that reaches
    it is an infinity. *)
Definition double_limit : Z := (2 ^ 1024 - 2 ^ 970)%Z.

Definition in_double_range (q : Q) : bool := Qltb (Qabs q) (inject_Z double_limit).

(** [a + b] *)
Definition xadd (a b : xfloat) : xfloat :=
  match a, b with
  | NaN, _ | _, NaN => NaN
  | Fin p, Fin q => if in_double_range (p + q) then Fin (p + q) else Inf (Qltb (p + q) 0)
  | Fin _, Inf negative | Inf negative, Fin _ => Inf negative
  | Inf n1, Inf n2 => if Bool.eqb n1 n2 then Inf n1 else NaN
  end.

(** [a / 2.0] *)
Definition xhalf (a : xfloat) : xfloat :=
  match a with
  | Fin q => Fin (q / 2)
  | other => other
  end.

(** [int(a)] *)
Definition xint (a : xfloat) : result Z :=
  match a with
  | Fin q => Ok (py_int q)
  | Inf _ => Raise OverflowError
  | NaN => Raise ValueError
  end.

(** [int(round(a))] *)
Definition xround (a : xfloat) : result Z :=
  match a with
  | Fin q => Ok (py_round q)
  | Inf _ => Raise OverflowError
  | NaN => Raise ValueError
  end.

(** The rational of a float the model goes on with. *)
Definition finite (a : xfloat) : result Q :=
  match a with
  | Fin q => Ok q
  | _ => Raise NonFinite
  end.

(** ** Strings *)

Definition upper_ascii (c : ascii) : ascii :=
  let n := nat_of_ascii c in
  if (97 <=? n)%nat && (n <=? 122)%nat then ascii_of_nat (n - 32) else c.

Definition lower_ascii (c : ascii) : ascii :=
  let n := nat_of_ascii c in
  if (65 <=? n)%nat && (n <=? 90)%nat then ascii_of_nat (n + 32) else c.

Fixpoint str_map (f : ascii -> ascii) (s : string) : string :=
  match s with
  | EmptyString => EmptyString
  | String c r => String (f c) (str_map f r)
  end.

Definition upper (s : string) : string := str_map upper_ascii s.
Definition lower (s : string) : string := str_map lower_ascii s.

(** The characters [str.strip] removes. *)
Definition is_space (c : ascii) : bool :=
  let n := nat_of_ascii c in
  ((9 <=? n)%nat && (n <=? 13)%nat) || ((28 <=? n)%nat && (n <=? 32)%nat)
  || (n =? 133)%nat || (n =? 160)%nat.

Fixpoint lstrip (s : string) : string :=
  match s with
  | EmptyString => EmptyString
  | String c r => if is_space c then lstrip r else s
  end.

Fixpoint rstrip (s : string) : string :=
  match s with
  | EmptyString => EmptyString
  | String c r =>
      match rstrip r with
      | EmptyString => if is_space c then EmptyString else String c EmptyString
      | r' => String c r'
      end
  end.

Definition strip (s : string) : string := rstrip (lstrip s).

Definition str_nonempty (s : string) : bool :=
  match s with EmptyString => false | _ => true end.

(** [sub in s] *)
Fixpoint contains (sub s : string) : bool :=
  String.prefix sub s ||
  match s with
  | EmptyString => false
  | String _ r => contains sub r
  end.

Fixpoint str_in (s : string) (l : list string) : bool :=
  match l with
  | [] => false
  | t :: r => String.eqb s t || str_in s r
  end.

(** ** SHA-256 (FIPS 180-4), which [hashlib.sha256] computes *)

Module SHA256.
Local Open Scope Z_scope.

Definition mask32 : Z := 4294967295.
Definition add32 (x y : Z) : Z := Z.land (x + y) mask32.
Definition rotr (n x : Z) : Z :=
  Z.lor (Z.shiftr x n) (Z.land (Z.shiftl x (32 - n)) mask32).
Definition not32 (x : Z) : Z := Z.lxor x mask32.
Definition ch (x y z : Z) : Z := Z.lxor (Z.land x y) (Z.land (not32 x) z).
Definition maj (x y z : Z) : Z :=
  Z.lxor (Z.lxor (Z.land x y) (Z.land x z)) (Z.land y z).
Definition bsig0 (x : Z) : Z := Z.lxor (Z.lxor (rotr 2 x) (rotr 13 x)) (rotr 22 x).
Definition bsig1 (x : Z) : Z := Z.lxor (Z.lxor (rotr 6 x) (rotr 11 x)) (rotr 25 x).
Definition ssig0 (x : Z) : Z := Z.lxor (Z.lxor (rotr 7 x) (rotr 18 x)) (Z.shiftr x 3).
Definition ssig1 (x : Z) : Z := Z.lxor (Z.lxor (rotr 17 x) (rotr 19 x)) (Z.shiftr x 10).

Definition K : list Z :=
  [1116352408; 1899447441; 3049323471; 3921009573; 961987163; 1508970993;
   2453635748; 2870763221; 3624381080; 310598401; 607225278; 1426881987;
   1925078388; 2162078206; 2614888103; 3248222580; 3835390401; 4022224774;
   264347078; 604807628; 770255983; 1249150122; 1555081692; 1996064986;
   2554220882; 2821834349; 2952996808; 3210313671; 3336571891; 3584528711;
   113926993; 338241895; 666307205; 773529912; 1294757372; 1396182291;
   1695183700; 1986661051; 2177026350; 2456956037; 2730485921; 2820302411;
   3259730800; 3345764771; 3516065817; 3600352804; 4094571909; 275423344;
   430227734; 506948616; 659060556; 883997877; 958139571; 1322822218;
   1537002063; 1747873779; 1955562222; 2024104815; 2227730452; 2361852424;
   2428436474; 2756734187; 3204031479; 3329325298].

Definition H0 : list Z :=
  [1779033703; 3144134277; 1013904242; 2773480762;
   1359893119; 2600822924; 528734635; 1541459225].

(** The [n] low bytes of [x], most significant first. *)
Fixpoint be_bytes (n : nat) (x : Z) : list Z :=
  match n with
  | O => []
  | S m => Z.land (Z.shiftr x (8 * Z.of_nat m)) 255 :: be_bytes m x
  end.

Definition pad (msg : list Z) : list Z :=
  let len := Z.of_nat (length msg) in
  msg ++ [128] ++ repeat 0 (Z.to_nat ((55 - len) mod 64)) ++ be_bytes 8 (8 * len).

Fixpoint words (bs : list Z) : list Z :=
  match bs with
  | b0 :: b1 :: b2 :: b3 :: rest =>
      Z.lor (Z.lor (Z.shiftl b0 24) (Z.shiftl b1 16)) (Z.lor (Z.shiftl b2 8) b3)
      :: words rest
  | _ => []
  end.

Fixpoint blocks (n : nat) (ws : list Z) : list (list Z) :=
  match n with
  | O => []
  | S m => firstn 16 ws :: blocks m (skipn 16 ws)
  end.

(** The message schedule: [win] holds the sixteen words from [W_t] on. *)
Fixpoint schedule (n : nat) (win : list Z) : list Z :=
  match n with
  | O => []
  | S m =>
      let next := add32 (add32 (add32 (ssig1 (nth 14 win 0)) (nth 9 win 0))
                               (ssig0 (nth 1 win 0)))
                        (nth 0 win 0) in
      nth 0 win 0 :: schedule m (tl win ++ [next])
  end.

Definition round (st : list Z) (kw : Z * Z) : list Z :=
  match st with
  | [a; b; c; d; e; f; g; h] =>
      let t1 := add32 (add32 (add32 (add32 h (bsig1 e)) (ch e f g)) (fst kw)) (snd kw) in
      let t2 := add32 (bsig0 a) (maj a b c) in
      [add32 t1 t2; a; b; c; add32 d t1; e; f; g]
  | _ => st
  end.

Definition compress (h : list Z) (block : list Z) : list Z :=
  let st := fold_left round (combine K (schedule 64 block)) h in
  map (fun p => add32 (fst p) (snd p)) (combine h st).

Definition digest (msg : list Z) : list Z :=
  let ws := words (pad msg) in
  fold_left compress (blocks (length ws / 16) ws) H0.

Definition hex_digit (d : Z) : ascii :=
  ascii_of_nat (Z.to_nat (if d <? 10 then 48 + d else 87 + d)).

Fixpoint hex (n : nat) (x : Z) : string :=
  match n with
  | O => EmptyString
  | S m => String (hex_digit (Z.land (Z.shiftr x (4 * Z.of_nat m)) 15)) (hex m x)
  end.

Definition bytes_of (s : string) : list Z :=
  map (fun c => Z.of_nat (nat_of_ascii c)) (list_ascii_of_string s).

(** [hashlib.sha256(data).hexdigest()], [data] a byte string *)
Definition hexdigest (data : string) : string :=
  fold_right (fun w acc => hex 8 w ++ acc)%string EmptyString (digest (bytes_of data)).

End SHA256.

(** ** Inspecting values *)

Fixpoint dict_get (d : pydict) (k : string) : option value :=
  match d with
  | [] => None
  | (k', v) :: r => if String.eqb k k' then Some v else dict_get r k
  end.

(** [d.get(k)], with [None] for a missing key *)
Definition get (d : pydict) (k : string) : value :=
  match dict_get d k with Some v => v | None => PyNone end.

(** [d.get(k, dflt)] *)
Definition get_or (d : pydict) (k : string) (dflt : value) : value :=
  match dict_get d k with Some v => v | None => dflt end.

Definition truthy (v : value) : bool :=
  match v with
  | PyNone => false
  | PyBool b => b
  | PyInt n => negb (n =? 0)%Z
  | PyFloat q => negb (Qeq_bool q 0)
  | PyStr s => str_nonempty s
  | PyList l => match l with [] => false | _ => true end
  | PyDict d => match d with [] => false | _ => true end
  end.

(** [a or b] *)
Definition py_or (a b : value) : value := if truthy a then a else b.

(** [isinstance(v, (int, float))]: a [bool] is an [int]. *)
Definition is_number (v : value) : bool :=
  match v with
  | PyBool _ | PyInt _ | PyFloat _ => true
  | _ => false
  end.

Definition is_bool (v : value) : bool :=
  match v with PyBool _ => true | _ => false end.

Section WithBuiltins.
Context `{Builtins}.

Definition py_str (v : value) : string :=
  match v with
  | PyStr s => s
  | _ => py_repr v
  end.

(** [float(v)] *)
Definition to_float (v : value) : result xfloat :=
  match v with
  | PyBool b => Ok (Fin (if b then 1 else 0))
  | PyInt n => if (Z.abs n <? double_limit)%Z then Ok (Fin (inject_Z n))
               else Raise OverflowError
  | PyFloat q => Ok (Fin q)
  | PyStr s => match float_of_str s with Some x => Ok x | None => Raise ValueError end
  | _ => Raise TypeError
  end.

(** [float(v)] where the code goes on with the number it gives. *)
Definition py_float (v : value) : result Q :=
  do x <- to_float v ; finite x.

(** What a [for] loop over [v] visits. *)
Definition py_iter (v : value) : result (list value) :=
  match v with
  | PyList l => Ok l
  | PyDict d => Ok (map (fun kv => PyStr (fst kv)) d)
  | PyStr s => Ok (map (fun c => PyStr (String c EmptyString)) (list_ascii_of_string s))
  | _ => Raise TypeError
  end.

(** ** Data model ([tracker.py], [taskspec.py], [semantics.py]) *)

Record BBox := { bx : Q; by_ : Q; bw : Q; bh : Q }.

(** [BBox.center] *)
Definition center (b : BBox) : Q * Q :=
  (bx b + bw b / 2, by_ b + bh b / 2).

Record TrackerOutput := {
  bbox : option BBox;
  visibility_confidence : Q;
  edge_margin : Q;
  debug : pydict
}.

(** A rectangle [{"x": _, "y": _, "w": _, "h": _}] of floats. *)
Record Rect := { rx : Q; ry : Q; rw : Q; rh : Q }.

Record TaskSpec := {
  task_id : string;
  instruction : string;
  camera_roi : Rect;
  home_roi : Rect;
  safety : gmap string value;
  policy_params : gmap string Q;
  policy_param_bounds : pydict
}.

Record CapabilityMapping := {
  mobility_target : option string;
  fwd_token : option string;
  bwd_token : option string;
  turn_token : option string;
  strafe_token : option string;
  grip_target : option string;
  grip_token : option string;
  estop_target : option string;
  estop_token : option string
}.

(** A step of a plan: [{"type": "STOP"}] or
    [{"type": "RUN", "target": _, "token": _, "args": _, "duration_ms": _}],
    the last key being optional. *)
Inductive PlanStep : Type :=
| STOP
| RUN (target token : string) (args : list value) (duration_ms : option Q).

(** Truth value of an [Optional[str]]. *)
Definition opt_truthy (o : option string) : bool :=
  match o with Some s => str_nonempty s | None => false end.

Definition opt_str (o : option string) : string :=
  match o with Some s => s | None => EmptyString end.

(** ** [manifest.py] *)

Fixpoint find_command (token_u : string) (cmds : list value) : option pydict :=
  match cmds with
  | [] => None
  | PyDict cmd :: rest =>
      if String.eqb (upper (py_str (py_or (get cmd "token") (PyStr "")))) token_u
      then Some cmd
      else find_command token_u rest
  | _ :: rest => find_command token_u rest
  end.

Fixpoint find_in_nodes (target token_u : string) (nodes : list value)
  : result (option pydict) :=
  match nodes with
  | [] => Ok None
  | PyDict node :: rest =>
      let name := py_str (py_or (get node "name") (PyStr "")) in
      let node_id := py_str (py_or (get node "node_id") (PyStr "")) in
      if negb (String.eqb target name || String.eqb target node_id)
      then find_in_nodes target token_u rest
      else
        do cmds <- py_iter (get_or node "commands" (PyList [])) ;
        match find_command token_u cmds with
        | Some cmd => Ok (Some cmd)
        | None => find_in_nodes target token_u rest
        end
  | _ :: rest => find_in_nodes target token_u rest
  end.

Definition get_command_spec (system_manifest : pydict) (target token : string)
  : result (option pydict) :=
  let token_u := upper token in
  match get system_manifest "nodes" with
  | PyList nodes => find_in_nodes target token_u nodes
  | _ => Ok None
  end.

(** [if not cmd]: no command, or an empty one. *)
Definition cmd_truthy (c : option pydict) : bool :=
  match c with
  | Some (_ :: _) => true
  | _ => false
  end.

(** ** [plan_utils.py] *)

Definition is_speed_name (name : string) : bool :=
  contains "speed" name || contains "throttle" name || contains "power" name.

Definition is_degree_name (name : string) : bool :=
  contains "degree" name || str_in name ["deg"; "degrees"; "angle"].

Definition is_none (v : value) : bool :=
  match v with PyNone => true | _ => false end.

(** [int(x) if arg_type == "int" else float(x)] *)
Definition num_out (arg_type : string) (x : xfloat) : result value :=
  if String.eqb arg_type "int"
  then do n <- xint x ; Ok (PyInt n)
  else do q <- finite x ; Ok (PyFloat q).

Definition opt_in (o : option string) (l : list string) : bool :=
  match o with Some s => str_in s l | None => false end.

Definition choose_arg_value (policy_params : gmap string Q)
    (direction_hint : option string) (arg : value) : result value :=
  match arg with
  | PyDict arg =>
      let name := lower (py_str (py_or (get arg "name") (PyStr ""))) in
      let arg_type := lower (py_str (py_or (get arg "type") (PyStr ""))) in
      let enum := match get arg "enum" with PyList l => Some l | _ => None end in
      let min_v := get arg "min" in
      let max_v := get arg "max" in
      if str_in arg_type ["float"; "int"] then
        if is_speed_name name then
          let speed := Fin (default (1 # 2) (policy_params !! "default_speed")) in
          do speed <- (if negb (is_none min_v) && negb (is_none max_v)
                    then do lo <- to_float min_v ; do hi <- to_float max_v ;
                         Ok (xclamp speed lo hi)
                    else Ok speed) ;
          num_out arg_type speed
        else if is_degree_name name then
          let mag := default 12 (policy_params !! "default_turn_degrees") in
          let sign := if opt_in direction_hint ["right"; "R"] then 1
                      else if opt_in direction_hint ["left"; "L"] then -1
                      else 1 in
          let v := Fin (mag * sign) in
          do v <- (if negb (is_none min_v) && negb (is_none max_v)
                then do lo <- to_float min_v ; do hi <- to_float max_v ;
                     Ok (xclamp v lo hi)
                else Ok v) ;
          num_out arg_type v
        else if negb (is_none min_v) && negb (is_none max_v) then
          do lo <- to_float min_v ; do hi <- to_float max_v ;
          num_out arg_type (xhalf (xadd lo hi))
        else Ok (if String.eqb arg_type "int" then PyInt 0 else PyFloat 0)
      else if String.eqb arg_type "bool" then Ok (PyBool true)
      else if String.eqb arg_type "string" then
        match enum with
        | Some ((e0 :: _) as e) =>
            let names := map py_str e in
            if opt_in direction_hint ["L"; "R"] && opt_in direction_hint names
            then Ok (PyStr (opt_str direction_hint))
            else if opt_in direction_hint ["left"; "right"]
                    && str_in (if opt_in direction_hint ["left"] then "L" else "R") names
            then Ok (PyStr (if opt_in direction_hint ["left"] then "L" else "R"))
            else Ok (PyStr (py_str e0))
        | _ => Ok (PyStr "default")
        end
      else Ok (PyInt 0)
  | _ => Ok (PyInt 0)
  end.

Fixpoint map_result {A B} (f : A -> result B) (l : list A) : result (list B) :=
  match l with
  | [] => Ok []
  | a :: r => do b <- f a ; do bs <- map_result f r ; Ok (b :: bs)
  end.

Definition choose_arg_values (command_spec : pydict)
    (policy_params : gmap string Q) (direction_hint : option string)
  : result (list value) :=
  let args_spec := match get command_spec "args" with PyList l => l | _ => [] end in
  map_result (choose_arg_value policy_params direction_hint) args_spec.

(** ** [shield.py] *)

Definition _center (rect : Rect) : Q * Q :=
  (rx rect + rw rect / 2, ry rect + rh rect / 2).

Definition _contains (outer : Rect) (inner : BBox) : bool :=
  Qle_bool (rx outer) (bx inner)
  && Qle_bool (ry outer) (by_ inner)
  && Qle_bool (bx inner + bw inner) (rx outer + rw outer)
  && Qle_bool (by_ inner + bh inner) (ry outer + rh outer).

Record ShieldDecision := {
  overridden : bool;
  reason : string;
  plan : list PlanStep
}.

Definition home_ok (b : option BBox) (spec : TaskSpec) : bool :=
  match b with
  | None => false
  | Some b => _contains (home_roi spec) b
  end.

Definition stop_decision (why : string) : ShieldDecision :=
  {| overridden := true; reason := why; plan := [STOP] |}.

(** [float(spec.safety.get("visible_conf_min", 0.12))] *)
Definition visible_conf_min (spec : TaskSpec) : result Q :=
  py_float (default (PyFloat (12 # 100)) (safety spec !! "visible_conf_min")).

(** [float(spec.policy_params.get("center_margin", 0.12))] *)
Definition center_margin (spec : TaskSpec) : Q :=
  default (12 # 100) (policy_params spec !! "center_margin").

(** [float(spec.safety.get("max_step_ms", 800))] *)
Definition max_step_ms (spec : TaskSpec) : result Q :=
  py_float (default (PyInt 800) (safety spec !! "max_step_ms")).

(** The side of the home centre the box sits on. *)
Definition dir_lr (spec : TaskSpec) (b : BBox) : string :=
  if Qltb (fst (_center (home_roi spec))) (fst (center b)) then "left" else "right".

Definition maybe_override (tracker : TrackerOutput) (spec : TaskSpec)
    (caps : CapabilityMapping) (system_manifest : pydict)
  : result (option ShieldDecision) :=
  do visible_min <- visible_conf_min spec ;
  let margin_min := center_margin spec in
  do max_step_ms <- max_step_ms spec ;
  match bbox tracker with
  | None => Ok (Some (stop_decision "not_visible"))
  | Some b =>
      if Qltb (visibility_confidence tracker) visible_min
      then Ok (Some (stop_decision "not_visible"))
      else if negb (_contains (camera_roi spec) b)
      then Ok (Some (stop_decision "outside_roi"))
      else if Qltb (edge_margin tracker) margin_min then
        if negb (opt_truthy (mobility_target caps))
        then Ok (Some (stop_decision "edge_no_mobility"))
        else
          let dir_lr := dir_lr spec b in
          let target := opt_str (mobility_target caps) in
          if opt_truthy (strafe_token caps) then
            let token := opt_str (strafe_token caps) in
            do cmd <- get_command_spec system_manifest target token ;
            if negb (cmd_truthy cmd)
            then Ok (Some (stop_decision "edge_strafe_missing_spec"))
            else
              do args <- choose_arg_values (default [] cmd) (policy_params spec)
                        (Some (if String.eqb dir_lr "left" then "L" else "R")) ;
              let duration :=
                _clamp (default 220 (policy_params spec !! "strafe_duration_ms"))
                       80 max_step_ms in
              Ok (Some {| overridden := true;
                          reason := "edge_strafe_" ++ dir_lr;
                          plan := [RUN target token args (Some duration); STOP] |})
          else if opt_truthy (turn_token caps) then
            let token := opt_str (turn_token caps) in
            do cmd <- get_command_spec system_manifest target token ;
            if negb (cmd_truthy cmd)
            then Ok (Some (stop_decision "edge_turn_missing_spec"))
            else
              do args <- choose_arg_values (default [] cmd) (policy_params spec)
                        (Some dir_lr) ;
              let duration :=
                _clamp (default 220 (policy_params spec !! "turn_duration_ms"))
                       80 max_step_ms in
              Ok (Some {| overridden := true;
                          reason := "edge_turn_" ++ dir_lr;
                          plan := [RUN target token args (Some duration); STOP] |})
          else Ok (Some (stop_decision "edge_no_motion_tokens"))
      else Ok None
  end.

(** ** [openai_client.py] *)

(** What the HTTP exchange with the completion service does: [urlopen]
    raises [HTTPError] or [URLError], something else is raised while
    connecting, reading or decoding, or a response body arrives. *)
Inductive transport : Type :=
| HTTPError (detail : string)
| URLError (why : string)
| OtherError (e : exn)
| Body (raw : string).

Definition call_responses_api (api_key : option string) (net : transport)
  : result pydict :=
  if negb (opt_truthy api_key)
  then Raise (RuntimeError "Missing OPENAI_API_KEY (or OPEN_AI_API_KEY)")
  else
    match net with
    | HTTPError detail => Raise (RuntimeError ("OpenAI responses HTTP " ++ detail))
    | URLError why => Raise (RuntimeError ("OpenAI responses request failed: " ++ why))
    | OtherError e => Raise e
    | Body raw =>
        do parsed <- (if str_nonempty raw
                      then match json_loads raw with
                           | Some v => Ok v
                           | None => Raise JSONDecodeError
                           end
                      else Ok (PyDict [])) ;
        match parsed with
        | PyDict d => Ok d
        | _ => Raise (RuntimeError "OpenAI responses returned non-object JSON")
        end
    end.

Definition text_of (v : value) : option string :=
  match v with
  | PyDict part =>
      match get part "text" with
      | PyStr t => if str_nonempty (strip t) then Some t else None
      | _ => None
      end
  | _ => None
  end.

Fixpoint first_text (parts : list value) : option string :=
  match parts with
  | [] => None
  | p :: rest => match text_of p with Some t => Some t | None => first_text rest end
  end.

Fixpoint first_item_text (items : list value) : option string :=
  match items with
  | [] => None
  | PyDict item :: rest =>
      match get item "content" with
      | PyList content =>
          match first_text content with
          | Some t => Some t
          | None => first_item_text rest
          end
      | _ => first_item_text rest
      end
  | _ :: rest => first_item_text rest
  end.

Definition extract_responses_text (payload : pydict) : string :=
  match get payload "output_text" with
  | PyStr t =>
      if str_nonempty (strip t) then t
      else match get payload "output" with
           | PyList items => default "" (first_item_text items)
           | _ => ""
           end
  | _ =>
      match get payload "output" with
      | PyList items => default "" (first_item_text items)
      | _ => ""
      end
  end.

Definition responses_json_schema (api_key : option string) (net : transport)
  : result (pydict * pydict) :=
  do raw <- call_responses_api api_key net ;
  let text := extract_responses_text raw in
  do obj <- (if str_nonempty text
             then match json_loads text with
                  | Some v => Ok v
                  | None => Raise (RuntimeError "OpenAI returned non-JSON text")
                  end
             else Ok (PyDict [])) ;
  match obj with
  | PyDict d => Ok (d, raw)
  | _ => Raise (RuntimeError "OpenAI returned non-object JSON")
  end.

(** ** [policy.py] *)

(** The number [_sanitize_args] arrives at for a numeric argument, before
    it is turned into an [int] or a [float].  A supplied value that
    [float()] refuses counts as 0.0; one that it turns into nan or an
    infinity goes through the same [max] and [min] as any other. *)
Definition sanitize_number (policy_params : gmap string Q)
    (name : string) (min_v max_v raw : value) : result xfloat :=
  let default_speed := default (1 # 2) (policy_params !! "default_speed") in
  let default_turn_deg := default 12 (policy_params !! "default_turn_degrees") in
  let num := if is_bool raw then Fin 0
             else match to_float raw with Ok x => x | Raise _ => Fin 0 end in
  do num <- (if is_speed_name name
             then do num <- (if negb (is_none min_v)
                             then do lo <- to_float min_v ; Ok (xmax num lo)
                             else Ok num) ;
                  Ok (xmin num (Fin default_speed))
             else Ok num) ;
  let num := if is_degree_name name
             then xclamp num (Fin (- Qabs default_turn_deg)) (Fin (Qabs default_turn_deg))
             else num in
  do num <- (if negb (is_none min_v)
             then do lo <- to_float min_v ; Ok (xmax num lo)
             else Ok num) ;
  if negb (is_none max_v)
  then do hi <- to_float max_v ; Ok (xmin num hi)
  else Ok num.

Definition sanitize_arg (policy_params : gmap string Q)
    (arg_spec raw : value) : result value :=
  match arg_spec with
  | PyDict arg_spec =>
      let arg_type := lower (py_str (py_or (get arg_spec "type") (PyStr ""))) in
      let name := lower (py_str (py_or (get arg_spec "name") (PyStr ""))) in
      let enum := match get arg_spec "enum" with PyList l => Some l | _ => None end in
      let min_v := get arg_spec "min" in
      let max_v := get arg_spec "max" in
      if str_in arg_type ["float"; "int"] then
        do num <- sanitize_number policy_params name min_v max_v raw ;
        if String.eqb arg_type "int"
        then do n <- xround num ; Ok (PyInt n)
        else do q <- finite num ; Ok (PyFloat q)
      else if String.eqb arg_type "bool" then
        match raw with
        | PyBool b => Ok raw
        | PyStr s => Ok (PyBool (str_in (lower s) ["true"; "1"]))
        | _ => Ok (PyBool false)
        end
      else if String.eqb arg_type "string" then
        match enum with
        | Some ((e0 :: _) as e) =>
            let raw_s := py_str raw in
            if str_in raw_s (map py_str e)
            then Ok (PyStr raw_s)
            else Ok (PyStr (py_str e0))
        | _ => Ok (PyStr (py_str raw))
        end
      else Ok raw
  | _ => Ok raw
  end.

(** The loop of [_sanitize_args]: it walks [spec_args] and stops at the
    first index that [args] does not have. *)
Fixpoint _sanitize_args (args spec_args : list value)
    (policy_params : gmap string Q) : result (list value) :=
  match spec_args, args with
  | arg_spec :: spec_rest, raw :: rest =>
      do v <- sanitize_arg policy_params arg_spec raw ;
      do vs <- _sanitize_args rest spec_rest policy_params ;
      Ok (v :: vs)
  | _, _ => Ok []
  end.

(** One turn of the normalising loop of [plan_next_step_openai]. *)
Definition normalize_step (step : value) : list PlanStep :=
  match step with
  | PyDict step =>
      let st := upper (py_str (py_or (get step "type") (PyStr ""))) in
      if String.eqb st "STOP" then [STOP]
      else if String.eqb st "RUN" then
        [RUN (py_str (py_or (get step "target") (PyStr "")))
             (upper (py_str (py_or (get step "token") (PyStr ""))))
             (match get step "args" with PyList l => l | _ => [] end)
             (match get step "duration_ms" with
              | PyBool b => Some (if b then 1 else 0)
              | PyInt n => Some (inject_Z n)
              | PyFloat q => Some q
              | _ => None
              end)]
      else []
  | _ => []
  end.

(** [for step in plan[:1]] *)
Definition normalize_plan (plan : list value) : list PlanStep :=
  flat_map normalize_step (firstn 1 plan).

(** What [plan_next_step_openai] does with the parsed answer [out]. *)
Definition plan_of_output (out system_manifest : pydict) (spec : TaskSpec)
  : result (list PlanStep * string) :=
  match get out "plan", get out "reason" with
  | PyList plan, PyStr reason =>
      match normalize_plan plan with
      | [] => Ok ([STOP], "openai_empty_plan")
      | RUN target0 token0 args0 duration :: _ =>
          let target := py_str (py_or (PyStr target0) (PyStr "")) in
          let token := upper (py_str (py_or (PyStr token0) (PyStr ""))) in
          do cmd <- get_command_spec system_manifest target token ;
          do args <- (if cmd_truthy cmd
                      then match get (default [] cmd) "args" with
                           | PyList spec_args =>
                               _sanitize_args args0 spec_args (policy_params spec)
                           | _ => Ok args0
                           end
                      else Ok args0) ;
          Ok ([RUN target0 token0 args duration; STOP], reason)
      | normalized => Ok (normalized, reason)
      end
  | _, _ => Ok ([STOP], "openai_invalid_output")
  end.

(** [plan_next_step_openai].  The request it builds (schema, compacted
    manifest, observation) reaches only the service, whose behaviour is
    [net]; building the schema evaluates
    [float(spec.safety.get("max_step_ms", 800))]. *)
Definition plan_next_step_openai (api_key : option string) (net : transport)
    (system_manifest : pydict) (spec : TaskSpec)
  : result (list PlanStep * string) :=
  if negb (opt_truthy api_key)
  then Ok ([STOP], "openai_disabled_missing_api_key")
  else
    do _schema_max <- max_step_ms spec ;
    do answer <- responses_json_schema api_key net ;
    plan_of_output (fst answer) system_manifest spec.

Definition plan_next_step_fallback (instruction : string)
  : list PlanStep * string :=
  if contains "stop" (lower instruction)
  then ([STOP], "fallback_stop")
  else ([STOP], "fallback_noop").

(** ** [judge.py] *)

(** [s.encode("utf-8")] for characters below 256 *)
Fixpoint utf8_encode (s : string) : string :=
  match s with
  | EmptyString => EmptyString
  | String c r =>
      let n := nat_of_ascii c in
      if (n <? 128)%nat then String c (utf8_encode r)
      else String (ascii_of_nat (192 + n / 64))
             (String (ascii_of_nat (128 + n mod 64)) (utf8_encode r))
  end.

(** [s.encode("ascii", errors="ignore")] *)
Fixpoint ascii_ignore (s : string) : string :=
  match s with
  | EmptyString => EmptyString
  | String c r =>
      if (nat_of_ascii c <? 128)%nat then String c (ascii_ignore r) else ascii_ignore r
  end.

(** [s[:n]] *)
Definition str_take (n : nat) (s : string) : string := String.substring 0 n s.

(** The bytes one frame feeds to the hash. *)
Definition frame_digest_input (b64 : string) : string :=
  ascii_ignore (str_take 2048 b64) ++ pretty (String.length b64).

Definition _hash_key (instruction : string) (frame_b64_list : list string) : string :=
  str_take 20
    (SHA256.hexdigest
       (utf8_encode (strip instruction)
        ++ String.concat "" (map frame_digest_input frame_b64_list))).

Definition empty_cache : pydict := [("version", PyInt 1); ("entries", PyDict [])].

(** [_load_cache]: [file] is the parsed content of the cache file, [None]
    when it is missing, unreadable or not JSON. *)
Definition _load_cache (file : option value) : pydict :=
  match file with
  | Some (PyDict parsed) =>
      match get parsed "entries" with
      | PyDict _ => parsed
      | _ => empty_cache
      end
  | _ => empty_cache
  end.

(** [d[k] = v] *)
Fixpoint dict_set (d : pydict) (k : string) (v : value) : pydict :=
  match d with
  | [] => [(k, v)]
  | (k', v') :: r =>
      if String.eqb k k' then (k, v) :: r else (k', v') :: dict_set r k v
  end.

Record JudgeResult := {
  verdict : string;
  score : Q;
  confidence : Q;
  failure_modes : list string;
  what_went_wrong : string;
  fix_proposal : pydict;
  raw : option pydict
}.

(** [[str(x) for x in l if isinstance(x, str)]] *)
Fixpoint only_strs (l : list value) : list string :=
  match l with
  | [] => []
  | PyStr s :: r => s :: only_strs r
  | _ :: r => only_strs r
  end.

(** One run of [judge_episode]: what it returns or raises, the cache file
    it leaves, and whether it called the judging service. *)
Record judge_run := {
  outcome : result JudgeResult;
  file_after : option value;
  service_called : bool
}.

Definition result_of_cached (cached : pydict) : result JudgeResult :=
  do score <- py_float (get_or cached "score" (PyFloat 0)) ;
  do confidence <- py_float (get_or cached "confidence" (PyFloat 0)) ;
  do modes <- py_iter (py_or (get cached "failure_modes") (PyList [])) ;
  Ok {| verdict := py_str (get cached "verdict");
        score := score;
        confidence := confidence;
        failure_modes := only_strs modes;
        what_went_wrong := py_str (py_or (get cached "what_went_wrong") (PyStr ""));
        fix_proposal := match get cached "fix_proposal" with PyDict d => d | _ => [] end;
        raw := match get cached "raw" with PyDict d => Some d | _ => None end |}.

Definition result_of_answer (out raw : pydict) : result JudgeResult :=
  do score <- py_float (py_or (get out "score") (PyFloat 0)) ;
  do confidence <- py_float (py_or (get out "confidence") (PyFloat 0)) ;
  Ok {| verdict := py_str (py_or (get out "verdict") (PyStr "uncertain"));
        score := py_max 0 (py_min 1 score);
        confidence := py_max 0 (py_min 1 confidence);
        failure_modes :=
          only_strs (match get out "failure_modes" with PyList l => l | _ => [] end);
        what_went_wrong := py_str (py_or (get out "what_went_wrong") (PyStr ""));
        fix_proposal := match get out "fix_proposal" with PyDict d => d | _ => [] end;
        raw := Some raw |}.

Definition cache_entry (ts : string) (r : JudgeResult) (raw : pydict) : value :=
  PyDict [("ts", PyStr ts);
          ("verdict", PyStr (verdict r));
          ("score", PyFloat (score r));
          ("confidence", PyFloat (confidence r));
          ("failure_modes", PyList (map PyStr (failure_modes r)));
          ("what_went_wrong", PyStr (what_went_wrong r));
          ("fix_proposal", PyDict (fix_proposal r));
          ("raw", PyDict raw)].

Definition missing_key_result : JudgeResult :=
  {| verdict := "uncertain";
     score := 0;
     confidence := 0;
     failure_modes := ["missing_api_key"];
     what_went_wrong := "OPENAI_API_KEY missing; judge disabled.";
     fix_proposal := [];
     raw := None |}.

(** [cache.get("entries", {})] for a cache [_load_cache] returned *)
Definition cache_entries (cache : pydict) : pydict :=
  match get_or cache "entries" (PyDict []) with
  | PyDict e => e
  | _ => []
  end.

(** The cached entry the call answers from:
    [isinstance(cached, dict) and isinstance(cached.get("verdict"), str)]. *)
Definition cached_hit (entries : pydict) (key : string) : option pydict :=
  match get entries key with
  | PyDict cached =>
      match get cached "verdict" with
      | PyStr _ => Some cached
      | _ => None
      end
  | _ => None
  end.

(** The frames that take part: [[b64 for b64 in frames_jpeg_b64 if
    isinstance(b64, str) and b64.strip()][:8]]. *)
Definition key_frames (frames_jpeg_b64 : list string) : list string :=
  firstn 8 (List.filter (fun b64 => str_nonempty (strip b64)) frames_jpeg_b64).

(** [judge_episode].  [file] is the cache file before the call, [ts] what
    [now_iso()] gives; the text of the request (summary, parameters,
    frames) reaches only the service, whose behaviour is [net].  The
    cache file is read and written as the JSON document it holds, and
    writing it succeeds. *)
Definition judge_episode (api_key : option string) (net : transport)
    (ts : string) (file : option value)
    (instruction : string) (frames_jpeg_b64 : list string) : judge_run :=
  if negb (opt_truthy api_key)
  then {| outcome := Ok missing_key_result; file_after := file; service_called := false |}
  else
    let frames := key_frames frames_jpeg_b64 in
    let cache := _load_cache file in
    let key := _hash_key instruction frames in
    let entries := cache_entries cache in
    match cached_hit entries key with
    | Some cached =>
        {| outcome := result_of_cached cached; file_after := file;
           service_called := false |}
    | None =>
        match responses_json_schema api_key net with
        | Raise e => {| outcome := Raise e; file_after := file; service_called := true |}
        | Ok (out, raw) =>
            match result_of_answer out raw with
            | Raise e => {| outcome := Raise e; file_after := file; service_called := true |}
            | Ok r =>
                {| outcome := Ok r;
                   file_after :=
                     Some (PyDict (dict_set cache "entries"
                                     (PyDict (dict_set entries key (cache_entry ts r raw)))));
                   service_called := true |}
            end
        end
    end.

(** ** [taskspec.py] *)

(** [float(raw)] for a [raw] that passed [isinstance(raw, (int, float))] *)
Definition number_value (raw : value) : option Q :=
  match raw with
  | PyBool b => Some (if b then 1 else 0)
  | PyInt n => Some (inject_Z n)
  | PyFloat q => Some q
  | _ => None
  end.

Definition _as_norm_rect (v : value) (dflt : Rect) : Rect :=
  match v with
  | PyDict d =>
      match number_value (get d "x"), number_value (get d "y"),
            number_value (get d "w"), number_value (get d "h") with
      | Some ox, Some oy, Some ow, Some oh =>
          let x := _clamp ox 0 1 in
          let y := _clamp oy 0 1 in
          let w := _clamp ow 0 (1 - x) in
          let h := _clamp oh 0 (1 - y) in
          if Qle_bool w 0 || Qle_bool h 0 then dflt
          else {| rx := x; ry := y; rw := w; rh := h |}
      | _, _, _, _ => dflt
      end
  | _ => dflt
  end.

(** [TaskSpec()] *)
Definition default_taskspec : TaskSpec :=
  {| task_id := "default";
     instruction := "";
     camera_roi := {| rx := 0; ry := 0; rw := 1; rh := 1 |};
     home_roi := {| rx := 3 # 10; ry := 1 # 4; rw := 4 # 10; rh := 1 # 2 |};
     safety := <["max_step_ms" := PyInt 800]>
               (<["max_episode_s" := PyFloat 30]>
               (<["stop_every_steps" := PyInt 1]>
               (<["lost_visible_stop_s" := PyFloat 1]> ∅)));
     policy_params := <["default_duration_ms" := 350]>
                      (<["default_speed" := 1 # 2]>
                      (<["center_margin" := 12 # 100]>
                      (<["turn_duration_ms" := 220]>
                      (<["strafe_duration_ms" := 220]> ∅))));
     policy_param_bounds := [] |}.

Definition with_policy_params (spec : TaskSpec) (pp : gmap string Q) : TaskSpec :=
  {| task_id := task_id spec;
     instruction := instruction spec;
     camera_roi := camera_roi spec;
     home_roi := home_roi spec;
     safety := safety spec;
     policy_params := pp;
     policy_param_bounds := policy_param_bounds spec |}.

(** [float(raw)] in [apply_patch], where [raw] has passed
    [isinstance(raw, (int, float))]: an int beyond the range of a double
    raises [OverflowError]. *)
Definition number_float (raw : value) : result Q :=
  match raw with
  | PyBool b => Ok (if b then 1 else 0)
  | PyInt n => if (Z.abs n <? double_limit)%Z then Ok (inject_Z n)
               else Raise OverflowError
  | PyFloat q => Ok q
  | _ => Raise TypeError
  end.

(** The value [apply_patch] stores for key [k] and number [q]. *)
Definition patch_value (bounds : pydict) (k : string) (q : Q) : result Q :=
  match get bounds k with
  | PyDict b =>
      if is_number (get b "min") && is_number (get b "max")
      then do lo <- number_float (get b "min") ;
           do hi <- number_float (get b "max") ;
           Ok (_clamp q lo hi)
      else Ok (_clamp q (-1000000) 1000000)
  | _ => Ok (_clamp q (-1000000) 1000000)
  end.

(** The body of the loop of [apply_patch] for one item of the patch:
    [None] when the item is skipped, otherwise the value to store or the
    exception that [float()] raises. *)
Definition patch_entry (bounds : pydict) (kv : string * value) : option (result Q) :=
  let (k, v) := kv in
  if negb (str_nonempty (strip k)) then None
  else if negb (is_number v) || is_bool v then None
  else Some (do q <- number_float v ; patch_value bounds k q).

(** [f"policy_params.{k}"] *)
Definition applied_name (kv : string * value) : string :=
  "policy_params." ++ fst kv.

(** The loop of [apply_patch]: the parameters when it ends, and the list
    of applied keys or the exception that ended it.  The entries stored
    before an exception stay stored. *)
Fixpoint apply_items (bounds : pydict) (items : pydict)
    (pp : gmap string Q) (applied : list string)
  : gmap string Q * result (list string) :=
  match items with
  | [] => (pp, Ok applied)
  | (k, v) :: rest =>
      match patch_entry bounds (k, v) with
      | Some (Ok q) =>
          apply_items bounds rest (<[k := q]> pp) (applied ++ [applied_name (k, v)])
      | Some (Raise e) => (pp, Raise e)
      | None => apply_items bounds rest pp applied
      end
  end.

(** [TaskSpec.apply_patch]: the task state after the call, and the list it
    returns or the exception it raises. *)
Definition apply_patch (spec : TaskSpec) (patch : value)
  : TaskSpec * result (list string) :=
  match patch with
  | PyDict patch =>
      match get patch "policy_params" with
      | PyDict pp =>
          if (32 <? length pp)%nat then (spec, Ok [])
          else
            let (params, applied) :=
              apply_items (policy_param_bounds spec) pp (policy_params spec) [] in
            (with_policy_params spec params, applied)
      | _ => (spec, Ok [])
      end
  | _ => (spec, Ok [])
  end.

Fixpoint update_safety (items : pydict) (m : gmap string value) : gmap string value :=
  match items with
  | [] => m
  | (k, v) :: rest => update_safety rest (<[k := v]> m)
  end.

Fixpoint load_policy_params (items : pydict) (m : gmap string Q) : gmap string Q :=
  match items with
  | [] => m
  | (k, v) :: rest =>
      if is_number v && negb (is_bool v)
      then load_policy_params rest (<[k := default 0 (number_value v)]> m)
      else load_policy_params rest m
  end.

(** [load_taskspec].  [source] is [None] for an empty path, otherwise what
    opening the file and [json.load] give. *)
Definition load_taskspec (source : option (result value))
    (instruction_override : option string) : result TaskSpec :=
  let spec := default_taskspec in
  match source with
  | None =>
      Ok {| task_id := task_id spec;
            instruction := match instruction_override with
                           | Some i => i
                           | None => instruction spec
                           end;
            camera_roi := camera_roi spec;
            home_roi := home_roi spec;
            safety := safety spec;
            policy_params := policy_params spec;
            policy_param_bounds := policy_param_bounds spec |}
  | Some (Raise e) => Raise e
  | Some (Ok (PyDict raw)) =>
      Ok {| task_id := py_str (py_or (get raw "task_id") (PyStr (task_id spec)));
            instruction := match instruction_override with
                           | Some i => i
                           | None => py_str (py_or (get raw "instruction") (PyStr ""))
                           end;
            camera_roi := _as_norm_rect (get raw "camera_roi") (camera_roi spec);
            home_roi := _as_norm_rect (get raw "home_roi") (home_roi spec);
            safety := match get raw "safety" with
                      | PyDict d => update_safety d (safety spec)
                      | _ => safety spec
                      end;
            policy_params := match get raw "policy_params" with
                             | PyDict d => load_policy_params d (policy_params spec)
                             | _ => policy_params spec
                             end;
            policy_param_bounds := match get raw "policy_param_bounds" with
                                   | PyDict d => d
                                   | _ => policy_param_bounds spec
                                   end |}
  | Some (Ok _) => Raise (RuntimeError "taskspec must be a JSON object")
  end.

End WithBuiltins.

(** JSON texts of the examples are written with ['] for the double quote. *)
Definition js (s : string) : string :=
  str_map (fun c => if Ascii.eqb c "'"%char then "034"%char else c) s.

(** What the service answers in the examples: a plan that strafes left at
    full speed, as the text of [output_text] and as the response body. *)
Definition run_answer_text : string :=
  js "{'reason': 'go', 'plan': [{'type': 'run', 'target': 'car-1', 'token': 'strafe', 'args': ['L', 1.0], 'duration_ms': 200}, {'type': 'STOP'}]}".

Definition run_answer : value :=
  PyDict [("reason", PyStr "go");
          ("plan", PyList [PyDict [("type", PyStr "run"); ("target", PyStr "car-1");
                                   ("token", PyStr "strafe");
                                   ("args", PyList [PyStr "L"; PyFloat 1]);
                                   ("duration_ms", PyInt 200)];
                           PyDict [("type", PyStr "STOP")]])].

Definition run_body_text : string :=
  js "{'output_text': '{\'reason\': \'go\', \'plan\': [{\'type\': \'run\', \'target\': \'car-1\', \'token\': \'strafe\', \'args\': [\'L\', 1.0], \'duration_ms\': 200}, {\'type\': \'STOP\'}]}'}".

Definition run_body : value := PyDict [("output_text", PyStr run_answer_text)].

(** A runtime for closed examples: the inputs of the examples below hold
    no value whose [repr] is taken, no float written as text other than
    nan and the infinities, and no JSON text other than the two documents
    above. *)
Definition example_json (s : string) : option value :=
  if String.eqb s run_body_text then Some run_body
  else if String.eqb s run_answer_text then Some run_answer
  else None.

Definition example_float (s : string) : option xfloat :=
  if String.eqb s "nan" then Some NaN
  else if String.eqb s "inf" then Some (Inf false)
  else if String.eqb s "-inf" then Some (Inf true)
  else None.

Definition example_runtime : Builtins :=
  {| py_repr := fun _ => "<repr>";
     float_of_str := example_float;
     json_loads := example_json |}.


(** * More of the engine *)

Section MoreCode.
Context `{Builtins}.

(** ** [run.py]: exploration of the parameters *)

(** The state the nested function [perturb] works on: the parameters,
    the list [changed], and how many numbers [random.gauss] has given. *)
Record explore_state := {
  ex_params : gmap string Q;
  ex_changed : list string;
  ex_draws : nat
}.

(** [perturb(key, lo, hi)]; [gauss n] is the [n]-th number that
    [random.gauss(0.0, sigma)] gives. *)
Definition perturb (gauss : nat -> Q) (key : string) (lo hi : Q)
    (st : explore_state) : explore_state :=
  match ex_params st !! key with
  | None => st
  | Some v =>
      let factor := 1 + gauss (ex_draws st) in
      let nv := py_max lo (py_min hi (v * factor)) in
      if Qltb (1 # 1000000000) (Qabs (nv - v))
      then {| ex_params := <[key := nv]> (ex_params st);
              ex_changed := ex_changed st ++ [key];
              ex_draws := S (ex_draws st) |}
      else {| ex_params := ex_params st;
              ex_changed := ex_changed st;
              ex_draws := S (ex_draws st) |}
  end.

(** [_auto_explore]: the task state after the call and the list of
    changed keys. *)
Definition _auto_explore (gauss : nat -> Q) (spec : TaskSpec)
  : result (TaskSpec * list string) :=
  let sigma := default (12 # 100) (policy_params spec !! "explore_sigma") in
  if Qle_bool sigma 0 then Ok (spec, [])
  else
    do max_step_ms <- max_step_ms spec ;
    let st0 := {| ex_params := policy_params spec; ex_changed := []; ex_draws := 0 |} in
    let st1 := perturb gauss "default_speed" (5 # 100) 1 st0 in
    let st2 := perturb gauss "default_duration_ms" 80 max_step_ms st1 in
    let st3 := perturb gauss "turn_duration_ms" 80 max_step_ms st2 in
    let st4 := perturb gauss "strafe_duration_ms" 80 max_step_ms st3 in
    let st5 := perturb gauss "center_margin" (5 # 100) (25 # 100) st4 in
    Ok (with_policy_params spec (ex_params st5), ex_changed st5).

(** The keys [_auto_explore] may perturb. *)
Definition explored_keys : list string :=
  ["default_speed"; "default_duration_ms"; "turn_duration_ms";
   "strafe_duration_ms"; "center_margin"].

(** ** [run.py]: the plan of one rollout step *)

(** What a rollout step executes: the shield's plan when it overrides,
    else the planner's, replaced by the fallback's when the planner says
    STOP and the fallback's reason is not [fallback_noop].  The result is
    the plan, the reason and the [overridden] flag of the step record. *)
Definition rollout_plan (tracker : TrackerOutput) (spec : TaskSpec)
    (caps : CapabilityMapping) (system_manifest : pydict)
    (api_key : option string) (net : transport)
  : result (list PlanStep * string * bool) :=
  do shield <- maybe_override tracker spec caps system_manifest ;
  match shield with
  | Some d => Ok (plan d, "shield:" ++ reason d, true)
  | None =>
      do planned <- plan_next_step_openai api_key net system_manifest spec ;
      let (p, why) := planned in
      match p with
      | STOP :: _ =>
          let (p2, r2) := plan_next_step_fallback (instruction spec) in
          if negb (String.eqb r2 "fallback_noop")
          then Ok (p2, r2, false)
          else Ok (p, why, false)
      | _ => Ok (p, why, false)
      end
  end.

(** ** [perception.py] *)

Record CachedPerception := {
  ts_ms : Z;
  cached_out : TrackerOutput
}.

Definition no_detection (why : string) : TrackerOutput :=
  {| bbox := None; visibility_confidence := 0; edge_margin := 0;
     debug := [("reason", PyStr why)] |}.

(** [bool(v)] *)
Definition py_bool (v : value) : bool := truthy v.

(** The [try] block of [detect_robot_bbox_openai]: [None] when it raises. *)
Definition parse_bbox (bbox_raw : pydict) : option BBox :=
  match py_float (get_or bbox_raw "x" (PyFloat 0)),
        py_float (get_or bbox_raw "y" (PyFloat 0)),
        py_float (get_or bbox_raw "w" (PyFloat 0)),
        py_float (get_or bbox_raw "h" (PyFloat 0)) with
  | Ok x, Ok y, Ok w, Ok h =>
      let b := {| bx := _clamp x 0 1; by_ := _clamp y 0 1;
                  bw := _clamp w 0 1; bh := _clamp h 0 1 |} in
      if Qle_bool (bw b) 0 || Qle_bool (bh b) 0 then None else Some b
  | _, _, _, _ => None
  end.

(** [min(a, b, c, d)] *)
Definition py_min4 (a b c d : Q) : Q := py_min (py_min (py_min a b) c) d.

Definition detect_robot_bbox_openai (api_key : option string) (net : transport)
    (roi : Rect) : result TrackerOutput :=
  if negb (opt_truthy api_key) then Ok (no_detection "missing_api_key")
  else
    do answer <- responses_json_schema api_key net ;
    let out := fst answer in
    let found := py_bool (get out "found") in
    do conf <- py_float (py_or (get out "confidence") (PyFloat 0)) ;
    match get out "bbox" with
    | PyDict bbox_raw =>
        if negb found then Ok (no_detection "openai_not_found")
        else
          match parse_bbox bbox_raw with
          | None => Ok (no_detection "openai_bad_bbox")
          | Some b =>
              let roi_left := rx roi in
              let roi_top := ry roi in
              let roi_right := roi_left + rw roi in
              let roi_bottom := roi_top + rh roi in
              let margin := py_min4 (bx b - roi_left) (by_ b - roi_top)
                                    (roi_right - (bx b + bw b))
                                    (roi_bottom - (by_ b + bh b)) in
              Ok {| bbox := Some b;
                    visibility_confidence := _clamp conf 0 1;
                    edge_margin := _clamp margin 0 1;
                    debug := [("reason", PyStr "openai_bbox")] |}
          end
    | _ => Ok (no_detection "openai_not_found")
    end.

(** [maybe_openai_perception]; [now_ms] is [int(time.time() * 1000)]. *)
Definition maybe_openai_perception (cached : option CachedPerception) (now_ms : Z)
    (api_key : option string) (net : transport) (roi : Rect) (max_age_ms : Z)
  : result (TrackerOutput * CachedPerception) :=
  match cached with
  | Some c =>
      if (now_ms - ts_ms c <=? max_age_ms)%Z
         && match bbox (cached_out c) with Some _ => true | None => false end
      then Ok (cached_out c, c)
      else
        do out <- detect_robot_bbox_openai api_key net roi ;
        Ok (out, {| ts_ms := now_ms; cached_out := out |})
  | None =>
      do out <- detect_robot_bbox_openai api_key net roi ;
      Ok (out, {| ts_ms := now_ms; cached_out := out |})
  end.

End MoreCode.

(** ** [openai_client.py]: where the credentials come from *)

(** The first of [keys] that [env] binds to a string that is not blank,
    stripped. *)
Fixpoint first_set (env : gmap string string) (keys : list string) : option string :=
  match keys with
  | [] => None
  | key :: rest =>
      match env !! key with
      | Some v => if str_nonempty (strip v) then Some (strip v) else first_set env rest
      | None => first_set env rest
      end
  end.

(** [_env_value] on the names [keys]: [environ] is [os.environ], [file_env] what
    [_load_file_env()] gives. *)
Definition _env_value (environ file_env : gmap string string) (keys : list string)
  : option string :=
  match first_set environ keys with
  | Some v => Some v
  | None => first_set file_env keys
  end.

Definition openai_api_key (environ file_env : gmap string string) : option string :=
  _env_value environ file_env ["OPENAI_API_KEY"; "OPEN_AI_API_KEY"].

(** ** [semantics.py]: the keyword heuristic *)

Definition KNOWN_TAGS : list string :=
  ["locomotion.forward"; "locomotion.backward"; "locomotion.turn";
   "locomotion.strafe"; "end_effector.grip"; "camera.snapshot"; "light.set";
   "sound.play"; "pose.set"; "dance.step"; "safety.estop"; "generic.action"].

(** One [if] block of [infer_tags_heuristic]: the tokens and the needles
    that fire it, the tag it adds, and the confidence it raises to when
    the token itself matches and when only the text does. *)
Record tag_rule := {
  rule_tokens : list string;
  rule_needles : list string;
  rule_tag : string;
  conf_token : Q;
  conf_text : Q
}.

(** The blocks in the order of the source. *)
Definition tag_rules : list tag_rule :=
  [ {| rule_tokens := ["ESTOP"; "E_STOP"; "EMERGENCY_STOP"];
       rule_needles := ["estop"; "e-stop"; "emergency stop"];
       rule_tag := "safety.estop"; conf_token := 9 # 10; conf_text := 9 # 10 |};
    {| rule_tokens := ["FWD"; "FORWARD"];
       rule_needles := ["forward"; "move forward"; "go forward"; "drive forward"];
       rule_tag := "locomotion.forward"; conf_token := 85 # 100; conf_text := 65 # 100 |};
    {| rule_tokens := ["BWD"; "BACKWARD"; "REV"];
       rule_needles := ["backward"; "reverse"; "move back"; "go back"];
       rule_tag := "locomotion.backward"; conf_token := 85 # 100; conf_text := 65 # 100 |};
    {| rule_tokens := ["TURN"; "ROTATE"; "SPIN"];
       rule_needles := ["turn"; "rotate"; "spin"];
       rule_tag := "locomotion.turn"; conf_token := 85 # 100; conf_text := 65 # 100 |};
    {| rule_tokens := ["STRAFE"; "SLIDE"];
       rule_needles := ["strafe"; "slide"; "lateral"];
       rule_tag := "locomotion.strafe"; conf_token := 8 # 10; conf_text := 6 # 10 |};
    {| rule_tokens := ["GRIP"; "GRAB"; "CLAW"];
       rule_needles := ["grip"; "gripper"; "claw"; "grab"];
       rule_tag := "end_effector.grip"; conf_token := 9 # 10; conf_text := 7 # 10 |};
    {| rule_tokens := ["SNAP"; "SNAPSHOT"; "CAMERA"; "CAM"];
       rule_needles := ["camera"; "snapshot"; "take picture"; "capture frame"];
       rule_tag := "camera.snapshot"; conf_token := 85 # 100; conf_text := 6 # 10 |};
    {| rule_tokens := ["LED"; "LIGHT"];
       rule_needles := ["led"; "light"];
       rule_tag := "light.set"; conf_token := 7 # 10; conf_text := 7 # 10 |};
    {| rule_tokens := ["BEEP"; "SOUND"];
       rule_needles := ["beep"; "sound"; "tone"];
       rule_tag := "sound.play"; conf_token := 65 # 100; conf_text := 65 # 100 |};
    {| rule_tokens := ["POSE"; "SERVO"; "ANGLE"];
       rule_needles := ["pose"; "servo"; "joint"; "angle"; "position"];
       rule_tag := "pose.set"; conf_token := 55 # 100; conf_text := 55 # 100 |};
    {| rule_tokens := ["DANCE"];
       rule_needles := ["dance"];
       rule_tag := "dance.step"; conf_token := 55 # 100; conf_text := 55 # 100 |} ].

(** [hit]: some needle occurs in the text. *)
Definition hit (text : string) (needles : list string) : bool :=
  existsb (fun n => contains n text) needles.

Definition rule_fires (token text : string) (r : tag_rule) : bool :=
  str_in token (rule_tokens r) || hit text (rule_needles r).

(** One block, on the set of tags (in the order they were added) and the
    confidence. *)
Definition apply_rule (token text : string) (st : list string * Q) (r : tag_rule)
  : list string * Q :=
  if rule_fires token text r
  then ((fst st ++ [rule_tag r])%list,
        py_max (snd st) (if str_in token (rule_tokens r) then conf_token r else conf_text r))
  else st.

(** [sorted(tags)] *)
Fixpoint insert_sorted (s : string) (l : list string) : list string :=
  match l with
  | [] => [s]
  | t :: r => if String.leb s t then s :: l else t :: insert_sorted s r
  end.

Definition py_sorted (l : list string) : list string :=
  fold_right insert_sorted [] l.

(** [" ".join(parts)] *)
Fixpoint join_space (parts : list string) : string :=
  match parts with
  | [] => ""
  | [p] => p
  | p :: rest => p ++ " " ++ join_space rest
  end.

Section SemanticsCode.
Context `{Builtins}.

Definition stripped_text (v : value) : list string :=
  match v with
  | PyStr t => if str_nonempty (strip t) then [strip t] else []
  | _ => []
  end.

Definition arg_parts (arg : value) : list string :=
  match arg with
  | PyDict a =>
      ((match get a "name" with PyStr n => [n] | _ => [] end)
       ++ (match get a "enum" with PyList e => map py_str e | _ => [] end))%list
  | _ => []
  end.

Definition _blob (command_spec : pydict) : string :=
  let parts :=
    (stripped_text (get command_spec "token")
     ++ stripped_text (get command_spec "description")
     ++ (match get command_spec "nlp" with
         | PyDict nlp =>
             (match get nlp "synonyms" with PyList l => only_strs l | _ => [] end)
             ++ (match get nlp "examples" with PyList l => only_strs l | _ => [] end)
         | _ => []
         end)
     ++ (match get command_spec "args" with
         | PyList args => flat_map arg_parts args
         | _ => []
         end))%list in
  lower (join_space parts).

Definition infer_tags_heuristic (command_spec : pydict) : list string * Q :=
  let token := upper (strip (py_str (py_or (get command_spec "token") (PyStr "")))) in
  let text := _blob command_spec in
  let (tags, confidence) := fold_left (apply_rule token text) tag_rules ([], 45 # 100) in
  match tags with
  | [] => (py_sorted ["generic.action"], 4 # 10)
  | _ => (py_sorted tags, confidence)
  end.

End SemanticsCode.

(** * Statements of the specification *)

(** "bbox is fully contained in the home region" *)
Definition fully_contained (outer : Rect) (inner : BBox) : Prop :=
  rx outer <= bx inner
  /\ ry outer <= by_ inner
  /\ bx inner + bw inner <= rx outer + rw outer
  /\ by_ inner + bh inner <= ry outer + rh outer.



(** The entries of a patch [apply_patch] applies: the key is not blank and
    the value is a number that is not a boolean. *)
Definition patch_accepts (kv : string * value) : bool :=
  str_nonempty (strip (fst kv)) && is_number (snd kv) && negb (is_bool (snd kv)).



(** "frame lists agreeing on each frame's first 2048 encoded bytes and
    total length" *)
Definition frames_agree (f g : string) : Prop :=
  str_take 2048 f = str_take 2048 g /\ String.length f = String.length g.

(** A frame [judge_episode] drops: nothing is left of it after [strip]. *)
Definition blank (f : string) : bool := negb (str_nonempty (strip f)).

Section Statements.
Context `{Builtins}.

(** "the capability map exposes a token (with a resolvable command spec)" *)
Definition exposes_resolvable (caps : CapabilityMapping) (system_manifest : pydict)
    (token : option string) : bool :=
  opt_truthy token
  && match get_command_spec system_manifest (opt_str (mobility_target caps))
             (opt_str token) with
     | Ok cmd => cmd_truthy cmd
     | Raise _ => false
     end.

(** The preference order of the corrective plan, read as: strafe if a
    strafe token with a resolvable spec is exposed, otherwise turn if a
    turn token with a resolvable spec is exposed, otherwise STOP. *)
Definition edge_preference_as_stated (tracker : TrackerOutput) (spec : TaskSpec)
    (caps : CapabilityMapping) (system_manifest : pydict) : Prop :=
  forall b vmin mstep d,
    visible_conf_min spec = Ok vmin ->
    max_step_ms spec = Ok mstep ->
    bbox tracker = Some b ->
    ~ visibility_confidence tracker < vmin ->
    _contains (camera_roi spec) b = true ->
    edge_margin tracker < center_margin spec ->
    maybe_override tracker spec caps system_manifest = Ok (Some d) ->
    let target := opt_str (mobility_target caps) in
    if exposes_resolvable caps system_manifest (strafe_token caps) then
      exists args,
        plan d = [RUN target (opt_str (strafe_token caps)) args
                      (Some (_clamp (default 220 (policy_params spec !! "strafe_duration_ms"))
                                    80 mstep));
                  STOP]
    else if exposes_resolvable caps system_manifest (turn_token caps) then
      exists args,
        plan d = [RUN target (opt_str (turn_token caps)) args
                      (Some (_clamp (default 220 (policy_params spec !! "turn_duration_ms"))
                                    80 mstep));
                  STOP]
    else plan d = [STOP].

(** "a valid executable plan is either [[STOP]] or [[RUN, STOP]]" *)
Definition valid_plan (p : list PlanStep) : Prop :=
  p = [STOP]
  \/ exists target token args duration, p = [RUN target token args duration; STOP].

(** The fields of a step the service sent, as [plan_next_step_openai]
    reads them. *)
Definition step_type (step : pydict) : string :=
  upper (py_str (py_or (get step "type") (PyStr ""))).

Definition step_target (step : pydict) : string :=
  py_str (py_or (get step "target") (PyStr "")).

Definition step_token (step : pydict) : string :=
  upper (py_str (py_or (get step "token") (PyStr ""))).

Definition step_args (step : pydict) : list value :=
  match get step "args" with PyList l => l | _ => [] end.

(** [float(step["duration_ms"])] when [duration_ms] is a number, and no
    duration otherwise. *)
Definition step_duration (step : pydict) : result (option Q) :=
  if is_number (get step "duration_ms")
  then do d <- py_float (get step "duration_ms") ; Ok (Some d)
  else Ok None.

(** The arguments of the step once [_sanitize_args] has seen them: it is
    called when the command is found and declares a list of arguments. *)
Definition sanitized_args (cmd : option pydict) (args : list value)
    (policy_params : gmap string Q) : result (list value) :=
  if cmd_truthy cmd
  then match get (default [] cmd) "args" with
       | PyList spec_args => _sanitize_args args spec_args policy_params
       | _ => Ok args
       end
  else Ok args.

(** "the planning service call fails": the exchange raises, what comes
    back is not JSON or not an object, or the answer lacks a well-typed
    plan list or reason string. *)
Definition planning_call_fails (api_key : option string) (net : transport) : Prop :=
  match responses_json_schema api_key net with
  | Raise _ => True
  | Ok (out, _) =>
      match get out "plan", get out "reason" with
      | PyList _, PyStr _ => False
      | _, _ => True
      end
  end.

Definition planner_degrades_as_stated (api_key : option string) (net : transport)
    (system_manifest : pydict) (spec : TaskSpec) : Prop :=
  planning_call_fails api_key net ->
  exists why, plan_next_step_openai api_key net system_manifest spec = Ok ([STOP], why).

(** The declared name and type of an argument, as [_sanitize_args] reads them. *)
Definition spec_name (arg_spec : pydict) : string :=
  lower (py_str (py_or (get arg_spec "name") (PyStr ""))).

Definition spec_type (arg_spec : pydict) : string :=
  lower (py_str (py_or (get arg_spec "type") (PyStr ""))).




(** "Whenever the judging service is unreachable (including when API
    credentials are missing)" *)
Definition judging_unreachable (api_key : option string) (net : transport) : Prop :=
  opt_truthy api_key = false
  \/ (exists why, net = URLError why)
  \/ (exists detail, net = HTTPError detail).

Definition judge_unreachable_as_stated (api_key : option string) (net : transport)
    (ts : string) (file : option value) (instruction : string)
    (frames : list string) : Prop :=
  judging_unreachable api_key net ->
  exists r,
    outcome (judge_episode api_key net ts file instruction frames) = Ok r
    /\ verdict r = "uncertain"
    /\ failure_modes r = ["missing_api_key"]
    /\ fix_proposal r = [].

(** Two calls one after the other, the second on the cache file the first
    left: the second does not call the service and returns what the first
    returned. *)
Definition second_call_cached (api_key : option string) (net1 net2 : transport)
    (ts1 ts2 : string) (file : option value) (instruction : string)
    (frames1 frames2 : list string) : Prop :=
  let run1 := judge_episode api_key net1 ts1 file instruction frames1 in
  forall r1,
    outcome run1 = Ok r1 ->
    let run2 := judge_episode api_key net2 ts2 (file_after run1) instruction frames2 in
    service_called run2 = false /\ outcome run2 = Ok r1.

Definition judge_cache_as_stated (api_key : option string) (net1 net2 : transport)
    (ts1 ts2 : string) (file : option value) (instruction : string)
    (frames1 frames2 : list string) : Prop :=
  Forall2 frames_agree frames1 frames2 ->
  second_call_cached api_key net1 net2 ts1 ts2 file instruction frames1 frames2.

End Statements.

(** * Example inputs *)

Definition no_caps : CapabilityMapping :=
  {| mobility_target := None; fwd_token := None; bwd_token := None;
     turn_token := None; strafe_token := None; grip_target := None;
     grip_token := None; estop_target := None; estop_token := None |}.

(** A box near the left edge of the camera region: visible, inside the
    region, margin below the default [center_margin]. *)
Definition edge_tracker : TrackerOutput :=
  {| bbox := Some {| bx := 5 # 100; by_ := 4 # 10; bw := 1 # 10; bh := 1 # 10 |};
     visibility_confidence := 1 # 2;
     edge_margin := 5 # 100;
     debug := [] |}.

Definition lost_tracker : TrackerOutput :=
  {| bbox := None; visibility_confidence := 0; edge_margin := 0;
     debug := [("reason", PyStr "no_motion_blob")] |}.

Definition strafe_cmd : pydict :=
  [("token", PyStr "STRAFE");
   ("args", PyList [PyDict [("name", PyStr "dir"); ("type", PyStr "string");
                            ("enum", PyList [PyStr "L"; PyStr "R"])];
                    PyDict [("name", PyStr "speed"); ("type", PyStr "float");
                            ("min", PyFloat 0); ("max", PyFloat 1)]])].

Definition turn_cmd : pydict :=
  [("token", PyStr "TURN");
   ("args", PyList [PyDict [("name", PyStr "degrees"); ("type", PyStr "int");
                            ("min", PyInt (-180)); ("max", PyInt 180)]])].

Definition car_manifest (commands : list value) : pydict :=
  [("daemon_version", PyStr "1");
   ("nodes", PyList [PyDict [("name", PyStr "car"); ("node_id", PyStr "car-1");
                             ("commands", PyList commands)]])].

Definition car_caps (strafe turn : option string) : CapabilityMapping :=
  {| mobility_target := Some "car-1"; fwd_token := None; bwd_token := None;
     turn_token := turn; strafe_token := strafe; grip_target := None;
     grip_token := None; estop_target := None; estop_token := None |}.

(** * Notions used by the further properties *)

Section BoundNotions.
Context `{Builtins}.



End BoundNotions.

(** The Python type a declared argument type asks for. *)
Definition value_has_type (ty : string) (v : value) : Prop :=
  if String.eqb ty "float" then exists q, v = PyFloat q
  else if String.eqb ty "int" then exists n, v = PyInt n
  else if String.eqb ty "bool" then exists b, v = PyBool b
  else if String.eqb ty "string" then exists s, v = PyStr s
  else True.

(** The range [_auto_explore] clamps each key to, [mstep] being the
    task's [max_step_ms]. *)
Definition explore_ranges (mstep : Q) : list (string * (Q * Q)) :=
  [("default_speed", (5 # 100, 1));
   ("default_duration_ms", (80, mstep));
   ("turn_duration_ms", (80, mstep));
   ("strafe_duration_ms", (80, mstep));
   ("center_margin", (5 # 100, 25 # 100))].

(** The calls of [perturb] in the order of a list of ranges. *)
Definition perturb_all (gauss : nat -> Q) (ranges : list (string * (Q * Q)))
    (st : explore_state) : explore_state :=
  fold_left (fun st r => perturb gauss (fst r) (fst (snd r)) (snd (snd r)) st) ranges st.

(** What the vision service answers in the examples: a box found in the
    upper left of the frame. *)
Definition bbox_answer_text : string :=
  js "{'found': true, 'confidence': 0.8, 'bbox': {'x': 0.1, 'y': 0.2, 'w': 0.3, 'h': 1.5}}".

Definition bbox_answer : value :=
  PyDict [("found", PyBool true); ("confidence", PyFloat (8 # 10));
          ("bbox", PyDict [("x", PyFloat (1 # 10)); ("y", PyFloat (2 # 10));
                           ("w", PyFloat (3 # 10)); ("h", PyFloat (15 # 10))])].

Definition bbox_body_text : string :=
  js "{'output_text': '{\'found\': true, \'confidence\': 0.8, \'bbox\': {\'x\': 0.1, \'y\': 0.2, \'w\': 0.3, \'h\': 1.5}}'}".

(** A runtime for the perception examples: its [json.loads] knows the two
    documents above. *)
Definition perception_runtime : Builtins :=
  {| py_repr := fun _ => "<repr>";
     float_of_str := fun _ => None;
     json_loads := fun s =>
       if String.eqb s bbox_body_text
       then Some (PyDict [("output_text", PyStr bbox_answer_text)])
       else if String.eqb s bbox_answer_text then Some bbox_answer
       else None |}.

(** The value an accepted entry of a patch is stored as, or the exception
    that [float()] raises on it. *)
Definition entry_value (bounds : pydict) (kv : string * value) : result Q :=
  do q <- number_float (snd kv) ; patch_value bounds (fst kv) q.

(** No [float()] of [apply_patch] raises on the entry. *)
Definition entry_converts (bounds : pydict) (kv : string * value) : Prop :=
  patch_accepts kv = true -> exists q, entry_value bounds kv = Ok q.

(** The entries the loop of [apply_patch] gets through: those before the
    first one on which [float()] raises. *)
Fixpoint processed (bounds : pydict) (items : pydict) : pydict :=
  match items with
  | [] => []
  | kv :: rest =>
      match patch_entry bounds kv with
      | Some (Raise _) => []
      | _ => kv :: processed bounds rest
      end
  end.

(** What the loop of [apply_patch] returns or raises. *)
Fixpoint items_outcome (bounds : pydict) (items : pydict) (applied : list string)
  : result (list string) :=
  match items with
  | [] => Ok applied
  | kv :: rest =>
      match patch_entry bounds kv with
      | Some (Ok _) => items_outcome bounds rest (applied ++ [applied_name kv])
      | Some (Raise e) => Raise e
      | None => items_outcome bounds rest applied
      end
  end.

(** What [policy_params] holds under [k] once the entries [items] have
    been applied to [pp]. *)
Definition patched_lookup (bounds items : pydict) (pp : gmap string Q) (k : string)
  : option Q :=
  match dict_get items k with
  | Some v =>
      if patch_accepts (k, v)
      then match entry_value bounds (k, v) with
           | Ok q => Some q
           | Raise _ => pp !! k
           end
      else pp !! k
  | None => pp !! k
  end.



(** * Properties *)

(** ** Order lemmas for the float model *)

Lemma Qltb_lt (a b : Q) : Qltb a b = true <-> a < b.
Proof.
  unfold Qltb. rewrite negb_true_iff, <- not_true_iff_false, Qle_bool_iff.
  split; [apply Qnot_le_lt | apply Qlt_not_le].
Qed.

Lemma Qltb_ge (a b : Q) : Qltb a b = false <-> b <= a.
Proof.
  unfold Qltb. rewrite negb_false_iff, Qle_bool_iff. tauto.
Qed.

Ltac order_cases :=
  unfold _clamp, py_min, py_max in *;
  repeat match goal with
         | |- context [Qltb ?a ?b] =>
             lazymatch a with
             | context [Qltb _ _] => fail
             | _ =>
                 lazymatch b with
                 | context [Qltb _ _] => fail
                 | _ =>
                     let E := fresh "E" in
                     destruct (Qltb a b) eqn:E;
                     [apply Qltb_lt in E | apply Qltb_ge in E]
                 end
             end
         end;
  try lra.

Ltac result_inv :=
  repeat match goal with
         | E : Ok _ = Ok _ |- _ => inversion E; subst; clear E
         | E : Raise _ = Ok _ |- _ => discriminate E
         | E : true = false |- _ => discriminate E
         | E : false = true |- _ => discriminate E
         end.

Lemma py_max_lub (a b : Q) : a <= py_max a b /\ b <= py_max a b.
Proof.
  unfold py_max. destruct (Qltb a b) eqn:E.
  - apply Qltb_lt in E. split; [apply Qlt_le_weak, E | apply Qle_refl].
  - apply Qltb_ge in E. split; [apply Qle_refl | exact E].
Qed.

Lemma py_min_glb (a b : Q) : py_min a b <= a /\ py_min a b <= b.
Proof.
  unfold py_min. destruct (Qltb b a) eqn:E.
  - apply Qltb_lt in E. split; [apply Qlt_le_weak, E | apply Qle_refl].
  - apply Qltb_ge in E. split; [apply Qle_refl | exact E].
Qed.

Lemma py_max_cases (a b : Q) : py_max a b = a \/ py_max a b = b.
Proof. unfold py_max. destruct (Qltb a b); auto. Qed.

Lemma py_min_cases (a b : Q) : py_min a b = a \/ py_min a b = b.
Proof. unfold py_min. destruct (Qltb b a); auto. Qed.

Lemma _clamp_le_hi (v lo hi : Q) : _clamp v lo hi <= hi.
Proof. unfold _clamp. apply py_min_glb. Qed.

Lemma _clamp_ge_lo (v lo hi : Q) : lo <= hi -> lo <= _clamp v lo hi.
Proof.
  intros Hlh. unfold _clamp.
  destruct (py_min_cases hi (py_max lo v)) as [-> | ->]; [exact Hlh | apply py_max_lub].
Qed.

(** ** Safety shield *)

Section ShieldProperties.
Context `{Builtins}.

(** C1. When the tracker reports no box, or a visibility confidence
    strictly below the task's [visible_conf_min], [maybe_override] returns
    the override [not_visible] with plan [[STOP]], whatever the edge
    margin, the capability map and the manifest are.  The two safety
    thresholds the function reads first must be numbers. *)
Theorem maybe_override_not_visible
    (tracker : TrackerOutput) (spec : TaskSpec) (caps : CapabilityMapping)
    (system_manifest : pydict) (vmin mstep : Q) :
  visible_conf_min spec = Ok vmin ->
  max_step_ms spec = Ok mstep ->
  bbox tracker = None \/ visibility_confidence tracker < vmin ->
  maybe_override tracker spec caps system_manifest
  = Ok (Some {| overridden := true; reason := "not_visible"; plan := [STOP] |}).
Proof.
  intros Hv Hm Hlost. unfold maybe_override. rewrite Hv, Hm. simpl.
  destruct (bbox tracker) as [b |] eqn:Eb; [| reflexivity].
  destruct Hlost as [Hn | Hlt]; [discriminate |].
  apply Qltb_lt in Hlt. rewrite Hlt. reflexivity.
Qed.

(** C10. [home_ok] is [False] for an absent box, and [True] exactly when a
    box is present and fully contained in the home region. *)
Theorem home_ok_iff_contained (b : option BBox) (spec : TaskSpec) :
  home_ok None spec = false
  /\ (home_ok b spec = true
      <-> exists box, b = Some box /\ fully_contained (home_roi spec) box).
Proof.
  split; [reflexivity |].
  unfold home_ok, fully_contained, _contains. destruct b as [box |].
  - rewrite !andb_true_iff, !Qle_bool_iff. split.
    + intros [[[H1 H2] H3] H4]. exists box. auto.
    + intros [box' [E [H1 [H2 [H3 H4]]]]]. inversion E; subst. auto.
  - split; [discriminate | intros [box' [E _]]; discriminate].
Qed.

(** C3, as the code has it.  For a visible box inside the camera region
    whose edge margin is strictly below [center_margin]: without a
    mobility target the plan is [[STOP]]; with a strafe token the plan is
    [[RUN(strafe), STOP]] when the token's command resolves on the
    mobility target and [[STOP]] when it does not (the turn token is not
    tried); without a strafe token and with a turn token it is
    [[RUN(turn), STOP]] when that command resolves and [[STOP]] when not;
    with neither token it is [[STOP]].  A RUN step carries the configured
    duration clamped by [_clamp(_, 80, max_step_ms)]. *)
Theorem maybe_override_edge_plan
    (tracker : TrackerOutput) (spec : TaskSpec) (caps : CapabilityMapping)
    (system_manifest : pydict) (b : BBox) (vmin mstep : Q) :
  visible_conf_min spec = Ok vmin ->
  max_step_ms spec = Ok mstep ->
  bbox tracker = Some b ->
  ~ visibility_confidence tracker < vmin ->
  _contains (camera_roi spec) b = true ->
  edge_margin tracker < center_margin spec ->
  let target := opt_str (mobility_target caps) in
  let run := maybe_override tracker spec caps system_manifest in
  (opt_truthy (mobility_target caps) = false ->
     run = Ok (Some (stop_decision "edge_no_mobility")))
  /\ (opt_truthy (mobility_target caps) = true ->
      opt_truthy (strafe_token caps) = true ->
      forall cmd,
        get_command_spec system_manifest target (opt_str (strafe_token caps)) = Ok cmd ->
        (cmd_truthy cmd = false ->
           run = Ok (Some (stop_decision "edge_strafe_missing_spec")))
        /\ (cmd_truthy cmd = true ->
            forall args,
              choose_arg_values (default [] cmd) (policy_params spec)
                (Some (if String.eqb (dir_lr spec b) "left" then "L" else "R")) = Ok args ->
              run = Ok (Some
                {| overridden := true;
                   reason := "edge_strafe_" ++ dir_lr spec b;
                   plan := [RUN target (opt_str (strafe_token caps)) args
                              (Some (_clamp (default 220 (policy_params spec !! "strafe_duration_ms"))
                                            80 mstep));
                            STOP] |})))
  /\ (opt_truthy (mobility_target caps) = true ->
      opt_truthy (strafe_token caps) = false ->
      opt_truthy (turn_token caps) = true ->
      forall cmd,
        get_command_spec system_manifest target (opt_str (turn_token caps)) = Ok cmd ->
        (cmd_truthy cmd = false ->
           run = Ok (Some (stop_decision "edge_turn_missing_spec")))
        /\ (cmd_truthy cmd = true ->
            forall args,
              choose_arg_values (default [] cmd) (policy_params spec)
                (Some (dir_lr spec b)) = Ok args ->
              run = Ok (Some
                {| overridden := true;
                   reason := "edge_turn_" ++ dir_lr spec b;
                   plan := [RUN target (opt_str (turn_token caps)) args
                              (Some (_clamp (default 220 (policy_params spec !! "turn_duration_ms"))
                                            80 mstep));
                            STOP] |})))
  /\ (opt_truthy (mobility_target caps) = true ->
      opt_truthy (strafe_token caps) = false ->
      opt_truthy (turn_token caps) = false ->
      run = Ok (Some (stop_decision "edge_no_motion_tokens"))).
Proof.
  intros Hv Hm Hb Hvis Hroi Hedge target run.
  assert (Hrun : run =
    (if negb (opt_truthy (mobility_target caps))
     then Ok (Some (stop_decision "edge_no_mobility"))
     else if opt_truthy (strafe_token caps) then
       do cmd <- get_command_spec system_manifest target (opt_str (strafe_token caps)) ;
       if negb (cmd_truthy cmd)
       then Ok (Some (stop_decision "edge_strafe_missing_spec"))
       else
         do args <- choose_arg_values (default [] cmd) (policy_params spec)
                      (Some (if String.eqb (dir_lr spec b) "left" then "L" else "R")) ;
         Ok (Some {| overridden := true;
                     reason := "edge_strafe_" ++ dir_lr spec b;
                     plan := [RUN target (opt_str (strafe_token caps)) args
                                (Some (_clamp (default 220 (policy_params spec !! "strafe_duration_ms"))
                                              80 mstep));
                              STOP] |})
     else if opt_truthy (turn_token caps) then
       do cmd <- get_command_spec system_manifest target (opt_str (turn_token caps)) ;
       if negb (cmd_truthy cmd)
       then Ok (Some (stop_decision "edge_turn_missing_spec"))
       else
         do args <- choose_arg_values (default [] cmd) (policy_params spec)
                      (Some (dir_lr spec b)) ;
         Ok (Some {| overridden := true;
                     reason := "edge_turn_" ++ dir_lr spec b;
                     plan := [RUN target (opt_str (turn_token caps)) args
                                (Some (_clamp (default 220 (policy_params spec !! "turn_duration_ms"))
                                              80 mstep));
                              STOP] |})
     else Ok (Some (stop_decision "edge_no_motion_tokens")))).
  { subst run target. unfold maybe_override. rewrite Hv, Hm. cbn [bind].
    rewrite Hb.
    assert (E1 : Qltb (visibility_confidence tracker) vmin = false).
    { apply not_true_iff_false. rewrite Qltb_lt. exact Hvis. }
    rewrite E1, Hroi. cbn [negb].
    apply Qltb_lt in Hedge. rewrite Hedge. reflexivity. }
  rewrite Hrun. clear Hrun.
  split; [| split; [| split]].
  - intros ->. reflexivity.
  - intros -> -> cmd ->. cbn [negb bind]. split.
    + intros ->. reflexivity.
    + intros -> args ->. reflexivity.
  - intros -> -> -> cmd ->. cbn [negb bind]. split.
    + intros ->. reflexivity.
    + intros -> args ->. reflexivity.
  - intros -> -> ->. reflexivity.
Qed.

End ShieldProperties.

Lemma maybe_override_not_visible_witness :
  @maybe_override example_runtime lost_tracker default_taskspec no_caps []
  = Ok (Some {| overridden := true; reason := "not_visible"; plan := [STOP] |}).
Proof.
  apply (@maybe_override_not_visible example_runtime lost_tracker default_taskspec
           no_caps [] (12 # 100) (inject_Z 800)).
  - vm_compute. reflexivity.
  - vm_compute. reflexivity.
  - left. reflexivity.
Defined.

(** C3 as stated fails: the capability map exposes a strafe token whose
    command the manifest does not have and a turn token that resolves;
    the shield answers [[STOP]], not [[RUN(TURN), STOP]]. *)
Lemma edge_preference_counterexample :
  ~ @edge_preference_as_stated example_runtime edge_tracker default_taskspec
      (car_caps (Some "STRAFE") (Some "TURN")) (car_manifest [PyDict turn_cmd]).
Proof.
  intros Hclaim.
  specialize (Hclaim {| bx := 5 # 100; by_ := 4 # 10; bw := 1 # 10; bh := 1 # 10 |}
                     (12 # 100) (inject_Z 800)
                     (stop_decision "edge_strafe_missing_spec")).
  assert (Hnot : ~ visibility_confidence edge_tracker < 12 # 100).
  { vm_compute. discriminate. }
  specialize (Hclaim eq_refl eq_refl eq_refl Hnot eq_refl eq_refl eq_refl).
  vm_compute in Hclaim. destruct Hclaim as [args Hplan]. discriminate Hplan.
Qed.

Lemma maybe_override_edge_plan_witness :
  @maybe_override example_runtime edge_tracker default_taskspec
      (car_caps (Some "STRAFE") (Some "TURN"))
      (car_manifest [PyDict strafe_cmd; PyDict turn_cmd])
  = Ok (Some {| overridden := true;
                reason := "edge_strafe_right";
                plan := [RUN "car-1" "STRAFE" [PyStr "R"; PyFloat (1 # 2)] (Some 220);
                         STOP] |}).
Proof.
  assert (Hnot : ~ visibility_confidence edge_tracker < 12 # 100).
  { vm_compute. discriminate. }
  destruct (@maybe_override_edge_plan example_runtime edge_tracker default_taskspec
              (car_caps (Some "STRAFE") (Some "TURN"))
              (car_manifest [PyDict strafe_cmd; PyDict turn_cmd])
              {| bx := 5 # 100; by_ := 4 # 10; bw := 1 # 10; bh := 1 # 10 |}
              (12 # 100) (inject_Z 800)
              eq_refl eq_refl eq_refl Hnot eq_refl eq_refl)
    as [_ [Hstrafe _]].
  destruct (Hstrafe eq_refl eq_refl (Some strafe_cmd) eq_refl) as [_ Hrun].
  exact (Hrun eq_refl [PyStr "R"; PyFloat (1 # 2)] eq_refl).
Defined.

(** ** Upper and lower case *)

Lemma upper_ascii_idempotent (c : ascii) : upper_ascii (upper_ascii c) = upper_ascii c.
Proof. destruct c as [[] [] [] [] [] [] [] []]; reflexivity. Qed.

Lemma upper_lower_ascii (c : ascii) : upper_ascii (lower_ascii c) = upper_ascii c.
Proof. destruct c as [[] [] [] [] [] [] [] []]; reflexivity. Qed.

Lemma upper_idempotent (s : string) : upper (upper s) = upper s.
Proof.
  unfold upper. induction s as [| c r IH]; simpl; [reflexivity |].
  rewrite upper_ascii_idempotent, IH. reflexivity.
Qed.

Lemma upper_lower (s : string) : upper (lower s) = upper s.
Proof.
  unfold upper, lower. induction s as [| c r IH]; simpl; [reflexivity |].
  rewrite upper_lower_ascii, IH. reflexivity.
Qed.

(** ** Planner *)

Section PlannerProperties.
Context `{Builtins}.

Lemma normalize_step_cases (step : value) :
  normalize_step step = []
  \/ normalize_step step = [STOP]
  \/ exists target token args duration,
       normalize_step step = [RUN target token args duration].
Proof.
  destruct step; simpl; auto.
  destruct (String.eqb _ "STOP"); auto.
  destruct (String.eqb _ "RUN"); eauto 10.
Qed.

Lemma normalize_plan_first (first : value) (rest : list value) :
  normalize_plan (first :: rest) = normalize_step first.
Proof. unfold normalize_plan. simpl. apply app_nil_r. Qed.

Lemma normalize_plan_cases (plan : list value) :
  normalize_plan plan = []
  \/ normalize_plan plan = [STOP]
  \/ exists target token args duration,
       normalize_plan plan = [RUN target token args duration].
Proof.
  destruct plan as [| first rest]; [left; reflexivity |].
  rewrite normalize_plan_first. apply normalize_step_cases.
Qed.

Lemma plan_of_output_valid (out system_manifest : pydict) (spec : TaskSpec)
    (p : list PlanStep) (why : string) :
  plan_of_output out system_manifest spec = Ok (p, why) -> valid_plan p.
Proof.
  unfold plan_of_output, valid_plan.
  destruct (get out "plan") as [| | | | | plan |];
    try (intros E; inversion E; auto; fail).
  destruct (get out "reason") as [| | | | reason | |];
    try (intros E; inversion E; auto; fail).
  destruct (normalize_plan_cases plan) as [-> | [-> | (t & k & a & d & ->)]].
  - intros E; inversion E; auto.
  - intros E; inversion E; auto.
  - destruct (get_command_spec _ _ _) as [cmd | e]; cbn [bind]; [| discriminate].
    match goal with |- context [bind ?r _] => destruct r as [args | e] end;
      cbn [bind]; [| discriminate].
    intros E; inversion E. right. eauto.
Qed.

Lemma py_str_or_self (w : string) : py_str (py_or (PyStr w) (PyStr "")) = w.
Proof. destruct w; reflexivity. Qed.

Lemma step_duration_normalized (step : pydict) (duration : option Q) :
  step_duration step = Ok duration ->
  match get step "duration_ms" with
  | PyBool b => Some (if b then 1 else 0)
  | PyInt n => Some (inject_Z n)
  | PyFloat q => Some q
  | _ => None
  end = duration.
Proof.
  unfold step_duration, py_float.
  destruct (get step "duration_ms") as [| b | n | q | | |]; cbn [is_number to_float];
    try (intros E; inversion E; reflexivity).
  destruct (Z.abs n <? double_limit)%Z; cbn [bind finite]; intros E; inversion E.
  reflexivity.
Qed.

(** C2. Every plan [plan_next_step_openai] returns is [[STOP]] or
    [[RUN, STOP]], and of the steps the service sent only the first one
    counts.  When that step is of type STOP the plan returned is
    [[STOP]]; when it is of type RUN the plan returned is that RUN (the
    target, token and duration the service sent, the arguments
    sanitized) followed by STOP, provided that the duration, if it is a
    number, is one [float()] accepts and that looking the command up and
    sanitizing the arguments do not raise.  The fallback planner returns
    [[STOP]]. *)
Theorem planner_plan_shape
    (api_key : option string) (net : transport) (system_manifest : pydict)
    (spec : TaskSpec) (instruction : string) :
  let run := plan_next_step_openai api_key net system_manifest spec in
  (forall p why, run = Ok (p, why) -> valid_plan p)
  /\ (forall out first rest why,
        get out "plan" = PyList (first :: rest) ->
        get out "reason" = PyStr why ->
        plan_of_output out system_manifest spec
        = plan_of_output [("plan", PyList [first]); ("reason", PyStr why)]
            system_manifest spec)
  /\ (forall m out raw first rest why,
        opt_truthy api_key = true ->
        max_step_ms spec = Ok m ->
        responses_json_schema api_key net = Ok (out, raw) ->
        get out "plan" = PyList (PyDict first :: rest) ->
        get out "reason" = PyStr why ->
        (step_type first = "STOP" -> run = Ok ([STOP], why))
        /\ (step_type first = "RUN" ->
            forall duration cmd args,
              step_duration first = Ok duration ->
              get_command_spec system_manifest (step_target first) (step_token first)
              = Ok cmd ->
              sanitized_args cmd (step_args first) (policy_params spec) = Ok args ->
              run = Ok ([RUN (step_target first) (step_token first) args duration; STOP],
                        why)))
  /\ fst (plan_next_step_fallback instruction) = [STOP].
Proof.
  intros run. subst run. split; [| split; [| split]].
  - intros p why. unfold plan_next_step_openai.
    destruct (negb (opt_truthy api_key)).
    + intros E; inversion E. left. reflexivity.
    + destruct (max_step_ms spec) as [m | e]; cbn [bind]; [| discriminate].
      destruct (responses_json_schema api_key net) as [[out raw] | e];
        cbn [bind]; [| discriminate].
      apply plan_of_output_valid.
  - intros out first rest why Hplan Hwhy. unfold plan_of_output.
    rewrite Hplan, Hwhy. cbn [get dict_get String.eqb Ascii.eqb Bool.eqb].
    rewrite !normalize_plan_first. reflexivity.
  - intros m out raw first rest why Hkey Hm Hanswer Hplan Hwhy.
    unfold plan_next_step_openai. rewrite Hkey, Hm, Hanswer. cbn [negb bind fst].
    unfold plan_of_output. rewrite Hplan, Hwhy, normalize_plan_first.
    unfold normalize_step. fold (step_type first).
    split.
    + intros ->. reflexivity.
    + intros -> duration cmd args Hdur Hcmd Hargs.
      cbn [String.eqb Ascii.eqb Bool.eqb].
      fold (step_target first). fold (step_token first). fold (step_args first).
      rewrite (step_duration_normalized first duration Hdur).
      rewrite !py_str_or_self. unfold step_token at 1. rewrite upper_idempotent.
      fold (step_token first). rewrite Hcmd. cbn [bind].
      unfold sanitized_args in Hargs. rewrite Hargs. reflexivity.
  - unfold plan_next_step_fallback. destruct (contains _ _); reflexivity.
Qed.

End PlannerProperties.

Lemma planner_plan_shape_witness :
  @plan_next_step_openai example_runtime (Some "sk-test") (Body run_body_text)
    (car_manifest [PyDict strafe_cmd; PyDict turn_cmd]) default_taskspec
  = Ok ([RUN "car-1" "STRAFE" [PyStr "L"; PyFloat (1 # 2)] (Some (inject_Z 200)); STOP],
        "go").
Proof.
  destruct (@planner_plan_shape example_runtime (Some "sk-test") (Body run_body_text)
              (car_manifest [PyDict strafe_cmd; PyDict turn_cmd])
              default_taskspec "go left")
    as [_ [_ [Hfirst _]]].
  destruct (Hfirst (inject_Z 800)
              [("reason", PyStr "go");
               ("plan", PyList [PyDict [("type", PyStr "run"); ("target", PyStr "car-1");
                                        ("token", PyStr "strafe");
                                        ("args", PyList [PyStr "L"; PyFloat 1]);
                                        ("duration_ms", PyInt 200)];
                                PyDict [("type", PyStr "STOP")]])]
              [("output_text", PyStr run_answer_text)]
              [("type", PyStr "run"); ("target", PyStr "car-1");
               ("token", PyStr "strafe");
               ("args", PyList [PyStr "L"; PyFloat 1]);
               ("duration_ms", PyInt 200)]
              [PyDict [("type", PyStr "STOP")]] "go")
    as [_ Hrun].
  - reflexivity.
  - vm_compute. reflexivity.
  - vm_compute. reflexivity.
  - reflexivity.
  - reflexivity.
  - apply (Hrun eq_refl (Some (inject_Z 200)) (Some strafe_cmd)
             [PyStr "L"; PyFloat (1 # 2)]); vm_compute; reflexivity.
Defined.

Section PlannerFailureProperties.
Context `{Builtins}.

(** C4, as the code has it.  Without credentials the planner returns
    [[STOP]] with reason [openai_disabled_missing_api_key]; when the
    service answers an object that lacks a plan list or a reason string it
    returns [[STOP]] with reason [openai_invalid_output]; when the first
    step of the answer is no usable STOP or RUN step it returns [[STOP]]
    with reason [openai_empty_plan].  None of these raises. *)
Theorem planner_degrades_to_stop
    (api_key : option string) (net : transport) (system_manifest : pydict)
    (spec : TaskSpec) :
  let run := plan_next_step_openai api_key net system_manifest spec in
  (opt_truthy api_key = false ->
     run = Ok ([STOP], "openai_disabled_missing_api_key"))
  /\ (forall m out raw,
        opt_truthy api_key = true ->
        max_step_ms spec = Ok m ->
        responses_json_schema api_key net = Ok (out, raw) ->
        (forall p why, ~ (get out "plan" = PyList p /\ get out "reason" = PyStr why)) ->
        run = Ok ([STOP], "openai_invalid_output"))
  /\ (forall m out raw p why,
        opt_truthy api_key = true ->
        max_step_ms spec = Ok m ->
        responses_json_schema api_key net = Ok (out, raw) ->
        get out "plan" = PyList p ->
        get out "reason" = PyStr why ->
        normalize_plan p = [] ->
        run = Ok ([STOP], "openai_empty_plan")).
Proof.
  intros run. subst run. unfold plan_next_step_openai. split; [| split].
  - intros ->. reflexivity.
  - intros m out raw -> -> -> Hbad. cbn [negb bind fst]. unfold plan_of_output.
    destruct (get out "plan") as [| | | | | p |]; try reflexivity.
    destruct (get out "reason") as [| | | | why | |]; try reflexivity.
    exfalso. apply (Hbad p why). auto.
  - intros m out raw p why -> -> -> Hp Hwhy Hnone. cbn [negb bind fst].
    unfold plan_of_output. rewrite Hp, Hwhy, Hnone. reflexivity.
Qed.

End PlannerFailureProperties.

(** C4 as stated fails: with credentials present and the service
    unreachable, [plan_next_step_openai] raises. *)
Lemma planner_unreachable_counterexample :
  ~ @planner_degrades_as_stated example_runtime (Some "sk-test")
      (URLError "unreachable") (car_manifest [PyDict turn_cmd]) default_taskspec.
Proof.
  intros Hclaim. destruct (Hclaim I) as [why E].
  vm_compute in E. discriminate E.
Qed.

Lemma planner_degrades_to_stop_witness :
  @plan_next_step_openai example_runtime (Some "sk-test") (Body "")
    (car_manifest [PyDict turn_cmd]) default_taskspec
  = Ok ([STOP], "openai_invalid_output").
Proof.
  destruct (@planner_degrades_to_stop example_runtime (Some "sk-test") (Body "")
              (car_manifest [PyDict turn_cmd]) default_taskspec)
    as [_ [Hinvalid _]].
  apply (Hinvalid (inject_Z 800) [] []); try reflexivity.
  intros p why [Hp _]. discriminate Hp.
Defined.

(** ** Argument sanitizing *)










Section SanitizeProperties.
Context `{Builtins}.




End SanitizeProperties.

Section SanitizeArgsProperties.
Context `{Builtins}.

Lemma _sanitize_args_lookup (policy_params : gmap string Q)
    (spec_args args out : list value) (i : nat) (arg_spec raw : value) :
  _sanitize_args args spec_args policy_params = Ok out ->
  spec_args !! i = Some arg_spec ->
  args !! i = Some raw ->
  exists v, out !! i = Some v /\ sanitize_arg policy_params arg_spec raw = Ok v.
Proof.
  revert args out i.
  induction spec_args as [| sp spec_rest IH]; intros args out i Hrun Hsp Hraw.
  - destruct i; discriminate Hsp.
  - destruct args as [| a rest]; [destruct i; discriminate Hraw |].
    simpl in Hrun.
    destruct (sanitize_arg policy_params sp a) as [v0 | e] eqn:E0;
      cbn [bind] in Hrun; [| discriminate].
    destruct (_sanitize_args rest spec_rest policy_params) as [vs | e] eqn:E1;
      cbn [bind] in Hrun; [| discriminate].
    inversion Hrun; subst. destruct i as [| j].
    + simpl in Hsp, Hraw. inversion Hsp; inversion Hraw; subst.
      exists v0. auto.
    + simpl in Hsp, Hraw. simpl. eapply IH; eauto.
Qed.


End SanitizeArgsProperties.



(** A speed given as the text nan is not capped: the value appended for a
    float argument is nan, and [int(round(nan))] raises for an int
    argument; a degree given as nan is clamped to the lower end of the
    turn range. *)
Example sanitize_nan :
  let pp := policy_params default_taskspec in
  let speed ty := PyDict [("name", PyStr "speed"); ("type", PyStr ty);
                          ("min", PyFloat 0); ("max", PyFloat 1)] in
  @sanitize_number example_runtime pp "speed" (PyFloat 0) (PyFloat 1) (PyStr "nan")
  = Ok NaN
  /\ @sanitize_arg example_runtime pp (speed "float") (PyStr "nan") = Raise NonFinite
  /\ @sanitize_arg example_runtime pp (speed "int") (PyStr "nan") = Raise ValueError
  /\ @sanitize_arg example_runtime pp
       (PyDict [("name", PyStr "degrees"); ("type", PyStr "float")]) (PyStr "nan")
     = Ok (PyFloat (-12)).
Proof. vm_compute. repeat split; reflexivity. Qed.

(** ** Task state *)

Lemma patch_entry_accepts (bounds : pydict) (k : string) (v : value) :
  patch_entry bounds (k, v)
  = if patch_accepts (k, v) then Some (entry_value bounds (k, v)) else None.
Proof.
  unfold patch_entry, patch_accepts, entry_value. simpl.
  destruct (str_nonempty (strip k)); simpl; [| reflexivity].
  destruct v; simpl; reflexivity.
Qed.

Lemma dict_get_not_in (d : pydict) (k : string) :
  k ∉ map fst d -> dict_get d k = None.
Proof.
  induction d as [| [k' v'] r IH]; simpl; intros Hn; [reflexivity |].
  apply not_elem_of_cons in Hn as [Hne Hn].
  destruct (String.eqb k k') eqn:E.
  - apply String.eqb_eq in E. contradiction.
  - apply IH. exact Hn.
Qed.



(** The loop of [apply_patch], entry by entry. *)
Lemma apply_items_spec (bounds items : pydict) :
  NoDup (map fst items) ->
  forall (pp : gmap string Q) (acc : list string),
    snd (apply_items bounds items pp acc) = items_outcome bounds items acc
    /\ forall k,
         fst (apply_items bounds items pp acc) !! k
         = patched_lookup bounds (processed bounds items) pp k.
Proof.
  unfold patched_lookup.
  induction items as [| [k0 v0] rest IH]; intros Hnd pp acc.
  - simpl. split; reflexivity.
  - inversion Hnd as [| ? ? Hnotin Hnd']; subst.
    cbn [apply_items items_outcome processed]. rewrite patch_entry_accepts.
    destruct (patch_accepts (k0, v0)) eqn:Eacc.
    + destruct (entry_value bounds (k0, v0)) as [q | e] eqn:Eval.
      * destruct (IH Hnd' (<[k0 := q]> pp) (acc ++ [applied_name (k0, v0)])%list)
          as [Happ Hpp].
        split; [exact Happ |].
        intros k. rewrite Hpp. cbn [dict_get].
        destruct (String.eqb k k0) eqn:E.
        -- apply String.eqb_eq in E. subst k.
           assert (Hno : dict_get (processed bounds rest) k0 = None).
           { apply dict_get_not_in. intros Hin. apply Hnotin.
             clear - Hin. induction rest as [| kv r IHr]; [inversion Hin |].
             cbn [processed] in Hin. simpl.
             destruct (patch_entry bounds kv) as [[? | ?] |];
               try (inversion Hin; fail);
               apply elem_of_cons in Hin as [-> | Hin];
               try (left; reflexivity); right; apply IHr; exact Hin. }
           rewrite Hno, Eacc, Eval. apply lookup_insert_eq.
        -- apply String.eqb_neq in E.
           destruct (dict_get (processed bounds rest) k) as [v |];
             [destruct (patch_accepts (k, v));
              [destruct (entry_value bounds (k, v)) |] |];
             try reflexivity; apply lookup_insert_ne; congruence.
      * cbn [fst snd dict_get]. split; reflexivity.
    + destruct (IH Hnd' pp acc) as [Happ Hpp]. split; [exact Happ |].
      intros k. rewrite Hpp. cbn [dict_get]. destruct (String.eqb k k0) eqn:E.
      * apply String.eqb_eq in E. subst k.
        assert (Hno : dict_get (processed bounds rest) k0 = None).
        { apply dict_get_not_in. intros Hin. apply Hnotin.
          clear - Hin. induction rest as [| kv r IHr]; [inversion Hin |].
          cbn [processed] in Hin. simpl.
          destruct (patch_entry bounds kv) as [[? | ?] |];
            try (inversion Hin; fail);
            apply elem_of_cons in Hin as [-> | Hin];
            try (left; reflexivity); right; apply IHr; exact Hin. }
        rewrite Hno, Eacc. reflexivity.
      * reflexivity.
Qed.

Lemma processed_all (bounds items : pydict) (acc : list string) :
  Forall (entry_converts bounds) items ->
  processed bounds items = items
  /\ items_outcome bounds items acc
     = Ok (acc ++ map applied_name (List.filter patch_accepts items))%list.
Proof.
  intros Hall. revert acc.
  induction Hall as [| [k v] rest Hkv _ IH]; intros acc.
  - simpl. rewrite app_nil_r. split; reflexivity.
  - cbn [processed items_outcome List.filter]. rewrite patch_entry_accepts.
    unfold entry_converts in Hkv.
    destruct (patch_accepts (k, v)).
    + destruct (Hkv eq_refl) as [q ->].
      destruct (IH (acc ++ [applied_name (k, v)])%list) as [-> ->].
      split; [reflexivity |]. cbn [map]. rewrite <- app_assoc. reflexivity.
    + destruct (IH acc) as [-> ->]. split; reflexivity.
Qed.





(** A patch whose second entry is an int too large for a float: the first
    entry is stored, the call raises, and the third entry is not
    reached. *)
Example apply_patch_overflow :
  let patch := [("policy_params",
                 PyDict [("center_margin", PyFloat (2 # 10));
                         ("default_speed", PyInt (10 ^ 400));
                         ("turn_duration_ms", PyInt 100)])] in
  let after := fst (apply_patch default_taskspec (PyDict patch)) in
  snd (apply_patch default_taskspec (PyDict patch)) = Raise OverflowError
  /\ policy_params after !! "center_margin" = Some (2 # 10)
  /\ policy_params after !! "default_speed" = Some (1 # 2)
  /\ policy_params after !! "turn_duration_ms" = Some 220.
Proof. vm_compute. repeat split; reflexivity. Qed.

Lemma _clamp_unit_interval (v : Q) : 0 <= _clamp v 0 1 /\ _clamp v 0 1 <= 1.
Proof. order_cases. Qed.




Section LoadProperties.
Context `{Builtins}.


End LoadProperties.


(** ** Judge *)

(** The test vector of FIPS 180-4 for the one-block message [abc]. *)
Example sha256_abc :
  SHA256.hexdigest "abc"
  = "ba7816bf8f01cfea414140de5dae2223b00361a396177a9cb410ff61f20015ad".
Proof. vm_compute. reflexivity. Qed.

Lemma dict_get_set_eq (d : pydict) (k : string) (v : value) :
  dict_get (dict_set d k v) k = Some v.
Proof.
  induction d as [| [k' v'] r IH]; simpl.
  - rewrite String.eqb_refl. reflexivity.
  - destruct (String.eqb k k') eqn:E; simpl.
    + rewrite String.eqb_refl. reflexivity.
    + rewrite E. exact IH.
Qed.

Lemma get_set_eq (d : pydict) (k : string) (v : value) :
  get (dict_set d k v) k = v.
Proof. unfold get. rewrite dict_get_set_eq. reflexivity. Qed.

Lemma only_strs_map (l : list string) : only_strs (map PyStr l) = l.
Proof. induction l as [| s r IH]; simpl; [| rewrite IH]; reflexivity. Qed.

Lemma key_frames_agree (frames1 frames2 : list string) :
  Forall2 frames_agree frames1 frames2 ->
  Forall2 (fun f g => blank f = blank g) frames1 frames2 ->
  map frame_digest_input (key_frames frames1)
  = map frame_digest_input (key_frames frames2).
Proof.
  unfold key_frames. generalize 8%nat as n.
  intros n Hagree. revert n.
  induction Hagree as [| f g fs gs [Hpre Hlen] _ IH]; intros n Hblank.
  - reflexivity.
  - inversion Hblank as [| ? ? ? ? Hb Hrest]; subst.
    unfold blank in Hb. apply (f_equal negb) in Hb. rewrite !negb_involutive in Hb.
    cbn [List.filter]. rewrite Hb.
    destruct (str_nonempty (strip g)).
    + destruct n as [| m]; [reflexivity |].
      cbn [firstn map]. rewrite (IH m Hrest).
      unfold frame_digest_input. rewrite Hpre, Hlen. reflexivity.
    + apply IH. exact Hrest.
Qed.

Section JudgeProperties.
Context `{Builtins}.

(** C6, as the code has it.  Without API credentials [judge_episode]
    returns verdict [uncertain] with failure mode [missing_api_key] and an
    empty fix proposal; it neither calls the service nor touches the cache
    nor raises. *)
Theorem judge_missing_key_uncertain (api_key : option string) (net : transport)
    (ts : string) (file : option value) (instruction : string)
    (frames : list string) :
  opt_truthy api_key = false ->
  judge_episode api_key net ts file instruction frames
  = {| outcome := Ok missing_key_result; file_after := file; service_called := false |}
  /\ verdict missing_key_result = "uncertain"
  /\ failure_modes missing_key_result = ["missing_api_key"]
  /\ fix_proposal missing_key_result = [].
Proof.
  intros Hkey. unfold judge_episode. rewrite Hkey. simpl. auto.
Qed.

Lemma result_of_answer_raw (out payload : pydict) (r : JudgeResult) :
  result_of_answer out payload = Ok r -> raw r = Some payload.
Proof.
  unfold result_of_answer.
  destruct (py_float (py_or (get out "score") (PyFloat 0))); cbn [bind]; [| discriminate].
  destruct (py_float (py_or (get out "confidence") (PyFloat 0))); cbn [bind]; [| discriminate].
  intros E; inversion E; reflexivity.
Qed.

Lemma result_of_cached_entry (ts : string) (r : JudgeResult) (payload : pydict) :
  raw r = Some payload ->
  match cache_entry ts r payload with
  | PyDict cached => result_of_cached cached = Ok r
  | _ => False
  end.
Proof.
  destruct r as [v s c fm w fx rw]. simpl. intros ->.
  unfold result_of_cached. cbn. 
  assert (Hfm : py_iter (py_or (PyList (map PyStr fm)) (PyList []))
                = Ok (map PyStr fm)).
  { destruct fm; reflexivity. }
  rewrite Hfm. cbn [bind]. rewrite only_strs_map.
  assert (Hw : py_str (py_or (PyStr w) (PyStr "")) = w).
  { destruct w; reflexivity. }
  rewrite Hw. reflexivity.
Qed.

(** Two calls with the same credentials and instruction, the second on
    the cache file the first left, whose frame lists agree frame by frame
    on the first 2048 characters, on the length and on being blank or not:
    when the first call returns a result, the second does not call the
    judging service and returns the same result. *)
Lemma second_call_cached_same_blanks (api_key : option string) (net1 net2 : transport)
    (ts1 ts2 : string) (file : option value) (instruction : string)
    (frames1 frames2 : list string) :
  Forall2 frames_agree frames1 frames2 ->
  Forall2 (fun f g => blank f = blank g) frames1 frames2 ->
  second_call_cached api_key net1 net2 ts1 ts2 file instruction frames1 frames2.
Proof.
  intros Hagree Hblank. unfold second_call_cached. cbv zeta.
  unfold judge_episode.
  destruct (negb (opt_truthy api_key)) eqn:Ekey.
  - simpl. intros r1 E. split; [reflexivity | exact E].
  - assert (Hkey : _hash_key instruction (key_frames frames2)
                   = _hash_key instruction (key_frames frames1)).
    { unfold _hash_key. rewrite (key_frames_agree _ _ Hagree Hblank). reflexivity. }
    rewrite Hkey.
    set (key := _hash_key instruction (key_frames frames1)).
    set (cache := _load_cache file).
    set (entries := cache_entries cache).
    destruct (cached_hit entries key) as [cached |] eqn:Ehit.
    + cbn [outcome file_after]. intros r1 E.
      fold cache. fold entries. rewrite Ehit. cbn [outcome service_called]. auto.
    + destruct (responses_json_schema api_key net1) as [[out raw] | e].
      2: { cbn [outcome]. discriminate. }
      destruct (result_of_answer out raw) as [r | e] eqn:Er.
      2: { cbn [outcome]. discriminate. }
      cbn [outcome file_after]. intros r1 E. inversion E; subst r1; clear E.
      assert (Hload : _load_cache
                 (Some (PyDict (dict_set cache "entries"
                                  (PyDict (dict_set entries key (cache_entry ts1 r raw))))))
               = dict_set cache "entries"
                   (PyDict (dict_set entries key (cache_entry ts1 r raw)))).
      { unfold _load_cache. rewrite get_set_eq. reflexivity. }
      rewrite Hload.
      assert (Hentries : cache_entries
                 (dict_set cache "entries"
                    (PyDict (dict_set entries key (cache_entry ts1 r raw))))
               = dict_set entries key (cache_entry ts1 r raw)).
      { unfold cache_entries, get_or. rewrite dict_get_set_eq. reflexivity. }
      rewrite Hentries.
      pose proof (result_of_cached_entry ts1 r raw (result_of_answer_raw _ _ _ Er)) as Hback.
      unfold cached_hit. rewrite get_set_eq.
      unfold cache_entry in *. cbn [get dict_get String.eqb Ascii.eqb Bool.eqb].
      cbn [outcome service_called]. auto.
Qed.

(** C7.  The frames [judge_episode] is given are base64 text, so none of
    them is blank.  For two calls with the same credentials and
    instruction, the second on the cache file the first left, whose frame
    lists hold no blank frame and agree frame by frame on the first 2048
    characters and on the total length: the second call does not call the
    judging service and returns the result of the first unchanged
    (verdict, score, confidence, failure modes, explanation and fix
    proposal). *)
Theorem judge_second_call_cached (api_key : option string) (net1 net2 : transport)
    (ts1 ts2 : string) (file : option value) (instruction : string)
    (frames1 frames2 : list string) :
  List.Forall (fun f => blank f = false) frames1 ->
  List.Forall (fun f => blank f = false) frames2 ->
  judge_cache_as_stated api_key net1 net2 ts1 ts2 file instruction frames1 frames2.
Proof.
  intros Hb1 Hb2 Hagree.
  apply second_call_cached_same_blanks; [exact Hagree |].
  clear - Hb1 Hb2 Hagree. revert Hb1 Hb2.
  induction Hagree as [| f g fs gs _ _ IH]; intros Hb1 Hb2; constructor.
  - inversion Hb1; inversion Hb2; subst. congruence.
  - inversion Hb1; inversion Hb2; subst. apply IH; assumption.
Qed.

End JudgeProperties.

Lemma judge_missing_key_uncertain_witness :
  outcome (@judge_episode example_runtime None (URLError "unreachable") "t0" None
             "go home" ["abc"])
  = Ok missing_key_result.
Proof.
  destruct (@judge_missing_key_uncertain example_runtime None (URLError "unreachable")
              "t0" None "go home" ["abc"] eq_refl) as [Hrun _].
  rewrite Hrun. reflexivity.
Defined.

(** C6 as stated fails: with credentials present and the service
    unreachable, [judge_episode] raises. *)
Lemma judge_unreachable_counterexample :
  ~ @judge_unreachable_as_stated example_runtime (Some "sk-test")
      (URLError "unreachable") "t0" None "go home" ["abc"].
Proof.
  intros Hclaim.
  destruct Hclaim as [r [E _]].
  - right. left. exists "unreachable". reflexivity.
  - vm_compute in E. discriminate E.
Qed.

Lemma judge_second_call_cached_witness :
  @second_call_cached example_runtime (Some "sk-test") (Body "")
    (URLError "unreachable") "t1" "t2" None "go home" ["abc"; "def"] ["abc"; "def"].
Proof.
  apply (@judge_second_call_cached example_runtime (Some "sk-test") (Body "")
           (URLError "unreachable") "t1" "t2" None "go home"
           ["abc"; "def"] ["abc"; "def"]).
  - repeat constructor.
  - repeat constructor.
  - repeat constructor.
Defined.

(** * Further properties of the code *)

(** ** Shield: what every decision looks like *)

Section ShieldDecisions.
Context `{Builtins}.

Lemma maybe_override_cases (tracker : TrackerOutput) (spec : TaskSpec)
    (caps : CapabilityMapping) (system_manifest : pydict) (d : ShieldDecision) :
  maybe_override tracker spec caps system_manifest = Ok (Some d) ->
  (exists why, d = stop_decision why)
  \/ (exists mstep why target token args configured,
        max_step_ms spec = Ok mstep
        /\ d = {| overridden := true; reason := why;
                  plan := [RUN target token args (Some (_clamp configured 80 mstep));
                           STOP] |}).
Proof.
  unfold maybe_override.
  destruct (visible_conf_min spec) as [vmin | e]; cbn [bind]; [| discriminate].
  destruct (max_step_ms spec) as [mstep | e]; cbn [bind]; [| discriminate].
  destruct (bbox tracker) as [b |]; [| intros E; inversion E; eauto].
  destruct (Qltb _ vmin); [intros E; inversion E; eauto |].
  destruct (negb (_contains _ b)); [intros E; inversion E; eauto |].
  destruct (Qltb _ _); [| discriminate].
  destruct (negb (opt_truthy (mobility_target caps))); [intros E; inversion E; eauto |].
  destruct (opt_truthy (strafe_token caps)).
  - destruct (get_command_spec _ _ _) as [cmd | e]; cbn [bind]; [| discriminate].
    destruct (negb (cmd_truthy cmd)); [intros E; inversion E; eauto |].
    destruct (choose_arg_values _ _ _) as [args | e]; cbn [bind]; [| discriminate].
    intros E; inversion E. right. eauto 10.
  - destruct (opt_truthy (turn_token caps)); [| intros E; inversion E; eauto].
    destruct (get_command_spec _ _ _) as [cmd | e]; cbn [bind]; [| discriminate].
    destruct (negb (cmd_truthy cmd)); [intros E; inversion E; eauto |].
    destruct (choose_arg_values _ _ _) as [args | e]; cbn [bind]; [| discriminate].
    intros E; inversion E. right. eauto 10.
Qed.

(** X1. Every decision the shield returns is marked as an override and
    carries an executable plan: [[STOP]] or [[RUN, STOP]]. *)
Theorem shield_decision_is_valid_override (tracker : TrackerOutput) (spec : TaskSpec)
    (caps : CapabilityMapping) (system_manifest : pydict) (d : ShieldDecision) :
  maybe_override tracker spec caps system_manifest = Ok (Some d) ->
  overridden d = true /\ valid_plan (plan d).
Proof.
  intros Hrun. unfold valid_plan.
  destruct (maybe_override_cases _ _ _ _ _ Hrun)
    as [[why ->] | (mstep & why & tg & tk & args & cfg & _ & ->)]; simpl.
  - auto.
  - split; [reflexivity |]. right. eauto.
Qed.

(** X2. A RUN step of a shield plan always has a duration, never above
    the task's [max_step_ms], and at least 80 ms when [max_step_ms] is. *)
Theorem shield_run_duration_bounded (tracker : TrackerOutput) (spec : TaskSpec)
    (caps : CapabilityMapping) (system_manifest : pydict) (d : ShieldDecision)
    (target token : string) (args : list value) (duration : option Q) :
  maybe_override tracker spec caps system_manifest = Ok (Some d) ->
  In (RUN target token args duration) (plan d) ->
  exists q mstep,
    duration = Some q /\ max_step_ms spec = Ok mstep
    /\ q <= mstep /\ (80 <= mstep -> 80 <= q).
Proof.
  intros Hrun Hin.
  destruct (maybe_override_cases _ _ _ _ _ Hrun)
    as [[why ->] | (mstep & why & tg & tk & a & cfg & Hm & ->)]; simpl in Hin.
  - destruct Hin as [E | []]. discriminate E.
  - destruct Hin as [E | [E | []]]; [| discriminate E].
    inversion E; subst. exists (_clamp cfg 80 mstep), mstep.
    split; [reflexivity |]. split; [exact Hm |].
    split; [apply _clamp_le_hi | apply _clamp_ge_lo].
Qed.

(** X3. A visible box that is not inside the camera region is answered
    with the override [outside_roi] and plan [[STOP]], whatever the margin
    and the capabilities. *)
Theorem maybe_override_outside_roi (tracker : TrackerOutput) (spec : TaskSpec)
    (caps : CapabilityMapping) (system_manifest : pydict) (b : BBox) (vmin mstep : Q) :
  visible_conf_min spec = Ok vmin ->
  max_step_ms spec = Ok mstep ->
  bbox tracker = Some b ->
  vmin <= visibility_confidence tracker ->
  _contains (camera_roi spec) b = false ->
  maybe_override tracker spec caps system_manifest
  = Ok (Some {| overridden := true; reason := "outside_roi"; plan := [STOP] |}).
Proof.
  intros Hv Hm Hb Hvis Hout. unfold maybe_override.
  rewrite Hv, Hm. cbn [bind]. rewrite Hb.
  apply Qltb_ge in Hvis. rewrite Hvis, Hout. reflexivity.
Qed.

(** X4. The shield lets the planner act ([None]) exactly when the box is
    present, visible, inside the camera region and not nearer to its edge
    than [center_margin]. *)
Theorem maybe_override_none_iff (tracker : TrackerOutput) (spec : TaskSpec)
    (caps : CapabilityMapping) (system_manifest : pydict) (vmin mstep : Q) :
  visible_conf_min spec = Ok vmin ->
  max_step_ms spec = Ok mstep ->
  (maybe_override tracker spec caps system_manifest = Ok None
   <-> exists b,
         bbox tracker = Some b
         /\ vmin <= visibility_confidence tracker
         /\ _contains (camera_roi spec) b = true
         /\ center_margin spec <= edge_margin tracker).
Proof.
  intros Hv Hm. unfold maybe_override. rewrite Hv, Hm. cbn [bind].
  destruct (bbox tracker) as [b |].
  - destruct (Qltb (visibility_confidence tracker) vmin) eqn:Evis.
    { split; [discriminate |]. intros (b' & _ & Hge & _).
      apply Qltb_lt in Evis. lra. }
    apply Qltb_ge in Evis.
    destruct (_contains (camera_roi spec) b) eqn:Eroi; cbn [negb].
    2: { split; [discriminate |]. intros (b' & Eb & _ & Hc & _).
         inversion Eb; subst. congruence. }
    destruct (Qltb (edge_margin tracker) (center_margin spec)) eqn:Eedge.
    + split.
      * destruct (negb (opt_truthy (mobility_target caps))); [discriminate |].
        destruct (opt_truthy (strafe_token caps)).
        -- destruct (get_command_spec _ _ _) as [cmd | e]; cbn [bind]; [| discriminate].
           destruct (negb (cmd_truthy cmd)); [discriminate |].
           destruct (choose_arg_values _ _ _); cbn [bind]; discriminate.
        -- destruct (opt_truthy (turn_token caps)); [| discriminate].
           destruct (get_command_spec _ _ _) as [cmd | e]; cbn [bind]; [| discriminate].
           destruct (negb (cmd_truthy cmd)); [discriminate |].
           destruct (choose_arg_values _ _ _); cbn [bind]; discriminate.
      * intros (b' & _ & _ & _ & Hge). apply Qltb_lt in Eedge. lra.
    + apply Qltb_ge in Eedge. split; [| reflexivity].
      intros _. exists b. auto.
  - split; [discriminate | intros (b' & Eb & _); discriminate].
Qed.

End ShieldDecisions.

Lemma shield_decision_is_valid_override_witness :
  valid_plan [RUN "car-1" "STRAFE" [PyStr "R"; PyFloat (1 # 2)] (Some 220); STOP].
Proof.
  apply (@shield_decision_is_valid_override example_runtime edge_tracker default_taskspec
           (car_caps (Some "STRAFE") (Some "TURN"))
           (car_manifest [PyDict strafe_cmd; PyDict turn_cmd])
           {| overridden := true; reason := "edge_strafe_right";
              plan := [RUN "car-1" "STRAFE" [PyStr "R"; PyFloat (1 # 2)] (Some 220);
                       STOP] |}).
  vm_compute. reflexivity.
Defined.

Lemma shield_run_duration_bounded_witness :
  exists q mstep,
    Some 220 = Some q /\ @max_step_ms example_runtime default_taskspec = Ok mstep
    /\ q <= mstep /\ (80 <= mstep -> 80 <= q).
Proof.
  apply (@shield_run_duration_bounded example_runtime edge_tracker default_taskspec
           (car_caps (Some "STRAFE") (Some "TURN"))
           (car_manifest [PyDict strafe_cmd; PyDict turn_cmd])
           {| overridden := true; reason := "edge_strafe_right";
              plan := [RUN "car-1" "STRAFE" [PyStr "R"; PyFloat (1 # 2)] (Some 220);
                       STOP] |}
           "car-1" "STRAFE" [PyStr "R"; PyFloat (1 # 2)] (Some 220)).
  - vm_compute. reflexivity.
  - left. reflexivity.
Defined.

(** A box that sticks out of a camera region covering the left half. *)
Lemma maybe_override_outside_roi_witness :
  @maybe_override example_runtime
    {| bbox := Some {| bx := 4 # 10; by_ := 4 # 10; bw := 2 # 10; bh := 1 # 10 |};
       visibility_confidence := 1 # 2; edge_margin := 0; debug := [] |}
    {| task_id := "t"; instruction := "go";
       camera_roi := {| rx := 0; ry := 0; rw := 1 # 2; rh := 1 |};
       home_roi := home_roi default_taskspec;
       safety := safety default_taskspec;
       policy_params := policy_params default_taskspec;
       policy_param_bounds := [] |}
    no_caps []
  = Ok (Some {| overridden := true; reason := "outside_roi"; plan := [STOP] |}).
Proof.
  apply (@maybe_override_outside_roi example_runtime _ _ no_caps []
           {| bx := 4 # 10; by_ := 4 # 10; bw := 2 # 10; bh := 1 # 10 |}
           (12 # 100) (inject_Z 800)).
  - vm_compute. reflexivity.
  - vm_compute. reflexivity.
  - reflexivity.
  - vm_compute. discriminate.
  - vm_compute. reflexivity.
Defined.

Lemma maybe_override_none_iff_witness :
  @maybe_override example_runtime
    {| bbox := Some {| bx := 4 # 10; by_ := 4 # 10; bw := 2 # 10; bh := 1 # 10 |};
       visibility_confidence := 1 # 2; edge_margin := 4 # 10; debug := [] |}
    default_taskspec no_caps []
  = Ok None.
Proof.
  apply (@maybe_override_none_iff example_runtime _ default_taskspec no_caps []
           (12 # 100) (inject_Z 800)).
  - vm_compute. reflexivity.
  - vm_compute. reflexivity.
  - exists {| bx := 4 # 10; by_ := 4 # 10; bw := 2 # 10; bh := 1 # 10 |}.
    split; [reflexivity |]. split; [vm_compute; discriminate |].
    split; [vm_compute; reflexivity | vm_compute; discriminate].
Defined.

(** ** Argument lists *)

Lemma map_result_length {A B} (f : A -> result B) (l : list A) (out : list B) :
  map_result f l = Ok out -> length out = length l.
Proof.
  revert out. induction l as [| a r IH]; intros out; simpl.
  - intros E; inversion E; reflexivity.
  - destruct (f a); cbn [bind]; [| discriminate].
    destruct (map_result f r); cbn [bind]; [| discriminate].
    intros E; inversion E; subst. simpl. f_equal. apply IH. reflexivity.
Qed.


Section ArgumentProperties.
Context `{Builtins}.





(** X5. When [choose_arg_values] returns, it returns exactly one value
    for each argument the command declares, and none for a command whose
    [args] is not a list. *)
Theorem choose_arg_values_one_per_argument (command_spec : pydict)
    (policy_params : gmap string Q) (direction_hint : option string)
    (out : list value) :
  choose_arg_values command_spec policy_params direction_hint = Ok out ->
  length out = match get command_spec "args" with
               | PyList declared => length declared
               | _ => 0%nat
               end.
Proof.
  unfold choose_arg_values. intros Hrun.
  apply map_result_length in Hrun. rewrite Hrun.
  destruct (get command_spec "args"); reflexivity.
Qed.


(** X7. [_sanitize_args] returns as many values as the shorter of the two
    lists has: arguments the command does not declare are dropped, and
    declared arguments the step does not supply are not invented. *)
Theorem _sanitize_args_length (policy_params : gmap string Q)
    (args spec_args out : list value) :
  _sanitize_args args spec_args policy_params = Ok out ->
  length out = Nat.min (length args) (length spec_args).
Proof.
  revert args out. induction spec_args as [| sp rest IH]; intros args out.
  - destruct args; simpl; intros E; inversion E; reflexivity.
  - destruct args as [| a args']; simpl.
    + intros E; inversion E. reflexivity.
    + destruct (sanitize_arg policy_params sp a); cbn [bind]; [| discriminate].
      destruct (_sanitize_args args' rest policy_params) eqn:E1; cbn [bind];
        [| discriminate].
      intros E; inversion E; subst. simpl. f_equal. apply IH. exact E1.
Qed.

(** X8. Each sanitized argument has the Python type its declaration
    asks for: a float for [float], an int for [int], a bool for [bool],
    a str for [string]; and a [string] argument with a non-empty [enum]
    is one of the enum's members. *)
Theorem _sanitize_args_typed (policy_params : gmap string Q)
    (args spec_args out : list value) (i : nat) (arg_spec : pydict) (raw v : value) :
  _sanitize_args args spec_args policy_params = Ok out ->
  spec_args !! i = Some (PyDict arg_spec) ->
  args !! i = Some raw ->
  out !! i = Some v ->
  value_has_type (spec_type arg_spec) v
  /\ (forall e0 rest,
        spec_type arg_spec = "string" ->
        get arg_spec "enum" = PyList (e0 :: rest) ->
        exists s, v = PyStr s /\ str_in s (map py_str (e0 :: rest)) = true).
Proof.
  intros Hrun Hsp Hraw Hout.
  destruct (_sanitize_args_lookup _ _ _ _ _ _ _ Hrun Hsp Hraw) as [v' [Hout' Hv]].
  rewrite Hout in Hout'. inversion Hout'; subst v'. clear Hout'.
  unfold sanitize_arg in Hv. fold (spec_type arg_spec) in Hv.
  fold (spec_name arg_spec) in Hv. unfold value_has_type.
  split.
  - destruct (String.eqb (spec_type arg_spec) "float") eqn:Ef.
    { apply String.eqb_eq in Ef. rewrite Ef in Hv. simpl in Hv.
      destruct (sanitize_number _ _ _ _ _) as [x |]; cbn [bind] in Hv; [| discriminate].
      destruct (finite x); cbn [bind] in Hv; [| discriminate].
      inversion Hv. eauto. }
    destruct (String.eqb (spec_type arg_spec) "int") eqn:Ei.
    { apply String.eqb_eq in Ei. rewrite Ei in Hv. simpl in Hv.
      destruct (sanitize_number _ _ _ _ _) as [x |]; cbn [bind] in Hv; [| discriminate].
      destruct (xround x); cbn [bind] in Hv; [| discriminate].
      inversion Hv. eauto. }
    destruct (String.eqb (spec_type arg_spec) "bool") eqn:Eb.
    { apply String.eqb_eq in Eb. rewrite Eb in Hv. simpl in Hv.
      destruct raw; inversion Hv; eauto. }
    destruct (String.eqb (spec_type arg_spec) "string") eqn:Es; [| exact I].
    apply String.eqb_eq in Es. rewrite Es in Hv. simpl in Hv.
    destruct (get arg_spec "enum") as [| | | | | [| e0 rest] |];
      try (inversion Hv; eauto; fail).
    destruct (str_in _ _); inversion Hv; eauto.
  - intros e0 rest Es Henum. rewrite Es, Henum in Hv. simpl in Hv.
    destruct (String.eqb (py_str raw) (py_str e0)
              || str_in (py_str raw) (map py_str rest)) eqn:Ein;
      inversion Hv; subst.
    + exists (py_str raw). split; [reflexivity | exact Ein].
    + exists (py_str e0). split; [reflexivity |].
      simpl. rewrite String.eqb_refl. reflexivity.
Qed.

End ArgumentProperties.

Lemma choose_arg_values_one_per_argument_witness :
  length [PyStr "R"; PyFloat (1 # 2)] = 2%nat.
Proof.
  apply (@choose_arg_values_one_per_argument example_runtime strafe_cmd
           (policy_params default_taskspec) (Some "R")).
  vm_compute. reflexivity.
Defined.


Lemma _sanitize_args_length_witness :
  length [PyStr "L"; PyFloat (1 # 2)] = Nat.min 3 2.
Proof.
  apply (@_sanitize_args_length example_runtime (policy_params default_taskspec)
           [PyStr "L"; PyFloat 1; PyInt 7]
           [PyDict [("name", PyStr "dir"); ("type", PyStr "string");
                    ("enum", PyList [PyStr "L"; PyStr "R"])];
            PyDict [("name", PyStr "speed"); ("type", PyStr "float");
                    ("min", PyFloat 0); ("max", PyFloat 1)]]).
  vm_compute. reflexivity.
Defined.

Lemma _sanitize_args_typed_witness :
  exists s, PyStr "L" = PyStr s /\ str_in s ["L"; "R"] = true.
Proof.
  destruct (@_sanitize_args_typed example_runtime (policy_params default_taskspec)
              [PyStr "up"; PyFloat 1]
              [PyDict [("name", PyStr "dir"); ("type", PyStr "string");
                       ("enum", PyList [PyStr "L"; PyStr "R"])];
               PyDict [("name", PyStr "speed"); ("type", PyStr "float");
                       ("min", PyFloat 0); ("max", PyFloat 1)]]
              [PyStr "L"; PyFloat (1 # 2)] 0%nat
              [("name", PyStr "dir"); ("type", PyStr "string");
               ("enum", PyList [PyStr "L"; PyStr "R"])]
              (PyStr "up") (PyStr "L") eq_refl eq_refl eq_refl eq_refl)
    as [_ Henum].
  exact (Henum (PyStr "L") [PyStr "R"] eq_refl eq_refl).
Defined.

(** ** Manifest lookup *)

Section ManifestProperties.
Context `{Builtins}.

Lemma find_command_found (token_u : string) (cmds : list value) (cmd : pydict) :
  find_command token_u cmds = Some cmd ->
  In (PyDict cmd) cmds
  /\ upper (py_str (py_or (get cmd "token") (PyStr ""))) = token_u.
Proof.
  induction cmds as [| c rest IH]; simpl; [discriminate |].
  destruct c as [| | | | | | d];
    try (intros E; destruct (IH E); auto; fail).
  destruct (String.eqb _ token_u) eqn:Et.
  - intros E; inversion E; subst. apply String.eqb_eq in Et. auto.
  - intros E; destruct (IH E); auto.
Qed.

Lemma find_in_nodes_found (target token_u : string) (nodes : list value)
    (cmd : pydict) :
  find_in_nodes target token_u nodes = Ok (Some cmd) ->
  exists node cmds,
    In (PyDict node) nodes
    /\ (target = py_str (py_or (get node "name") (PyStr ""))
        \/ target = py_str (py_or (get node "node_id") (PyStr "")))
    /\ py_iter (get_or node "commands" (PyList [])) = Ok cmds
    /\ In (PyDict cmd) cmds
    /\ upper (py_str (py_or (get cmd "token") (PyStr ""))) = token_u.
Proof.
  induction nodes as [| n rest IH]; simpl; [discriminate |].
  assert (Hrest : find_in_nodes target token_u rest = Ok (Some cmd) ->
                  exists node cmds,
                    (n = PyDict node \/ In (PyDict node) rest)
                    /\ (target = py_str (py_or (get node "name") (PyStr ""))
                        \/ target = py_str (py_or (get node "node_id") (PyStr "")))
                    /\ py_iter (get_or node "commands" (PyList [])) = Ok cmds
                    /\ In (PyDict cmd) cmds
                    /\ upper (py_str (py_or (get cmd "token") (PyStr ""))) = token_u).
  { intros E. destruct (IH E) as (node & cmds & Hin & Hrest).
    exists node, cmds. auto. }
  destruct n as [| | | | | | node]; try exact Hrest.
  destruct (String.eqb target _ || String.eqb target _) eqn:Et; cbn [negb];
    [| exact Hrest].
  destruct (py_iter _) as [cmds | e] eqn:Eiter; cbn [bind]; [| discriminate].
  destruct (find_command token_u cmds) as [c |] eqn:Ef; [| exact Hrest].
  intros E; inversion E; subst c.
  destruct (find_command_found _ _ _ Ef) as [Hin Htok].
  exists node, cmds. split; [left; reflexivity |].
  split; [| auto].
  apply orb_true_iff in Et. rewrite !String.eqb_eq in Et. exact Et.
Qed.

(** X9. Looking a command up does not depend on the letter case of the
    token asked for; and a command that is found belongs to a node whose
    name or id is the target and carries the token asked for, letter case
    apart. *)
Theorem get_command_spec_found (system_manifest : pydict) (target token : string) :
  get_command_spec system_manifest target (lower token)
  = get_command_spec system_manifest target token
  /\ get_command_spec system_manifest target (upper token)
     = get_command_spec system_manifest target token
  /\ (forall cmd,
        get_command_spec system_manifest target token = Ok (Some cmd) ->
        exists nodes node cmds,
          get system_manifest "nodes" = PyList nodes
          /\ In (PyDict node) nodes
          /\ (target = py_str (py_or (get node "name") (PyStr ""))
              \/ target = py_str (py_or (get node "node_id") (PyStr "")))
          /\ py_iter (get_or node "commands" (PyList [])) = Ok cmds
          /\ In (PyDict cmd) cmds
          /\ upper (py_str (py_or (get cmd "token") (PyStr ""))) = upper token).
Proof.
  unfold get_command_spec. rewrite upper_lower, upper_idempotent.
  split; [reflexivity |]. split; [reflexivity |].
  intros cmd. destruct (get system_manifest "nodes") as [| | | | | nodes |];
    try discriminate.
  intros E. destruct (find_in_nodes_found _ _ _ _ E) as (node & cmds & Hfound).
  exists nodes, node, cmds. auto.
Qed.

End ManifestProperties.

Lemma get_command_spec_found_witness :
  @get_command_spec example_runtime (car_manifest [PyDict strafe_cmd; PyDict turn_cmd])
    "car" "turn" = Ok (Some turn_cmd)
  /\ upper "TURN" = upper "turn".
Proof.
  split; [vm_compute; reflexivity |].
  destruct (proj2 (proj2 (@get_command_spec_found example_runtime
                            (car_manifest [PyDict strafe_cmd; PyDict turn_cmd])
                            "car" "turn")) turn_cmd)
    as (nodes & node & cmds & _ & _ & _ & _ & _ & Htok).
  - vm_compute. reflexivity.
  - exact Htok.
Defined.

(** ** Service client *)

Lemma first_text_nonblank (parts : list value) (t : string) :
  first_text parts = Some t -> str_nonempty (strip t) = true.
Proof.
  induction parts as [| p rest IH]; simpl; [discriminate |].
  destruct (text_of p) as [t' |] eqn:Et; [| exact IH].
  intros E; inversion E; subst t'. unfold text_of in Et.
  destruct p as [| | | | | | part]; try discriminate.
  destruct (get part "text") as [| | | | s | |]; try discriminate.
  destruct (str_nonempty (strip s)) eqn:Es; [| discriminate].
  inversion Et; subst. exact Es.
Qed.

Lemma first_item_text_nonblank (items : list value) (t : string) :
  first_item_text items = Some t -> str_nonempty (strip t) = true.
Proof.
  induction items as [| item rest IH]; simpl; [discriminate |].
  destruct item as [| | | | | | d]; try exact IH.
  destruct (get d "content") as [| | | | | content |]; try exact IH.
  destruct (first_text content) as [t' |] eqn:Et; [| exact IH].
  intros E; inversion E; subst t'. eapply first_text_nonblank; eauto.
Qed.

Section ClientProperties.
Context `{Builtins}.

Lemma loads_or_empty_ok (text : string) (e : exn) (v : value) :
  (if str_nonempty text
   then match json_loads text with
        | Some v => Ok v
        | None => Raise e
        end
   else Ok (PyDict [])) = Ok v ->
  text = "" /\ v = PyDict [] \/ json_loads text = Some v.
Proof.
  destruct text as [| c r]; simpl.
  - intros E; inversion E. auto.
  - destruct (json_loads (String c r)); intros E; inversion E. auto.
Qed.

(** X10. The text [extract_responses_text] takes from a response is
    either empty or not blank; a non-blank [output_text] string is
    returned as it is, whatever the [output] list holds. *)
Theorem extract_responses_text_nonblank (payload : pydict) :
  (extract_responses_text payload = ""
   \/ str_nonempty (strip (extract_responses_text payload)) = true)
  /\ (forall t,
        get payload "output_text" = PyStr t ->
        str_nonempty (strip t) = true ->
        extract_responses_text payload = t).
Proof.
  unfold extract_responses_text. split.
  - assert (Hout : match get payload "output" with
                   | PyList items => default "" (first_item_text items)
                   | _ => ""
                   end = ""
                   \/ str_nonempty (strip match get payload "output" with
                                           | PyList items => default "" (first_item_text items)
                                           | _ => ""
                                           end) = true).
    { destruct (get payload "output") as [| | | | | items |]; auto.
      destruct (first_item_text items) as [t |] eqn:Et; simpl; auto.
      right. eapply first_item_text_nonblank; eauto. }
    destruct (get payload "output_text") as [| | | | t | |]; try exact Hout.
    destruct (str_nonempty (strip t)) eqn:Es; [right; exact Es | exact Hout].
  - intros t -> ->. reflexivity.
Qed.

(** X11. [responses_json_schema] returns only when credentials are
    present and a response body arrived; what it returns is the parsed
    body and the parsed text taken from it (an empty object for an empty
    body or text).  Without credentials it raises before anything is
    sent, whatever the service would do. *)
Theorem responses_json_schema_returns (api_key : option string) (net : transport) :
  (forall obj payload,
     responses_json_schema api_key net = Ok (obj, payload) ->
     opt_truthy api_key = true
     /\ exists body,
          net = Body body
          /\ (body = "" /\ payload = [] \/ json_loads body = Some (PyDict payload))
          /\ (extract_responses_text payload = "" /\ obj = []
              \/ json_loads (extract_responses_text payload) = Some (PyDict obj)))
  /\ (opt_truthy api_key = false ->
      responses_json_schema api_key net
      = Raise (RuntimeError "Missing OPENAI_API_KEY (or OPEN_AI_API_KEY)")).
Proof.
  unfold responses_json_schema, call_responses_api. split.
  - intros obj payload.
    destruct (opt_truthy api_key); cbn [negb bind]; [| discriminate].
    destruct net as [detail | why | e | body]; cbn [bind]; try discriminate.
    destruct (if str_nonempty body then _ else _) as [parsed | e] eqn:Eparsed;
      cbn [bind]; [| discriminate].
    apply loads_or_empty_ok in Eparsed.
    destruct parsed as [| | | | | | raw0]; cbn [bind]; try discriminate.
    set (text := extract_responses_text raw0).
    destruct (if str_nonempty text then _ else _) as [v | e] eqn:Ev;
      cbn [bind]; [| discriminate].
    apply loads_or_empty_ok in Ev.
    destruct v as [| | | | | | d]; try discriminate.
    intros E; inversion E; subst. split; [reflexivity |].
    exists body. split; [reflexivity |]. split.
    + destruct Eparsed as [[-> Ep] | Ep]; [left | right; exact Ep].
      inversion Ep. auto.
    + fold text. destruct Ev as [[-> Ed] | Ed]; [left | right; exact Ed].
      inversion Ed. auto.
  - intros ->. reflexivity.
Qed.

End ClientProperties.

Lemma extract_responses_text_nonblank_witness :
  extract_responses_text [("output_text", PyStr "{}"); ("output", PyList [])] = "{}".
Proof.
  apply (proj2 (extract_responses_text_nonblank
                  [("output_text", PyStr "{}"); ("output", PyList [])])).
  - reflexivity.
  - reflexivity.
Defined.

Lemma responses_json_schema_returns_witness :
  opt_truthy (Some "sk-test") = true
  /\ exists body,
       Body run_body_text = Body body
       /\ (body = "" /\ [("output_text", PyStr run_answer_text)] = []
           \/ @json_loads example_runtime body
              = Some (PyDict [("output_text", PyStr run_answer_text)]))
       /\ (extract_responses_text [("output_text", PyStr run_answer_text)] = ""
           /\ match run_answer with PyDict d => d | _ => [] end = []
           \/ @json_loads example_runtime
                (extract_responses_text [("output_text", PyStr run_answer_text)])
              = Some (PyDict match run_answer with PyDict d => d | _ => [] end)).
Proof.
  apply (proj1 (@responses_json_schema_returns example_runtime (Some "sk-test")
                  (Body run_body_text))).
  vm_compute. reflexivity.
Defined.

(** ** Judge cache *)

Lemma dict_get_set_ne (d : pydict) (k k' : string) (v : value) :
  k' <> k -> dict_get (dict_set d k v) k' = dict_get d k'.
Proof.
  intros Hne. induction d as [| [k0 v0] r IH]; simpl.
  - destruct (String.eqb k' k) eqn:E; [| reflexivity].
    apply String.eqb_eq in E. contradiction.
  - destruct (String.eqb k k0) eqn:E0; simpl.
    + apply String.eqb_eq in E0. subst k0.
      destruct (String.eqb k' k) eqn:E; [| reflexivity].
      apply String.eqb_eq in E. contradiction.
    + destruct (String.eqb k' k0); [reflexivity | exact IH].
Qed.

Lemma lstrip_rstrip (t : string) :
  lstrip t = t -> lstrip (rstrip t) = rstrip t.
Proof.
  destruct t as [| c r]; simpl; [reflexivity |].
  destruct (is_space c) eqn:Ec.
  - intros E. exfalso.
    assert (Hlen : (String.length (lstrip r) <= String.length r)%nat).
    { clear. induction r as [| c r IH]; simpl; [lia |].
      destruct (is_space c); simpl; lia. }
    rewrite E in Hlen. simpl in Hlen. lia.
  - intros _. destruct (rstrip r); simpl; rewrite Ec; reflexivity.
Qed.

Lemma lstrip_idempotent (s : string) : lstrip (lstrip s) = lstrip s.
Proof.
  induction s as [| c r IH]; simpl; [reflexivity |].
  destruct (is_space c) eqn:Ec; [exact IH |]. simpl. rewrite Ec. reflexivity.
Qed.

Lemma rstrip_idempotent (t : string) : rstrip (rstrip t) = rstrip t.
Proof.
  induction t as [| c r IH]; simpl; [reflexivity |].
  destruct (rstrip r) as [| c' r'] eqn:Er.
  - destruct (is_space c) eqn:Ec; simpl; [reflexivity |]. rewrite Ec. reflexivity.
  - simpl. simpl in IH. destruct (rstrip r') as [| c'' r''] eqn:Er'.
    + destruct (is_space c'); [discriminate |]. inversion IH; subst. reflexivity.
    + inversion IH; subst. reflexivity.
Qed.

Lemma strip_idempotent (s : string) : strip (strip s) = strip s.
Proof.
  unfold strip.
  rewrite (lstrip_rstrip (lstrip s) (lstrip_idempotent s)).
  apply rstrip_idempotent.
Qed.

Lemma filter_app_frames (f : string -> bool) (a b : list string) :
  List.filter f (a ++ b) = (List.filter f a ++ List.filter f b)%list.
Proof.
  induction a as [| x r IH]; simpl; [reflexivity |].
  destruct (f x); simpl; rewrite IH; reflexivity.
Qed.

Lemma firstn_app_long {A} (n : nat) (a b : list A) :
  (n <= length a)%nat -> firstn n (a ++ b) = firstn n a.
Proof.
  revert a. induction n as [| m IH]; intros a Hlen; [reflexivity |].
  destruct a as [| x r]; simpl in *; [lia |].
  f_equal. apply IH. lia.
Qed.

Section JudgeCacheProperties.
Context `{Builtins}.

(** X12. Whatever the cache file holds (nothing, text that is not JSON,
    JSON of another shape), [_load_cache] gives a document whose
    [entries] is a dict; a document that already has one is taken as it
    is. *)
Theorem _load_cache_has_entries (file : option value) :
  (exists entries, get (_load_cache file) "entries" = PyDict entries)
  /\ (forall parsed entries,
        file = Some (PyDict parsed) ->
        get parsed "entries" = PyDict entries ->
        _load_cache file = parsed).
Proof.
  split.
  - unfold _load_cache.
    destruct file as [[| | | | | | parsed] |]; try (exists []; reflexivity).
    destruct (get parsed "entries") as [| | | | | | e] eqn:Ee;
      try (exists []; reflexivity).
    exists e. exact Ee.
  - intros parsed entries -> He. unfold _load_cache. rewrite He. reflexivity.
Qed.

Lemma result_of_answer_clamped (out payload : pydict) (r : JudgeResult) :
  result_of_answer out payload = Ok r ->
  0 <= score r /\ score r <= 1 /\ 0 <= confidence r /\ confidence r <= 1.
Proof.
  unfold result_of_answer.
  destruct (py_float (py_or (get out "score") (PyFloat 0))) as [s |];
    cbn [bind]; [| discriminate].
  destruct (py_float (py_or (get out "confidence") (PyFloat 0))) as [c |];
    cbn [bind]; [| discriminate].
  intros E; inversion E; subst; simpl. repeat split; order_cases.
Qed.

(** X13. A result that comes from the judging service (not from the
    cache) has its score and its confidence inside [0, 1], whatever
    numbers the service sent, and carries the raw response. *)
Theorem judge_fresh_result_clamped (api_key : option string) (net : transport)
    (ts : string) (file : option value) (instruction : string)
    (frames : list string) (r : JudgeResult) :
  let run := judge_episode api_key net ts file instruction frames in
  service_called run = true ->
  outcome run = Ok r ->
  0 <= score r /\ score r <= 1 /\ 0 <= confidence r /\ confidence r <= 1
  /\ exists payload, raw r = Some payload.
Proof.
  cbv zeta. unfold judge_episode.
  destruct (negb (opt_truthy api_key)); [discriminate |].
  destruct (cached_hit _ _); [discriminate |].
  destruct (responses_json_schema api_key net) as [[out payload] | e];
    [| intros _ E; discriminate E].
  destruct (result_of_answer out payload) as [r' | e] eqn:Er;
    [| intros _ E; discriminate E].
  cbn [outcome]. intros _ E. inversion E; subst r'.
  destruct (result_of_answer_clamped _ _ _ Er) as (H1 & H2 & H3 & H4).
  repeat split; try assumption.
  exists payload. eapply result_of_answer_raw. exact Er.
Qed.

(** X14. [judge_episode] writes the cache file only when it called the
    service and got a result: a call answered from the cache, a call
    without credentials and a call that raises leave the file as it was. *)
Theorem judge_cache_untouched (api_key : option string) (net : transport)
    (ts : string) (file : option value) (instruction : string)
    (frames : list string) :
  let run := judge_episode api_key net ts file instruction frames in
  service_called run = false \/ (exists e, outcome run = Raise e) ->
  file_after run = file.
Proof.
  cbv zeta. unfold judge_episode.
  destruct (negb (opt_truthy api_key)); [reflexivity |].
  destruct (cached_hit _ _); [reflexivity |].
  destruct (responses_json_schema api_key net) as [[out payload] | e];
    [| reflexivity].
  destruct (result_of_answer out payload) as [r | e]; [| reflexivity].
  cbn [outcome service_called]. intros [E | [e E]]; discriminate E.
Qed.

(** X15. A call never changes what the cache holds under another key:
    after the call, every key other than the call's own is bound in the
    cache file as it was before. *)
Theorem judge_cache_keeps_other_entries (api_key : option string) (net : transport)
    (ts : string) (file : option value) (instruction : string)
    (frames : list string) (other : string) :
  let run := judge_episode api_key net ts file instruction frames in
  other <> _hash_key instruction (key_frames frames) ->
  dict_get (cache_entries (_load_cache (file_after run))) other
  = dict_get (cache_entries (_load_cache file)) other.
Proof.
  cbv zeta. intros Hother. unfold judge_episode.
  destruct (negb (opt_truthy api_key)); [reflexivity |].
  destruct (cached_hit _ _); [reflexivity |].
  destruct (responses_json_schema api_key net) as [[out payload] | e];
    [| reflexivity].
  destruct (result_of_answer out payload) as [r | e]; [| reflexivity].
  cbn [file_after].
  set (cache := _load_cache file). set (entries := cache_entries cache).
  set (key := _hash_key instruction (key_frames frames)) in *.
  assert (Hload : _load_cache
             (Some (PyDict (dict_set cache "entries"
                              (PyDict (dict_set entries key (cache_entry ts r payload))))))
           = dict_set cache "entries"
               (PyDict (dict_set entries key (cache_entry ts r payload)))).
  { unfold _load_cache. rewrite get_set_eq. reflexivity. }
  rewrite Hload. unfold cache_entries at 1. unfold get_or.
  rewrite dict_get_set_eq. apply dict_get_set_ne. exact Hother.
Qed.

(** X16. Only the first eight non-blank frames take part: frames after
    them change neither the cache key nor anything else of the call. *)
Theorem judge_ignores_frames_after_eighth (api_key : option string) (net : transport)
    (ts : string) (file : option value) (instruction : string)
    (frames extra : list string) :
  (8 <= length (List.filter (fun b64 => str_nonempty (strip b64)) frames))%nat ->
  judge_episode api_key net ts file instruction (frames ++ extra)
  = judge_episode api_key net ts file instruction frames.
Proof.
  intros Hlen.
  assert (Hkey : key_frames (frames ++ extra) = key_frames frames).
  { unfold key_frames. rewrite filter_app_frames. apply firstn_app_long. exact Hlen. }
  unfold judge_episode. rewrite Hkey. reflexivity.
Qed.

(** X17. White space around the instruction does not change the cache
    key: the key of the stripped instruction is the key of the
    instruction. *)
Theorem _hash_key_strips_instruction (instruction : string) (frames : list string) :
  _hash_key (strip instruction) frames = _hash_key instruction frames.
Proof.
  unfold _hash_key. rewrite strip_idempotent. reflexivity.
Qed.

End JudgeCacheProperties.

Lemma _load_cache_has_entries_witness :
  _load_cache (Some (PyDict [("version", PyInt 1);
                             ("entries", PyDict [("k", PyDict [])])]))
  = [("version", PyInt 1); ("entries", PyDict [("k", PyDict [])])].
Proof.
  apply (proj2 (_load_cache_has_entries _) _ [("k", PyDict [])]); reflexivity.
Defined.

Lemma judge_fresh_result_clamped_witness :
  let r := {| verdict := "uncertain"; score := 0; confidence := 0;
              failure_modes := []; what_went_wrong := ""; fix_proposal := [];
              raw := Some [] |} in
  0 <= score r /\ score r <= 1 /\ 0 <= confidence r /\ confidence r <= 1
  /\ exists payload, raw r = Some payload.
Proof.
  intros r.
  apply (@judge_fresh_result_clamped example_runtime (Some "sk-test") (Body "")
           "t1" None "go home" ["abc"] r).
  - vm_compute. reflexivity.
  - vm_compute. reflexivity.
Defined.

Lemma judge_cache_untouched_witness :
  file_after (@judge_episode example_runtime (Some "sk-test") (URLError "unreachable")
                "t1" (Some (PyList [])) "go home" ["abc"])
  = Some (PyList []).
Proof.
  apply (@judge_cache_untouched example_runtime).
  right. eexists. vm_compute. reflexivity.
Defined.

Lemma judge_cache_keeps_other_entries_witness :
  dict_get
    (cache_entries
       (_load_cache
          (file_after
             (@judge_episode example_runtime (Some "sk-test") (Body "") "t1"
                (Some (PyDict [("entries", PyDict [("older", PyDict [])])]))
                "go home" ["abc"]))))
    "older"
  = Some (PyDict []).
Proof.
  rewrite (@judge_cache_keeps_other_entries example_runtime).
  - reflexivity.
  - intros E. vm_compute in E. discriminate E.
Defined.

Lemma judge_ignores_frames_after_eighth_witness :
  @judge_episode example_runtime (Some "sk-test") (Body "") "t1" None "go home"
    (["a"; "b"; "c"; "d"; "e"; "f"; "g"; "h"] ++ ["i"; "j"])
  = @judge_episode example_runtime (Some "sk-test") (Body "") "t1" None "go home"
      ["a"; "b"; "c"; "d"; "e"; "f"; "g"; "h"].
Proof.
  apply (@judge_ignores_frames_after_eighth example_runtime).
  simpl. lia.
Defined.

(** ** Patches and loading of the task state *)

Lemma number_float_is_number (v : value) (q : Q) :
  number_float v = Ok q -> is_number v = true.
Proof. destruct v; simpl; intros E; try discriminate E; reflexivity. Qed.

Lemma patch_value_in_bounds (bounds : pydict) (k : string) (q r : Q) :
  patch_value bounds k q = Ok r ->
  (forall b lo hi,
     get bounds k = PyDict b ->
     number_float (get b "min") = Ok lo ->
     number_float (get b "max") = Ok hi ->
     lo <= hi ->
     lo <= r /\ r <= hi)
  /\ ((forall b,
         ~ (get bounds k = PyDict b
            /\ is_number (get b "min") = true
            /\ is_number (get b "max") = true)) ->
      -1000000 <= r /\ r <= 1000000).
Proof.
  unfold patch_value. intros Hr.
  assert (Hgen : forall r', Ok (_clamp q (-1000000) 1000000) = Ok r' ->
                            -1000000 <= r' /\ r' <= 1000000).
  { intros r' E. inversion E.
    split; [apply _clamp_ge_lo; lra | apply _clamp_le_hi]. }
  split.
  - intros b lo hi Hb Hlo Hhi Hle. rewrite Hb in Hr.
    rewrite (number_float_is_number _ _ Hlo), (number_float_is_number _ _ Hhi) in Hr.
    rewrite Hlo, Hhi in Hr. cbn [andb bind] in Hr. inversion Hr.
    split; [apply _clamp_ge_lo; exact Hle | apply _clamp_le_hi].
  - intros Hnone.
    destruct (get bounds k) as [| | | | | | b] eqn:Eb; try (apply Hgen; exact Hr).
    destruct (is_number (get b "min")) eqn:El; cbn [andb] in Hr;
      [| apply Hgen; exact Hr].
    destruct (is_number (get b "max")) eqn:Eh; [| apply Hgen; exact Hr].
    exfalso. apply (Hnone b). auto.
Qed.

Lemma apply_items_keeps (bounds items : pydict) (pp : gmap string Q)
    (acc : list string) (k : string) :
  is_Some (pp !! k) -> is_Some (fst (apply_items bounds items pp acc) !! k).
Proof.
  revert pp acc. induction items as [| [k0 v0] rest IH]; intros pp acc Hk.
  - exact Hk.
  - cbn [apply_items]. destruct (patch_entry bounds (k0, v0)) as [[q | e] |].
    + apply IH. destruct (decide (k0 = k)) as [-> | Hne].
      * rewrite lookup_insert_eq. eauto.
      * rewrite lookup_insert_ne by exact Hne. exact Hk.
    + exact Hk.
    + apply IH. exact Hk.
Qed.

Lemma items_outcome_ok (bounds items : pydict) (acc applied : list string) :
  items_outcome bounds items acc = Ok applied ->
  Forall (entry_converts bounds) items.
Proof.
  revert acc. induction items as [| [k v] rest IH]; intros acc Hout; [constructor |].
  cbn [items_outcome] in Hout. rewrite patch_entry_accepts in Hout.
  destruct (patch_accepts (k, v)) eqn:Eacc; cbv beta iota in Hout.
  - destruct (entry_value bounds (k, v)) as [q | e] eqn:Eval;
      cbv beta iota in Hout; [| discriminate Hout].
    constructor; [intros _; exists q; exact Eval | eapply IH; exact Hout].
  - constructor; [| eapply IH; exact Hout].
    intros Hacc. rewrite Eacc in Hacc. discriminate Hacc.
Qed.

(** X18. Applying a patch a second time changes nothing more: the task
    state and the list of applied keys are those of the first
    application. *)
Theorem apply_patch_idempotent (spec : TaskSpec) (patch pp : pydict) :
  get patch "policy_params" = PyDict pp ->
  NoDup (map fst pp) ->
  apply_patch (fst (apply_patch spec (PyDict patch))) (PyDict patch)
  = apply_patch spec (PyDict patch).
Proof.
  intros Hpp Hnd. unfold apply_patch. rewrite Hpp.
  destruct (32 <? length pp)%nat eqn:Elen; cbn [fst]; [reflexivity |].
  destruct (apply_items_spec (policy_param_bounds spec) pp Hnd (policy_params spec) [])
    as [Happ1 Hlook1].
  destruct (apply_items (policy_param_bounds spec) pp (policy_params spec) [])
    as [params1 applied1] eqn:E1.
  cbn [fst snd policy_param_bounds policy_params with_policy_params] in *.
  destruct (apply_items_spec (policy_param_bounds spec) pp Hnd params1 [])
    as [Happ2 Hlook2].
  destruct (apply_items (policy_param_bounds spec) pp params1 [])
    as [params2 applied2] eqn:E2.
  cbn [fst snd] in *.
  assert (Hparams : params2 = params1).
  { apply map_eq. intros k. rewrite Hlook2. unfold patched_lookup.
    specialize (Hlook1 k). unfold patched_lookup in Hlook1.
    destruct (dict_get (processed (policy_param_bounds spec) pp) k) as [v |];
      [| reflexivity].
    destruct (patch_accepts (k, v)); [| reflexivity].
    destruct (entry_value (policy_param_bounds spec) (k, v)); [| reflexivity].
    symmetry. exact Hlook1. }
  subst params2. rewrite Happ2, <- Happ1. reflexivity.
Qed.

(** X19. A value [apply_patch] stores never escapes its range: when the
    call returns, the key of every accepted entry holds a value that lies
    between the declared [min] and [max] when both are numbers that
    [float()] accepts, with [min <= max], and between -1e6 and 1e6 when
    the key has no pair of declared numeric bounds. *)
Theorem apply_patch_value_in_bounds (spec : TaskSpec) (patch pp : pydict)
    (k : string) (v : value) (applied : list string) :
  get patch "policy_params" = PyDict pp ->
  NoDup (map fst pp) ->
  (length pp <= 32)%nat ->
  dict_get pp k = Some v ->
  patch_accepts (k, v) = true ->
  snd (apply_patch spec (PyDict patch)) = Ok applied ->
  exists q,
    policy_params (fst (apply_patch spec (PyDict patch))) !! k = Some q
    /\ (forall b lo hi,
          get (policy_param_bounds spec) k = PyDict b ->
          number_float (get b "min") = Ok lo ->
          number_float (get b "max") = Ok hi ->
          lo <= hi ->
          lo <= q /\ q <= hi)
    /\ ((forall b,
           ~ (get (policy_param_bounds spec) k = PyDict b
              /\ is_number (get b "min") = true
              /\ is_number (get b "max") = true)) ->
        -1000000 <= q /\ q <= 1000000).
Proof.
  intros Hpp Hnd Hlen Hk Hacc. unfold apply_patch. rewrite Hpp.
  apply Nat.ltb_ge in Hlen. rewrite Hlen.
  destruct (apply_items_spec (policy_param_bounds spec) pp Hnd (policy_params spec) [])
    as [Hout Hlook].
  destruct (apply_items (policy_param_bounds spec) pp (policy_params spec) [])
    as [params out] eqn:E.
  cbn [fst snd policy_params with_policy_params] in *.
  intros Hret. subst out.
  pose proof (items_outcome_ok _ _ _ _ Hret) as Hall.
  destruct (processed_all _ _ [] Hall) as [Hproc _].
  rewrite Hproc in Hlook.
  assert (Hconv : entry_converts (policy_param_bounds spec) (k, v)).
  { rewrite List.Forall_forall in Hall. apply Hall.
    clear - Hk. induction pp as [| [k0 v0] rest IH]; [discriminate Hk |].
    simpl in Hk. destruct (String.eqb k k0) eqn:E.
    - apply String.eqb_eq in E. inversion Hk; subst. left. reflexivity.
    - right. apply IH. exact Hk. }
  destruct (Hconv Hacc) as [q Hq].
  exists q. split.
  - rewrite Hlook. unfold patched_lookup. rewrite Hk, Hacc, Hq. reflexivity.
  - unfold entry_value in Hq. cbn [fst snd] in Hq.
    destruct (number_float v) as [q0 |]; cbn [bind] in Hq; [| discriminate Hq].
    exact (patch_value_in_bounds _ _ _ _ Hq).
Qed.

(** X20. Whatever the patch is, [apply_patch] touches only
    [policy_params] and never removes a parameter; a patch that is not a
    dict, or whose [policy_params] is not a dict, changes nothing and
    applies nothing. *)
Theorem apply_patch_only_adds (spec : TaskSpec) (patch : value) :
  let after := fst (apply_patch spec patch) in
  after = with_policy_params spec (policy_params after)
  /\ (forall k, is_Some (policy_params spec !! k) -> is_Some (policy_params after !! k))
  /\ ((forall d pp, ~ (patch = PyDict d /\ get d "policy_params" = PyDict pp)) ->
      apply_patch spec patch = (spec, Ok [])).
Proof.
  cbv zeta. unfold apply_patch.
  assert (Hsame : spec = with_policy_params spec (policy_params spec)).
  { destruct spec; reflexivity. }
  destruct patch as [| | | | | | d]; cbn [fst]; try (split; [exact Hsame | split; auto]).
  destruct (get d "policy_params") as [| | | | | | pp] eqn:Epp;
    cbn [fst]; try (split; [exact Hsame | split; auto]).
  destruct (32 <? length pp)%nat.
  - cbn [fst]. split; [exact Hsame |]. split; [auto |].
    intros Hnot. exfalso. apply (Hnot d pp). auto.
  - pose proof (apply_items_keeps (policy_param_bounds spec) pp (policy_params spec) [])
      as Hkeep.
    destruct (apply_items (policy_param_bounds spec) pp (policy_params spec) [])
      as [params applied].
    cbn [fst] in *. split; [reflexivity |]. split; [exact Hkeep |].
    intros Hnot. exfalso. apply (Hnot d pp). auto.
Qed.

Lemma load_policy_params_keeps (items : pydict) (m : gmap string Q) (k : string) :
  is_Some (m !! k) -> is_Some (load_policy_params items m !! k).
Proof.
  revert m. induction items as [| [k0 v0] rest IH]; intros m Hk; [exact Hk |].
  simpl. destruct (is_number v0 && negb (is_bool v0)); apply IH; [| exact Hk].
  destruct (decide (k0 = k)) as [-> | Hne].
  - rewrite lookup_insert_eq. eauto.
  - rewrite lookup_insert_ne by exact Hne. exact Hk.
Qed.

Lemma update_safety_keeps (items : pydict) (m : gmap string value) (k : string) :
  is_Some (m !! k) -> is_Some (update_safety items m !! k).
Proof.
  revert m. induction items as [| [k0 v0] rest IH]; intros m Hk; [exact Hk |].
  simpl. apply IH. destruct (decide (k0 = k)) as [-> | Hne].
  - rewrite lookup_insert_eq. eauto.
  - rewrite lookup_insert_ne by exact Hne. exact Hk.
Qed.

Section LoadDefaults.
Context `{Builtins}.

(** X21. A loaded task state never lacks a default: every policy
    parameter and every safety setting of [TaskSpec()] is present after
    [load_taskspec], whatever the file holds; and an instruction given on
    the command line replaces the file's. *)
Theorem load_taskspec_keeps_defaults
    (source : option (result value)) (instruction_override : option string)
    (spec : TaskSpec) :
  load_taskspec source instruction_override = Ok spec ->
  (forall k, is_Some (policy_params default_taskspec !! k) ->
             is_Some (policy_params spec !! k))
  /\ (forall k, is_Some (safety default_taskspec !! k) -> is_Some (safety spec !! k))
  /\ (forall i, instruction_override = Some i -> instruction spec = i).
Proof.
  unfold load_taskspec.
  destruct source as [[raw | e] |]; [| discriminate |].
  - destruct raw as [| | | | | | d]; try discriminate.
    intros E; inversion E; subst; clear E. cbn [policy_params safety instruction].
    split; [| split].
    + intros k Hk. destruct (get d "policy_params"); try exact Hk.
      apply load_policy_params_keeps. exact Hk.
    + intros k Hk. destruct (get d "safety"); try exact Hk.
      apply update_safety_keeps. exact Hk.
    + intros i ->. reflexivity.
  - intros E; inversion E; subst; clear E. cbn [policy_params safety instruction].
    split; [auto | split; [auto |]]. intros i ->. reflexivity.
Qed.

End LoadDefaults.

Lemma speed_patch_nodup :
  NoDup (map fst [("default_speed", PyFloat 5); ("note", PyStr "x")]).
Proof. apply (bool_decide_unpack _). vm_compute. exact I. Qed.

Lemma apply_patch_idempotent_witness :
  let patch := [("policy_params",
                 PyDict [("default_speed", PyFloat 5); ("note", PyStr "x")])] in
  apply_patch (fst (apply_patch default_taskspec (PyDict patch))) (PyDict patch)
  = apply_patch default_taskspec (PyDict patch).
Proof.
  intros patch.
  apply (apply_patch_idempotent default_taskspec patch
           [("default_speed", PyFloat 5); ("note", PyStr "x")] eq_refl speed_patch_nodup).
Defined.

(** A speed of 5 under declared bounds [0.05, 1] is stored as 1. *)
Lemma apply_patch_value_in_bounds_witness :
  let spec := {| task_id := "t"; instruction := "go";
                 camera_roi := camera_roi default_taskspec;
                 home_roi := home_roi default_taskspec;
                 safety := safety default_taskspec;
                 policy_params := policy_params default_taskspec;
                 policy_param_bounds :=
                   [("default_speed",
                     PyDict [("min", PyFloat (5 # 100)); ("max", PyInt 1)])] |} in
  let patch := [("policy_params",
                 PyDict [("default_speed", PyFloat 5); ("note", PyStr "x")])] in
  exists q,
    policy_params (fst (apply_patch spec (PyDict patch))) !! "default_speed" = Some q
    /\ 5 # 100 <= q /\ q <= 1.
Proof.
  intros spec patch.
  destruct (apply_patch_value_in_bounds spec patch
              [("default_speed", PyFloat 5); ("note", PyStr "x")]
              "default_speed" (PyFloat 5) ["policy_params.default_speed"]
              eq_refl speed_patch_nodup)
    as [q [Hq [Hdecl _]]].
  - simpl. lia.
  - reflexivity.
  - reflexivity.
  - vm_compute. reflexivity.
  - exists q. split; [exact Hq |].
    apply (Hdecl [("min", PyFloat (5 # 100)); ("max", PyInt 1)] (5 # 100) (inject_Z 1));
      try reflexivity.
    vm_compute. discriminate.
Defined.

Lemma apply_patch_only_adds_witness :
  apply_patch default_taskspec (PyList [PyStr "policy_params"])
  = (default_taskspec, Ok []).
Proof.
  apply (proj2 (proj2 (apply_patch_only_adds default_taskspec
                         (PyList [PyStr "policy_params"])))).
  intros d pp [E _]. discriminate E.
Defined.

Lemma load_taskspec_keeps_defaults_witness :
  match @load_taskspec example_runtime
          (Some (Ok (PyDict [("instruction", PyStr "from file");
                             ("policy_params", PyDict [("default_speed", PyBool true)]);
                             ("safety", PyDict [("max_step_ms", PyInt 500)])])))
          (Some "from command line") with
  | Ok spec =>
      is_Some (policy_params spec !! "center_margin")
      /\ instruction spec = "from command line"
  | Raise _ => False
  end.
Proof.
  destruct (@load_taskspec example_runtime _ _) as [spec | e] eqn:Hload.
  - destruct (@load_taskspec_keeps_defaults example_runtime _ _ spec Hload)
      as [Hpp [_ Hinstr]].
    split.
    + apply Hpp. vm_compute. eauto.
    + apply Hinstr. reflexivity.
  - vm_compute in Hload. discriminate Hload.
Defined.

(** ** Exploration *)

Lemma perturb_other (gauss : nat -> Q) (key : string) (lo hi : Q)
    (st : explore_state) (k : string) :
  k <> key -> ex_params (perturb gauss key lo hi st) !! k = ex_params st !! k.
Proof.
  intros Hne. unfold perturb. destruct (ex_params st !! key) as [v |]; [| reflexivity].
  destruct (Qltb _ _); cbn [ex_params]; [| reflexivity].
  apply lookup_insert_ne. congruence.
Qed.

Lemma perturb_dom (gauss : nat -> Q) (key : string) (lo hi : Q)
    (st : explore_state) (k : string) :
  is_Some (ex_params (perturb gauss key lo hi st) !! k) <-> is_Some (ex_params st !! k).
Proof.
  destruct (decide (k = key)) as [-> | Hne]; [| rewrite perturb_other by exact Hne; tauto].
  unfold perturb. destruct (ex_params st !! key) as [v |] eqn:Ev.
  - destruct (Qltb _ _); cbn [ex_params].
    + rewrite lookup_insert_eq. split; eauto.
    + rewrite Ev. tauto.
  - rewrite Ev. tauto.
Qed.

Lemma perturb_changed (gauss : nat -> Q) (key : string) (lo hi : Q)
    (st : explore_state) :
  ex_changed (perturb gauss key lo hi st) = ex_changed st
  \/ (ex_changed (perturb gauss key lo hi st) = (ex_changed st ++ [key])%list
      /\ is_Some (ex_params st !! key)
      /\ exists nv,
           ex_params (perturb gauss key lo hi st) !! key = Some nv
           /\ lo <= nv /\ (lo <= hi -> nv <= hi)).
Proof.
  unfold perturb. destruct (ex_params st !! key) as [v |] eqn:Ev; [| left; reflexivity].
  destruct (Qltb _ _); cbn [ex_params ex_changed]; [| left; reflexivity].
  right. split; [reflexivity |]. split; [eauto |].
  eexists. split; [apply lookup_insert_eq |].
  split; [apply py_max_lub |]. intros Hle. order_cases.
Qed.

Lemma perturb_all_other (gauss : nat -> Q) (ranges : list (string * (Q * Q)))
    (st : explore_state) (k : string) :
  ~ In k (map fst ranges) ->
  ex_params (perturb_all gauss ranges st) !! k = ex_params st !! k.
Proof.
  revert st. induction ranges as [| [key [lo hi]] rest IH]; intros st Hk; [reflexivity |].
  simpl in Hk. unfold perturb_all in *. simpl. rewrite IH by tauto.
  apply perturb_other. intros ->. tauto.
Qed.

Lemma perturb_all_dom (gauss : nat -> Q) (ranges : list (string * (Q * Q)))
    (st : explore_state) (k : string) :
  is_Some (ex_params (perturb_all gauss ranges st) !! k) <-> is_Some (ex_params st !! k).
Proof.
  revert st. induction ranges as [| [key [lo hi]] rest IH]; intros st; [tauto |].
  unfold perturb_all in *. simpl. rewrite IH. apply perturb_dom.
Qed.

Lemma perturb_all_changed (gauss : nat -> Q) (ranges : list (string * (Q * Q)))
    (st : explore_state) (k : string) :
  In k (ex_changed (perturb_all gauss ranges st)) ->
  In k (ex_changed st) \/ (In k (map fst ranges) /\ is_Some (ex_params st !! k)).
Proof.
  revert st. induction ranges as [| [key [lo hi]] rest IH]; intros st Hin; [auto |].
  unfold perturb_all in *. simpl in Hin.
  destruct (IH _ Hin) as [Hc | [Hr Hs]].
  - destruct (perturb_changed gauss key lo hi st) as [E | [E [Hs _]]];
      simpl in E; rewrite E in Hc; [auto |].
    apply in_app_or in Hc. destruct Hc as [Hc | [<- | []]]; [auto |].
    right. simpl. auto.
  - right. simpl. split; [auto |]. apply perturb_dom in Hs. exact Hs.
Qed.

Lemma perturb_all_range (gauss : nat -> Q) (ranges : list (string * (Q * Q)))
    (st : explore_state) (k : string) :
  List.NoDup (map fst ranges) ->
  In k (ex_changed (perturb_all gauss ranges st)) ->
  ~ In k (ex_changed st) ->
  exists lo hi nv,
    In (k, (lo, hi)) ranges
    /\ ex_params (perturb_all gauss ranges st) !! k = Some nv
    /\ lo <= nv /\ (lo <= hi -> nv <= hi).
Proof.
  revert st. induction ranges as [| [key [lo hi]] rest IH]; intros st Hnd Hin Hnot.
  - contradiction.
  - inversion Hnd as [| ? ? Hfresh Hnd']; subst.
    assert (Hstep : perturb_all gauss ((key, (lo, hi)) :: rest) st
                    = perturb_all gauss rest (perturb gauss key lo hi st))
      by reflexivity.
    rewrite Hstep in *.
    destruct (String.eqb k key) eqn:Ek.
    + apply String.eqb_eq in Ek. subst k.
      destruct (perturb_all_changed _ _ _ _ Hin) as [Hc | [Hr _]]; [| contradiction].
      destruct (perturb_changed gauss key lo hi st) as [E | [_ [_ [nv [Hnv Hb]]]]].
      * rewrite E in Hc. contradiction.
      * exists lo, hi, nv. split; [left; reflexivity |].
        rewrite perturb_all_other by exact Hfresh. auto.
    + apply String.eqb_neq in Ek.
      assert (Hnot' : ~ In k (ex_changed (perturb gauss key lo hi st))).
      { destruct (perturb_changed gauss key lo hi st) as [E | [E _]]; rewrite E;
          [exact Hnot |].
        intros Hc. apply in_app_or in Hc. destruct Hc as [Hc | [Hc | []]];
          [contradiction | congruence]. }
      destruct (IH _ Hnd' Hin Hnot') as (lo' & hi' & nv & Hr & Hrest).
      exists lo', hi', nv. split; [right; exact Hr | exact Hrest].
Qed.

Section ExploreProperties.
Context `{Builtins}.

Lemma _auto_explore_unfold (gauss : nat -> Q) (spec : TaskSpec)
    (after : TaskSpec) (changed : list string) :
  _auto_explore gauss spec = Ok (after, changed) ->
  (after = spec /\ changed = [])
  \/ exists mstep,
       max_step_ms spec = Ok mstep
       /\ let st := perturb_all gauss (explore_ranges mstep)
                      {| ex_params := policy_params spec; ex_changed := [];
                         ex_draws := 0 |} in
          after = with_policy_params spec (ex_params st) /\ changed = ex_changed st.
Proof.
  unfold _auto_explore. destruct (Qle_bool _ 0).
  - intros E; inversion E. auto.
  - destruct (max_step_ms spec) as [mstep | e]; cbn [bind]; [| discriminate].
    intros E; inversion E. right. exists mstep. split; [reflexivity |].
    split; reflexivity.
Qed.

(** X22. With [explore_sigma] at or below zero, [_auto_explore] reports
    no changed key and leaves the task state as it is; it does not even
    read [max_step_ms]. *)
Theorem _auto_explore_disabled (gauss : nat -> Q) (spec : TaskSpec) :
  default (12 # 100) (policy_params spec !! "explore_sigma") <= 0 ->
  _auto_explore gauss spec = Ok (spec, []).
Proof.
  intros Hsigma. unfold _auto_explore.
  apply Qle_bool_iff in Hsigma. rewrite Hsigma. reflexivity.
Qed.

(** X23. [_auto_explore] changes nothing but the five parameters it
    names, and of those only the ones the task state already has: it
    adds and removes no key, leaves every other parameter and field
    untouched, and every key it reports as changed is one of the five
    and was present. *)
Theorem _auto_explore_touches_known_keys (gauss : nat -> Q) (spec after : TaskSpec)
    (changed : list string) :
  _auto_explore gauss spec = Ok (after, changed) ->
  after = with_policy_params spec (policy_params after)
  /\ (forall k, is_Some (policy_params after !! k) <-> is_Some (policy_params spec !! k))
  /\ (forall k, ~ In k explored_keys ->
                policy_params after !! k = policy_params spec !! k)
  /\ (forall k, In k changed ->
                In k explored_keys /\ is_Some (policy_params spec !! k)).
Proof.
  intros Hrun.
  destruct (_auto_explore_unfold _ _ _ _ Hrun) as [[-> ->] | (mstep & _ & Hafter & ->)].
  - split; [destruct spec; reflexivity |]. split; [tauto |].
    split; [reflexivity | contradiction].
  - cbv zeta in Hafter. subst after. cbn [policy_params with_policy_params].
    split; [reflexivity |]. split; [| split].
    + intros k. apply perturb_all_dom.
    + intros k Hk. apply perturb_all_other. exact Hk.
    + intros k Hk. destruct (perturb_all_changed _ _ _ _ Hk) as [[] | Hr]. exact Hr.
Qed.

(** X24. A parameter [_auto_explore] reports as changed ends inside the
    range the code clamps it to: at least the lower bound, and at most
    the upper bound whenever the bounds are in order (for the durations
    the upper bound is [max_step_ms]). *)
Theorem _auto_explore_changed_in_range (gauss : nat -> Q) (spec after : TaskSpec)
    (changed : list string) (k : string) :
  _auto_explore gauss spec = Ok (after, changed) ->
  In k changed ->
  exists mstep lo hi nv,
    max_step_ms spec = Ok mstep
    /\ In (k, (lo, hi)) (explore_ranges mstep)
    /\ policy_params after !! k = Some nv
    /\ lo <= nv /\ (lo <= hi -> nv <= hi).
Proof.
  intros Hrun Hk.
  destruct (_auto_explore_unfold _ _ _ _ Hrun) as [[-> ->] | (mstep & Hm & Hafter & ->)];
    [contradiction |].
  cbv zeta in Hafter. subst after. cbn [policy_params with_policy_params].
  assert (Hnd : List.NoDup (map fst (explore_ranges mstep))).
  { simpl. repeat constructor; simpl; intuition discriminate. }
  destruct (perturb_all_range gauss _ _ k Hnd Hk) as (lo & hi & nv & Hr & Hrest).
  { simpl. tauto. }
  exists mstep, lo, hi, nv. auto.
Qed.

End ExploreProperties.

Lemma _auto_explore_disabled_witness :
  let spec := with_policy_params default_taskspec
                (<["explore_sigma" := 0]> (policy_params default_taskspec)) in
  @_auto_explore example_runtime (fun _ => 1 # 2) spec = Ok (spec, []).
Proof.
  intros spec. apply (@_auto_explore_disabled example_runtime).
  vm_compute. discriminate.
Defined.

Lemma _auto_explore_touches_known_keys_witness :
  match @_auto_explore example_runtime (fun _ => 1 # 2) default_taskspec with
  | Ok (after, changed) =>
      forall k, In k changed ->
                In k explored_keys /\ is_Some (policy_params default_taskspec !! k)
  | Raise _ => False
  end.
Proof.
  destruct (@_auto_explore example_runtime (fun _ => 1 # 2) default_taskspec)
    as [[after changed] | e] eqn:Hrun.
  - apply (@_auto_explore_touches_known_keys example_runtime _ _ _ _ Hrun).
  - vm_compute in Hrun. discriminate Hrun.
Defined.

Lemma _auto_explore_changed_in_range_witness :
  match @_auto_explore example_runtime (fun _ => 1 # 2) default_taskspec with
  | Ok (after, changed) =>
      exists mstep lo hi nv,
        @max_step_ms example_runtime default_taskspec = Ok mstep
        /\ In ("default_speed", (lo, hi)) (explore_ranges mstep)
        /\ policy_params after !! "default_speed" = Some nv
        /\ lo <= nv /\ (lo <= hi -> nv <= hi)
  | Raise _ => False
  end.
Proof.
  destruct (@_auto_explore example_runtime (fun _ => 1 # 2) default_taskspec)
    as [[after changed] | e] eqn:Hrun.
  - apply (@_auto_explore_changed_in_range example_runtime _ _ _ _ _ Hrun).
    vm_compute in Hrun. inversion Hrun. left. reflexivity.
  - vm_compute in Hrun. discriminate Hrun.
Defined.

(** ** Rollout step, perception fallback, credentials *)

Section RolloutProperties.
Context `{Builtins}.

Lemma plan_next_step_openai_valid (api_key : option string) (net : transport)
    (system_manifest : pydict) (spec : TaskSpec) (p : list PlanStep) (why : string) :
  plan_next_step_openai api_key net system_manifest spec = Ok (p, why) ->
  valid_plan p.
Proof.
  unfold plan_next_step_openai. destruct (negb (opt_truthy api_key)).
  - intros E; inversion E. left. reflexivity.
  - destruct (max_step_ms spec) as [m | e]; cbn [bind]; [| discriminate].
    destruct (responses_json_schema api_key net) as [[out payload] | e];
      cbn [bind]; [| discriminate].
    apply plan_of_output_valid.
Qed.

(** X25. Whatever a rollout step hands to the executor is [[STOP]] or
    [[RUN, STOP]], whether it comes from the shield, the planner or the
    fallback; and with no box in sight the step is a shield override with
    plan [[STOP]], the planner not being asked. *)
Theorem rollout_plan_valid (tracker : TrackerOutput) (spec : TaskSpec)
    (caps : CapabilityMapping) (system_manifest : pydict)
    (api_key : option string) (net : transport)
    (p : list PlanStep) (why : string) (shielded : bool) :
  rollout_plan tracker spec caps system_manifest api_key net = Ok (p, why, shielded) ->
  valid_plan p
  /\ (bbox tracker = None ->
      p = [STOP] /\ why = "shield:not_visible" /\ shielded = true).
Proof.
  unfold rollout_plan.
  destruct (maybe_override tracker spec caps system_manifest) as [shield | e] eqn:Es;
    cbn [bind]; [| discriminate].
  assert (Hlost : bbox tracker = None -> shield = Some (stop_decision "not_visible")).
  { intros Hb. unfold maybe_override in Es. rewrite Hb in Es.
    destruct (visible_conf_min spec); cbn [bind] in Es; [| discriminate].
    destruct (max_step_ms spec); cbn [bind] in Es; [| discriminate].
    inversion Es. reflexivity. }
  destruct shield as [d |].
  - intros E; inversion E; subst. split.
    + destruct (maybe_override_cases _ _ _ _ _ Es)
        as [[w ->] | (m & w & tg & tk & a & cfg & _ & ->)]; simpl;
        [left; reflexivity | right; eauto].
    + intros Hb. specialize (Hlost Hb). inversion Hlost; subst. auto.
  - intros Hrun. split; [| intros Hb; specialize (Hlost Hb); discriminate].
    destruct (plan_next_step_openai api_key net system_manifest spec)
      as [[p0 why0] | e] eqn:Ep; cbn [bind] in Hrun; [| discriminate].
    pose proof (plan_next_step_openai_valid _ _ _ _ _ _ Ep) as Hvalid.
    destruct p0 as [| [| t k a d] rest].
    + inversion Hrun; subst. exact Hvalid.
    + unfold plan_next_step_fallback in Hrun.
      destruct (contains "stop" (lower (instruction spec))); simpl in Hrun;
        inversion Hrun; subst; [left; reflexivity | exact Hvalid].
    + inversion Hrun; subst. exact Hvalid.
Qed.

(** X26. What the perception fallback reports is well-formed: confidence
    and margin lie in [0, 1]; a box, when there is one, has x and y in
    [0, 1] and w and h in (0, 1]; and when there is no box, confidence
    and margin are zero. *)
Theorem detect_robot_bbox_openai_well_formed (api_key : option string)
    (net : transport) (roi : Rect) (t : TrackerOutput) :
  detect_robot_bbox_openai api_key net roi = Ok t ->
  0 <= visibility_confidence t /\ visibility_confidence t <= 1
  /\ 0 <= edge_margin t /\ edge_margin t <= 1
  /\ match bbox t with
     | Some b =>
         0 <= bx b /\ bx b <= 1 /\ 0 <= by_ b /\ by_ b <= 1
         /\ 0 < bw b /\ bw b <= 1 /\ 0 < bh b /\ bh b <= 1
     | None => visibility_confidence t = 0 /\ edge_margin t = 0
     end.
Proof.
  assert (Hnone : forall why,
            0 <= visibility_confidence (no_detection why)
            /\ visibility_confidence (no_detection why) <= 1
            /\ 0 <= edge_margin (no_detection why)
            /\ edge_margin (no_detection why) <= 1
            /\ match bbox (no_detection why) with
               | Some b =>
                   0 <= bx b /\ bx b <= 1 /\ 0 <= by_ b /\ by_ b <= 1
                   /\ 0 < bw b /\ bw b <= 1 /\ 0 < bh b /\ bh b <= 1
               | None => visibility_confidence (no_detection why) = 0
                         /\ edge_margin (no_detection why) = 0
               end).
  { intros why. simpl. repeat split; lra. }
  unfold detect_robot_bbox_openai.
  destruct (negb (opt_truthy api_key)); [intros E; inversion E; apply Hnone |].
  destruct (responses_json_schema api_key net) as [[out payload] | e];
    cbn [bind fst]; [| discriminate].
  destruct (py_float _) as [conf | e]; cbn [bind]; [| discriminate].
  destruct (get out "bbox") as [| | | | | | bbox_raw];
    try (intros E; inversion E; apply Hnone).
  destruct (negb (py_bool (get out "found"))); [intros E; inversion E; apply Hnone |].
  destruct (parse_bbox bbox_raw) as [b |] eqn:Eb; [| intros E; inversion E; apply Hnone].
  intros E; inversion E; subst; clear E. cbn [visibility_confidence edge_margin bbox].
  destruct (_clamp_unit_interval conf) as [Hc0 Hc1].
  split; [exact Hc0 |]. split; [exact Hc1 |].
  split; [apply _clamp_unit_interval |]. split; [apply _clamp_unit_interval |].
  unfold parse_bbox in Eb.
  destruct (py_float (get_or bbox_raw "x" _)) as [x |]; [| discriminate].
  destruct (py_float (get_or bbox_raw "y" _)) as [y |]; [| discriminate].
  destruct (py_float (get_or bbox_raw "w" _)) as [w |]; [| discriminate].
  destruct (py_float (get_or bbox_raw "h" _)) as [h |]; [| discriminate].
  cbn [bw bh] in Eb.
  destruct (Qle_bool (_clamp w 0 1) 0) eqn:Ew; [discriminate |].
  destruct (Qle_bool (_clamp h 0 1) 0) eqn:Eh; [discriminate |].
  inversion Eb; subst; clear Eb. cbn [bx by_ bw bh].
  apply not_true_iff_false in Ew, Eh. rewrite Qle_bool_iff in Ew, Eh.
  apply Qnot_le_lt in Ew, Eh.
  destruct (_clamp_unit_interval x), (_clamp_unit_interval y),
    (_clamp_unit_interval w), (_clamp_unit_interval h).
  repeat split; assumption.
Qed.

(** X27. A cached detection that is at most [max_age_ms] old and has a
    box is returned as it is, with the cache entry unchanged, without
    looking at the credentials or the service; in every other case the
    entry returned is stamped with the current time and holds exactly
    the detection returned. *)
Theorem maybe_openai_perception_cache (cached : option CachedPerception) (now_ms : Z)
    (api_key : option string) (net : transport) (roi : Rect) (max_age_ms : Z) :
  (forall c b,
     cached = Some c ->
     (now_ms - ts_ms c <= max_age_ms)%Z ->
     bbox (cached_out c) = Some b ->
     maybe_openai_perception cached now_ms api_key net roi max_age_ms
     = Ok (cached_out c, c))
  /\ (forall out entry,
        (forall c, cached = Some c ->
                   (max_age_ms < now_ms - ts_ms c)%Z \/ bbox (cached_out c) = None) ->
        maybe_openai_perception cached now_ms api_key net roi max_age_ms
        = Ok (out, entry) ->
        detect_robot_bbox_openai api_key net roi = Ok out
        /\ entry = {| ts_ms := now_ms; cached_out := out |}).
Proof.
  unfold maybe_openai_perception. split.
  - intros c b -> Hage Hb. apply Z.leb_le in Hage. rewrite Hage, Hb. reflexivity.
  - intros out entry Hstale.
    assert (Hfresh : forall r : result (TrackerOutput * CachedPerception),
              (do o <- detect_robot_bbox_openai api_key net roi ;
               Ok (o, {| ts_ms := now_ms; cached_out := o |})) = Ok (out, entry) ->
              detect_robot_bbox_openai api_key net roi = Ok out
              /\ entry = {| ts_ms := now_ms; cached_out := out |}).
    { intros _. destruct (detect_robot_bbox_openai api_key net roi); cbn [bind];
        [| discriminate].
      intros E; inversion E; subst. auto. }
    destruct cached as [c |]; [| apply (Hfresh (Raise TypeError))].
    destruct (Hstale c eq_refl) as [Hold | Hnone].
    + apply Z.leb_gt in Hold. rewrite Hold. cbn [andb].
      apply (Hfresh (Raise TypeError)).
    + rewrite Hnone, andb_false_r. apply (Hfresh (Raise TypeError)).
Qed.

End RolloutProperties.

(** X28. The API key the engine finds is never blank: it is a non-empty
    string without white space around it, so that the test
    [if not openai_api_key()] fails exactly when no key was found; and a
    non-blank [OPENAI_API_KEY] of the process environment wins over every
    other source. *)
Theorem openai_api_key_not_blank (environ file_env : gmap string string) :
  (forall key,
     openai_api_key environ file_env = Some key ->
     opt_truthy (Some key) = true /\ strip key = key)
  /\ (forall v,
        environ !! "OPENAI_API_KEY" = Some v ->
        str_nonempty (strip v) = true ->
        openai_api_key environ file_env = Some (strip v)).
Proof.
  assert (Hfirst : forall env keys key,
            first_set env keys = Some key ->
            str_nonempty key = true /\ strip key = key).
  { intros env keys key. induction keys as [| k rest IH]; simpl; [discriminate |].
    destruct (env !! k) as [v |]; [| exact IH].
    destruct (str_nonempty (strip v)) eqn:Ev; [| exact IH].
    intros E; inversion E; subst. split; [exact Ev | apply strip_idempotent]. }
  unfold openai_api_key, _env_value. split.
  - intros key.
    destruct (first_set environ _) as [v |] eqn:Ee.
    + intros E; inversion E; subst. eapply Hfirst; eauto.
    + intros E. eapply Hfirst; eauto.
  - intros v Hv Hnb. simpl. rewrite Hv, Hnb. reflexivity.
Qed.

Lemma rollout_plan_valid_witness :
  valid_plan [STOP]
  /\ (bbox lost_tracker = None ->
      [STOP] = [STOP] /\ "shield:not_visible" = "shield:not_visible" /\ true = true).
Proof.
  apply (@rollout_plan_valid example_runtime lost_tracker default_taskspec no_caps []
           (Some "sk-test") (URLError "unreachable")).
  vm_compute. reflexivity.
Defined.

Lemma detect_robot_bbox_openai_well_formed_witness :
  match @detect_robot_bbox_openai perception_runtime (Some "sk-test")
          (Body bbox_body_text) {| rx := 0; ry := 0; rw := 1; rh := 1 |} with
  | Ok t =>
      bbox t = Some {| bx := 1 # 10; by_ := 2 # 10; bw := 3 # 10; bh := 1 |}
      /\ 0 <= edge_margin t /\ edge_margin t <= 1
  | Raise _ => False
  end.
Proof.
  destruct (@detect_robot_bbox_openai perception_runtime (Some "sk-test")
              (Body bbox_body_text) {| rx := 0; ry := 0; rw := 1; rh := 1 |})
    as [t | e] eqn:Hrun.
  - destruct (@detect_robot_bbox_openai_well_formed perception_runtime _ _ _ _ Hrun)
      as (_ & _ & Hm0 & Hm1 & _).
    split; [| split; assumption].
    vm_compute in Hrun. inversion Hrun. reflexivity.
  - vm_compute in Hrun. discriminate Hrun.
Defined.

Lemma maybe_openai_perception_cache_witness :
  let seen := {| bbox := Some {| bx := 1 # 10; by_ := 2 # 10; bw := 3 # 10; bh := 1 # 2 |};
                 visibility_confidence := 8 # 10; edge_margin := 1 # 10;
                 debug := [("reason", PyStr "openai_bbox")] |} in
  let entry := {| ts_ms := 1000; cached_out := seen |} in
  @maybe_openai_perception example_runtime (Some entry) 1900 None
    (URLError "unreachable") {| rx := 0; ry := 0; rw := 1; rh := 1 |} 900
  = Ok (seen, entry).
Proof.
  intros seen entry.
  apply (proj1 (@maybe_openai_perception_cache example_runtime (Some entry) 1900 None
                  (URLError "unreachable") {| rx := 0; ry := 0; rw := 1; rh := 1 |} 900)
           entry {| bx := 1 # 10; by_ := 2 # 10; bw := 3 # 10; bh := 1 # 2 |}).
  - reflexivity.
  - simpl. lia.
  - reflexivity.
Defined.

Lemma openai_api_key_not_blank_witness :
  openai_api_key (<["OPENAI_API_KEY" := "  sk-live  "]> ∅)
    (<["OPENAI_API_KEY" := "sk-file"]> ∅)
  = Some "sk-live".
Proof.
  apply (proj2 (openai_api_key_not_blank (<["OPENAI_API_KEY" := "  sk-live  "]> ∅)
                  (<["OPENAI_API_KEY" := "sk-file"]> ∅)) "  sk-live  ").
  - vm_compute. reflexivity.
  - reflexivity.
Defined.

(** ** The keyword heuristic *)

Lemma insert_sorted_In (x s : string) (l : list string) :
  In x (insert_sorted s l) <-> x = s \/ In x l.
Proof.
  induction l as [| t r IH]; simpl.
  - intuition congruence.
  - destruct (String.leb s t); simpl; [intuition congruence |].
    rewrite IH. intuition congruence.
Qed.

Lemma py_sorted_In (x : string) (l : list string) :
  In x (py_sorted l) <-> In x l.
Proof.
  induction l as [| t r IH]; simpl; [tauto |].
  rewrite insert_sorted_In, IH. intuition congruence.
Qed.

Lemma py_sorted_nonempty (l : list string) : l <> [] -> py_sorted l <> [].
Proof.
  destruct l as [| t r]; [congruence |]. intros _ Hnil.
  assert (Hin : In t (py_sorted (t :: r))) by (apply py_sorted_In; left; reflexivity).
  rewrite Hnil in Hin. destruct Hin.
Qed.

(** What a run of blocks does to the tags and the confidence. *)
Lemma apply_rules_grow (token text : string) (rs : list tag_rule) (st : list string * Q) :
  let st' := fold_left (apply_rule token text) rs st in
  snd st <= snd st'
  /\ (forall t, In t (fst st) -> In t (fst st'))
  /\ (forall t, In t (fst st') ->
        In t (fst st)
        \/ exists r, In r rs /\ rule_fires token text r = true /\ rule_tag r = t).
Proof.
  revert st. induction rs as [| r rs IH]; intros st; simpl.
  - split; [lra |]. split; [tauto |]. intros t Ht. left. exact Ht.
  - destruct (IH (apply_rule token text st r)) as (Hc & Hin & Hout).
    assert (Hstep : snd st <= snd (apply_rule token text st r)
                    /\ forall t, In t (fst st) -> In t (fst (apply_rule token text st r))).
    { unfold apply_rule. destruct (rule_fires token text r); simpl.
      - split; [order_cases |]. intros t Ht. apply in_or_app. left. exact Ht.
      - split; [lra | tauto]. }
    destruct Hstep as (Hc1 & Hin1).
    split; [lra |]. split; [intros t Ht; apply Hin, Hin1, Ht |].
    intros t Ht. destruct (Hout t Ht) as [Hst | (r' & Hr' & Hf & Htag)].
    + unfold apply_rule in Hst. destruct (rule_fires token text r) eqn:Hfire; simpl in Hst.
      * apply in_app_or in Hst. destruct Hst as [Hst | [Hst | []]]; [left; exact Hst |].
        right. exists r. auto.
      * left. exact Hst.
    + right. exists r'. auto.
Qed.

Lemma apply_rules_bounded (token text : string) (rs : list tag_rule)
      (st : list string * Q) (hi : Q) :
  List.Forall (fun r => conf_token r <= hi /\ conf_text r <= hi) rs ->
  snd st <= hi -> snd (fold_left (apply_rule token text) rs st) <= hi.
Proof.
  revert st. induction rs as [| r rs IH]; intros st Hall Hst; simpl; [exact Hst |].
  inversion Hall as [| r0 rs0 (Ht & Hx) Hrest]; subst.
  apply IH; [exact Hrest |].
  unfold apply_rule. destruct (rule_fires token text r); simpl; [| exact Hst].
  destruct (str_in token (rule_tokens r)); order_cases.
Qed.

Lemma apply_rules_fired (token text : string) (rs : list tag_rule)
      (st : list string * Q) (r : tag_rule) :
  In r rs -> rule_fires token text r = true ->
  let st' := fold_left (apply_rule token text) rs st in
  In (rule_tag r) (fst st')
  /\ (if str_in token (rule_tokens r) then conf_token r else conf_text r) <= snd st'.
Proof.
  revert st. induction rs as [| r0 rs IH]; intros st Hr Hfire; [destruct Hr |].
  simpl. destruct Hr as [-> | Hr]; [| apply IH; assumption].
  destruct (apply_rules_grow token text rs (apply_rule token text st r)) as (Hc & Hin & _).
  unfold apply_rule in Hc, Hin. rewrite Hfire in Hc, Hin. simpl in Hc, Hin.
  unfold apply_rule at 2 4. rewrite Hfire.
  split.
  - apply Hin. apply in_or_app. right. left. reflexivity.
  - eapply Qle_trans; [| exact Hc]. order_cases.
Qed.

Section SemanticsProperties.
Context `{Builtins}.

(** X29. [infer_tags_heuristic] always names at least one tag, every tag
    it names is one of [KNOWN_TAGS], and its confidence lies between 0.4
    and 0.9.  The fallback tag [generic.action] is never mixed with
    another tag: when it is named it is the only one, and the confidence
    is then exactly 0.4; otherwise the confidence is at least 0.45. *)
Theorem infer_tags_heuristic_known (command_spec : pydict) :
  let (tags, confidence) := infer_tags_heuristic command_spec in
  tags <> []
  /\ (forall t, In t tags -> In t KNOWN_TAGS)
  /\ 4 # 10 <= confidence /\ confidence <= 9 # 10
  /\ (In "generic.action" tags -> tags = ["generic.action"] /\ confidence = 4 # 10)
  /\ (~ In "generic.action" tags -> 45 # 100 <= confidence).
Proof.
  unfold infer_tags_heuristic.
  set (token := upper (strip (py_str (py_or (get command_spec "token") (PyStr ""))))).
  set (text := _blob command_spec).
  pose proof (apply_rules_grow token text tag_rules ([], 45 # 100)) as Hgrow.
  pose proof (apply_rules_bounded token text tag_rules ([], 45 # 100) (9 # 10)) as Hhi.
  destruct (fold_left (apply_rule token text) tag_rules ([], 45 # 100))
    as [tags confidence] eqn:Hfold.
  cbn [fst snd] in Hgrow, Hhi. destruct Hgrow as (Hlo & _ & Hout).
  assert (Hc9 : confidence <= 9 # 10).
  { apply Hhi; [| lra].
    unfold tag_rules. repeat constructor; simpl; lra. }
  assert (Hknown : forall t, In t tags -> In t KNOWN_TAGS /\ t <> "generic.action").
  { intros t Ht. destruct (Hout t Ht) as [[] | (r & Hr & _ & <-)].
    unfold tag_rules in Hr. simpl in Hr.
    repeat (destruct Hr as [<- | Hr]; [simpl; split; [tauto | discriminate] |]).
    destruct Hr. }
  destruct tags as [| t0 tags'].
  - simpl. split; [discriminate |]. split; [| split; [lra | split; [lra |]]].
    + intros t [<- | []]. simpl. tauto.
    + split; [intros _; split; reflexivity |].
      intros Hnot. exfalso. apply Hnot. left. reflexivity.
  - split; [apply py_sorted_nonempty; discriminate |].
    split; [intros t Ht; apply (proj1 (py_sorted_In _ _)) in Ht; apply Hknown, Ht |].
    split; [lra |]. split; [exact Hc9 |]. split.
    + intros Hg. apply (proj1 (py_sorted_In _ _)) in Hg. apply Hknown in Hg.
      destruct Hg as (_ & Hne). exfalso. apply Hne. reflexivity.
    + intros _. exact Hlo.
Qed.

(** X30. Every block of [infer_tags_heuristic] that fires leaves its mark
    on the result: when the upper-cased token is one of a block's tokens
    or one of its needles occurs in the text, the block's tag is among the
    returned tags and the returned confidence is at least the block's own
    (the higher one when the token matched, the lower one when only the
    text did).  Later blocks never remove a tag or lower the
    confidence. *)
Theorem infer_tags_heuristic_rule_fires (command_spec : pydict) (r : tag_rule) :
  let token := upper (strip (py_str (py_or (get command_spec "token") (PyStr "")))) in
  let text := _blob command_spec in
  In r tag_rules ->
  rule_fires token text r = true ->
  In (rule_tag r) (fst (infer_tags_heuristic command_spec))
  /\ conf_text r <= snd (infer_tags_heuristic command_spec)
  /\ (str_in token (rule_tokens r) = true ->
      conf_token r <= snd (infer_tags_heuristic command_spec)).
Proof.
  intros token text Hr Hfire.
  pose proof (apply_rules_fired token text tag_rules ([], 45 # 100) r Hr Hfire) as Hfired.
  unfold infer_tags_heuristic. fold token. fold text.
  destruct (fold_left (apply_rule token text) tag_rules ([], 45 # 100))
    as [tags confidence] eqn:Hfold.
  simpl in Hfired. destruct Hfired as (Hin & Hconf).
  destruct tags as [| t0 tags']; [destruct Hin |].
  cbn [fst snd].
  split; [apply (proj2 (py_sorted_In _ _)); exact Hin |].
  assert (Hord : conf_text r <= conf_token r).
  { unfold tag_rules in Hr. simpl in Hr.
    repeat (destruct Hr as [<- | Hr]; [simpl; lra |]). destruct Hr. }
  destruct (str_in token (rule_tokens r)); split; try lra; intros; try lra; discriminate.
Qed.

End SemanticsProperties.

Lemma infer_tags_heuristic_rule_fires_witness :
  let spec := [("token", PyStr " fwd "); ("description", PyStr "Drive ahead")] in
  let r := {| rule_tokens := ["FWD"; "FORWARD"];
              rule_needles := ["forward"; "move forward"; "go forward"; "drive forward"];
              rule_tag := "locomotion.forward";
              conf_token := 85 # 100; conf_text := 65 # 100 |} in
  In (rule_tag r) (fst (@infer_tags_heuristic example_runtime spec))
  /\ conf_text r <= snd (@infer_tags_heuristic example_runtime spec)
  /\ (str_in "FWD" (rule_tokens r) = true ->
      conf_token r <= snd (@infer_tags_heuristic example_runtime spec)).
Proof.
  intros spec r.
  apply (@infer_tags_heuristic_rule_fires example_runtime spec r).
  - unfold tag_rules. simpl. right. left. reflexivity.
  - vm_compute. reflexivity.
Defined.

Lemma infer_tags_heuristic_known_witness :
  let (tags, confidence) :=
    @infer_tags_heuristic example_runtime
      [("token", PyStr "FOO"); ("description", PyStr "Do thing")] in
  tags <> []
  /\ (forall t, In t tags -> In t KNOWN_TAGS)
  /\ 4 # 10 <= confidence /\ confidence <= 9 # 10
  /\ (In "generic.action" tags -> tags = ["generic.action"] /\ confidence = 4 # 10)
  /\ (~ In "generic.action" tags -> 45 # 100 <= confidence).
Proof.
  exact (@infer_tags_heuristic_known example_runtime
           [("token", PyStr "FOO"); ("description", PyStr "Do thing")]).
Defined.
